(** * make_ci.py: case-insensitive rewriting of ANTLR keyword files

    A shallow embedding of [src/main/antlr4/imports/make_ci.py], as CPython 3
    runs it on a POSIX system, and the properties of its line rewriter and
    of its command driver.

    Modelling choices.
    - A Python [str] is a list of code points.  [str.upper] and [str.lower]
      follow the full case mappings of Unicode 14.0, as CPython 3.11 applies
      them to each character: the two tables below list every character
      that they change.  ['%c'] takes one character and raises [TypeError]
      on a string of any other length.
    - String indices are [Z], with [-1] for "not found", as [str.find]
      returns them; slices follow Python's rules for negative and
      out-of-range bounds.
    - A file is the text its bytes decode to, in the encoding of the
      locale, taken to be UTF-8 (which encodes every string the program
      writes).  A file opened for reading is read with universal newlines:
      a carriage return, alone or followed by a line feed, is read as a
      line feed.  What is written is stored as it is written.
    - A file whose bytes do not decode is read a chunk at a time, and the
      chunk that does not decode raises [UnicodeDecodeError] as a whole:
      such a file is given by the text that reading hands over before it
      raises, which is nothing when the file is no longer than a chunk.
    - The file system is a finite map from file names to files; standard
      output is the string of all characters printed so far.  Opening a
      file that is not in the map for reading raises; opening for writing
      always succeeds and truncates; when an exception leaves the [with]
      block the output file keeps what was written before. *)

From Stdlib Require Import ZArith Lia List Bool Ascii.
From stdpp Require Import gmap strings.
Import ListNotations.

Local Open Scope Z_scope.

(** ** Characters and strings *)

(** A Python string: its code points. *)
Abbreviation str := (list N).

(** The string of an ASCII literal. *)
Definition u (s : string) : str :=
  map N_of_ascii (String.list_ascii_of_string s).

Definition LF : N := 10%N.
Definition CR : N := 13%N.
Definition TAB : N := 9%N.
Definition QUOTE : N := 39%N.
Definition SLASH : N := 47%N.

(** ** The case mappings of Unicode *)

Definition upper_table_0 : list (N * list N) :=
  [(97, [65]); (98, [66]); (99, [67]); (100, [68]); (101, [69]); (102, [70]);
   (103, [71]); (104, [72]); (105, [73]); (106, [74]); (107, [75]);
   (108, [76]); (109, [77]); (110, [78]); (111, [79]); (112, [80]);
   (113, [81]); (114, [82]); (115, [83]); (116, [84]); (117, [85]);
   (118, [86]); (119, [87]); (120, [88]); (121, [89]); (122, [90]);
   (181, [924]); (223, [83; 83]); (224, [192]); (225, [193]); (226, [194]);
   (227, [195]); (228, [196]); (229, [197]); (230, [198]); (231, [199]);
   (232, [200]); (233, [201]); (234, [202]); (235, [203]); (236, [204]);
   (237, [205]); (238, [206]); (239, [207]); (240, [208]); (241, [209]);
   (242, [210]); (243, [211]); (244, [212]); (245, [213]); (246, [214]);
   (248, [216]); (249, [217]); (250, [218]); (251, [219]); (252, [220]);
   (253, [221]); (254, [222]); (255, [376]); (257, [256]); (259, [258]);
   (261, [260]); (263, [262]); (265, [264]); (267, [266]); (269, [268]);
   (271, [270]); (273, [272]); (275, [274]); (277, [276]); (279, [278]);
   (281, [280]); (283, [282]); (285, [284]); (287, [286]); (289, [288]);
   (291, [290]); (293, [292]); (295, [294]); (297, [296]); (299, [298]);
   (301, [300]); (303, [302]); (305, [73]); (307, [306]); (309, [308]);
   (311, [310]); (314, [313]); (316, [315]); (318, [317]); (320, [319]);
   (322, [321]); (324, [323]); (326, [325]); (328, [327]); (329, [700; 78]);
   (331, [330]); (333, [332]); (335, [334]); (337, [336]); (339, [338]);
   (341, [340]); (343, [342]); (345, [344]); (347, [346]); (349, [348]);
   (351, [350]); (353, [352]); (355, [354]); (357, [356]); (359, [358]);
   (361, [360]); (363, [362]); (365, [364]); (367, [366]); (369, [368]);
   (371, [370]); (373, [372]); (375, [374]); (378, [377]); (380, [379]);
   (382, [381]); (383, [83]); (384, [579]); (387, [386]); (389, [388]);
   (392, [391]); (396, [395]); (402, [401]); (405, [502]); (409, [408]);
   (410, [573]); (414, [544]); (417, [416]); (419, [418]); (421, [420]);
   (424, [423]); (429, [428]); (432, [431]); (436, [435]); (438, [437]);
   (441, [440]); (445, [444]); (447, [503]); (453, [452]); (454, [452]);
   (456, [455]); (457, [455]); (459, [458]); (460, [458]); (462, [461]);
   (464, [463]); (466, [465]); (468, [467]); (470, [469]); (472, [471]);
   (474, [473]); (476, [475]); (477, [398]); (479, [478]); (481, [480]);
   (483, [482]); (485, [484]); (487, [486]); (489, [488]); (491, [490]);
   (493, [492]); (495, [494]); (496, [74; 780]); (498, [497]); (499, [497]);
   (501, [500]); (505, [504]); (507, [506]); (509, [508]); (511, [510]);
   (513, [512]); (515, [514]); (517, [516]); (519, [518]); (521, [520]);
   (523, [522]); (525, [524]); (527, [526]); (529, [528]); (531, [530]);
   (533, [532]); (535, [534]); (537, [536]); (539, [538]); (541, [540]);
   (543, [542]); (547, [546]); (549, [548]); (551, [550]); (553, [552]);
   (555, [554]); (557, [556]); (559, [558]); (561, [560])]%N.

Definition upper_table_1 : list (N * list N) :=
  [(563, [562]); (572, [571]); (575, [11390]); (576, [11391]); (578, [577]);
   (583, [582]); (585, [584]); (587, [586]); (589, [588]); (591, [590]);
   (592, [11375]); (593, [11373]); (594, [11376]); (595, [385]);
   (596, [390]); (598, [393]); (599, [394]); (601, [399]); (603, [400]);
   (604, [42923]); (608, [403]); (609, [42924]); (611, [404]);
   (613, [42893]); (614, [42922]); (616, [407]); (617, [406]);
   (618, [42926]); (619, [11362]); (620, [42925]); (623, [412]);
   (625, [11374]); (626, [413]); (629, [415]); (637, [11364]); (640, [422]);
   (642, [42949]); (643, [425]); (647, [42929]); (648, [430]); (649, [580]);
   (650, [433]); (651, [434]); (652, [581]); (658, [439]); (669, [42930]);
   (670, [42928]); (837, [921]); (881, [880]); (883, [882]); (887, [886]);
   (891, [1021]); (892, [1022]); (893, [1023]); (912, [921; 776; 769]);
   (940, [902]); (941, [904]); (942, [905]); (943, [906]);
   (944, [933; 776; 769]); (945, [913]); (946, [914]); (947, [915]);
   (948, [916]); (949, [917]); (950, [918]); (951, [919]); (952, [920]);
   (953, [921]); (954, [922]); (955, [923]); (956, [924]); (957, [925]);
   (958, [926]); (959, [927]); (960, [928]); (961, [929]); (962, [931]);
   (963, [931]); (964, [932]); (965, [933]); (966, [934]); (967, [935]);
   (968, [936]); (969, [937]); (970, [938]); (971, [939]); (972, [908]);
   (973, [910]); (974, [911]); (976, [914]); (977, [920]); (981, [934]);
   (982, [928]); (983, [975]); (985, [984]); (987, [986]); (989, [988]);
   (991, [990]); (993, [992]); (995, [994]); (997, [996]); (999, [998]);
   (1001, [1000]); (1003, [1002]); (1005, [1004]); (1007, [1006]);
   (1008, [922]); (1009, [929]); (1010, [1017]); (1011, [895]);
   (1013, [917]); (1016, [1015]); (1019, [1018]); (1072, [1040]);
   (1073, [1041]); (1074, [1042]); (1075, [1043]); (1076, [1044]);
   (1077, [1045]); (1078, [1046]); (1079, [1047]); (1080, [1048]);
   (1081, [1049]); (1082, [1050]); (1083, [1051]); (1084, [1052]);
   (1085, [1053]); (1086, [1054]); (1087, [1055]); (1088, [1056]);
   (1089, [1057]); (1090, [1058]); (1091, [1059]); (1092, [1060]);
   (1093, [1061]); (1094, [1062]); (1095, [1063]); (1096, [1064]);
   (1097, [1065]); (1098, [1066]); (1099, [1067]); (1100, [1068]);
   (1101, [1069]); (1102, [1070]); (1103, [1071]); (1104, [1024]);
   (1105, [1025]); (1106, [1026]); (1107, [1027]); (1108, [1028]);
   (1109, [1029]); (1110, [1030]); (1111, [1031]); (1112, [1032]);
   (1113, [1033]); (1114, [1034]); (1115, [1035]); (1116, [1036]);
   (1117, [1037]); (1118, [1038]); (1119, [1039]); (1121, [1120]);
   (1123, [1122]); (1125, [1124]); (1127, [1126]); (1129, [1128]);
   (1131, [1130]); (1133, [1132]); (1135, [1134]); (1137, [1136]);
   (1139, [1138]); (1141, [1140]); (1143, [1142]); (1145, [1144]);
   (1147, [1146]); (1149, [1148]); (1151, [1150]); (1153, [1152]);
   (1163, [1162]); (1165, [1164]); (1167, [1166]); (1169, [1168]);
   (1171, [1170]); (1173, [1172]); (1175, [1174]); (1177, [1176]);
   (1179, [1178]); (1181, [1180]); (1183, [1182]); (1185, [1184]);
   (1187, [1186]); (1189, [1188]); (1191, [1190]); (1193, [1192]);
   (1195, [1194]); (1197, [1196]); (1199, [1198]); (1201, [1200]);
   (1203, [1202])]%N.

Definition upper_table_2 : list (N * list N) :=
  [(1205, [1204]); (1207, [1206]); (1209, [1208]); (1211, [1210]);
   (1213, [1212]); (1215, [1214]); (1218, [1217]); (1220, [1219]);
   (1222, [1221]); (1224, [1223]); (1226, [1225]); (1228, [1227]);
   (1230, [1229]); (1231, [1216]); (1233, [1232]); (1235, [1234]);
   (1237, [1236]); (1239, [1238]); (1241, [1240]); (1243, [1242]);
   (1245, [1244]); (1247, [1246]); (1249, [1248]); (1251, [1250]);
   (1253, [1252]); (1255, [1254]); (1257, [1256]); (1259, [1258]);
   (1261, [1260]); (1263, [1262]); (1265, [1264]); (1267, [1266]);
   (1269, [1268]); (1271, [1270]); (1273, [1272]); (1275, [1274]);
   (1277, [1276]); (1279, [1278]); (1281, [1280]); (1283, [1282]);
   (1285, [1284]); (1287, [1286]); (1289, [1288]); (1291, [1290]);
   (1293, [1292]); (1295, [1294]); (1297, [1296]); (1299, [1298]);
   (1301, [1300]); (1303, [1302]); (1305, [1304]); (1307, [1306]);
   (1309, [1308]); (1311, [1310]); (1313, [1312]); (1315, [1314]);
   (1317, [1316]); (1319, [1318]); (1321, [1320]); (1323, [1322]);
   (1325, [1324]); (1327, [1326]); (1377, [1329]); (1378, [1330]);
   (1379, [1331]); (1380, [1332]); (1381, [1333]); (1382, [1334]);
   (1383, [1335]); (1384, [1336]); (1385, [1337]); (1386, [1338]);
   (1387, [1339]); (1388, [1340]); (1389, [1341]); (1390, [1342]);
   (1391, [1343]); (1392, [1344]); (1393, [1345]); (1394, [1346]);
   (1395, [1347]); (1396, [1348]); (1397, [1349]); (1398, [1350]);
   (1399, [1351]); (1400, [1352]); (1401, [1353]); (1402, [1354]);
   (1403, [1355]); (1404, [1356]); (1405, [1357]); (1406, [1358]);
   (1407, [1359]); (1408, [1360]); (1409, [1361]); (1410, [1362]);
   (1411, [1363]); (1412, [1364]); (1413, [1365]); (1414, [1366]);
   (1415, [1333; 1362]); (4304, [7312]); (4305, [7313]); (4306, [7314]);
   (4307, [7315]); (4308, [7316]); (4309, [7317]); (4310, [7318]);
   (4311, [7319]); (4312, [7320]); (4313, [7321]); (4314, [7322]);
   (4315, [7323]); (4316, [7324]); (4317, [7325]); (4318, [7326]);
   (4319, [7327]); (4320, [7328]); (4321, [7329]); (4322, [7330]);
   (4323, [7331]); (4324, [7332]); (4325, [7333]); (4326, [7334]);
   (4327, [7335]); (4328, [7336]); (4329, [7337]); (4330, [7338]);
   (4331, [7339]); (4332, [7340]); (4333, [7341]); (4334, [7342]);
   (4335, [7343]); (4336, [7344]); (4337, [7345]); (4338, [7346]);
   (4339, [7347]); (4340, [7348]); (4341, [7349]); (4342, [7350]);
   (4343, [7351]); (4344, [7352]); (4345, [7353]); (4346, [7354]);
   (4349, [7357]); (4350, [7358]); (4351, [7359]); (5112, [5104]);
   (5113, [5105]); (5114, [5106]); (5115, [5107]); (5116, [5108]);
   (5117, [5109]); (7296, [1042]); (7297, [1044]); (7298, [1054]);
   (7299, [1057]); (7300, [1058]); (7301, [1058]); (7302, [1066]);
   (7303, [1122]); (7304, [42570]); (7545, [42877]); (7549, [11363]);
   (7566, [42950]); (7681, [7680]); (7683, [7682]); (7685, [7684]);
   (7687, [7686]); (7689, [7688]); (7691, [7690]); (7693, [7692]);
   (7695, [7694]); (7697, [7696]); (7699, [7698]); (7701, [7700]);
   (7703, [7702]); (7705, [7704]); (7707, [7706]); (7709, [7708]);
   (7711, [7710]); (7713, [7712]); (7715, [7714]); (7717, [7716]);
   (7719, [7718]); (7721, [7720]); (7723, [7722]); (7725, [7724]);
   (7727, [7726]); (7729, [7728]); (7731, [7730]); (7733, [7732]);
   (7735, [7734]); (7737, [7736]); (7739, [7738]); (7741, [7740]);
   (7743, [7742]); (7745, [7744]); (7747, [7746]); (7749, [7748])]%N.

Definition upper_table_3 : list (N * list N) :=
  [(7751, [7750]); (7753, [7752]); (7755, [7754]); (7757, [7756]);
   (7759, [7758]); (7761, [7760]); (7763, [7762]); (7765, [7764]);
   (7767, [7766]); (7769, [7768]); (7771, [7770]); (7773, [7772]);
   (7775, [7774]); (7777, [7776]); (7779, [7778]); (7781, [7780]);
   (7783, [7782]); (7785, [7784]); (7787, [7786]); (7789, [7788]);
   (7791, [7790]); (7793, [7792]); (7795, [7794]); (7797, [7796]);
   (7799, [7798]); (7801, [7800]); (7803, [7802]); (7805, [7804]);
   (7807, [7806]); (7809, [7808]); (7811, [7810]); (7813, [7812]);
   (7815, [7814]); (7817, [7816]); (7819, [7818]); (7821, [7820]);
   (7823, [7822]); (7825, [7824]); (7827, [7826]); (7829, [7828]);
   (7830, [72; 817]); (7831, [84; 776]); (7832, [87; 778]);
   (7833, [89; 778]); (7834, [65; 702]); (7835, [7776]); (7841, [7840]);
   (7843, [7842]); (7845, [7844]); (7847, [7846]); (7849, [7848]);
   (7851, [7850]); (7853, [7852]); (7855, [7854]); (7857, [7856]);
   (7859, [7858]); (7861, [7860]); (7863, [7862]); (7865, [7864]);
   (7867, [7866]); (7869, [7868]); (7871, [7870]); (7873, [7872]);
   (7875, [7874]); (7877, [7876]); (7879, [7878]); (7881, [7880]);
   (7883, [7882]); (7885, [7884]); (7887, [7886]); (7889, [7888]);
   (7891, [7890]); (7893, [7892]); (7895, [7894]); (7897, [7896]);
   (7899, [7898]); (7901, [7900]); (7903, [7902]); (7905, [7904]);
   (7907, [7906]); (7909, [7908]); (7911, [7910]); (7913, [7912]);
   (7915, [7914]); (7917, [7916]); (7919, [7918]); (7921, [7920]);
   (7923, [7922]); (7925, [7924]); (7927, [7926]); (7929, [7928]);
   (7931, [7930]); (7933, [7932]); (7935, [7934]); (7936, [7944]);
   (7937, [7945]); (7938, [7946]); (7939, [7947]); (7940, [7948]);
   (7941, [7949]); (7942, [7950]); (7943, [7951]); (7952, [7960]);
   (7953, [7961]); (7954, [7962]); (7955, [7963]); (7956, [7964]);
   (7957, [7965]); (7968, [7976]); (7969, [7977]); (7970, [7978]);
   (7971, [7979]); (7972, [7980]); (7973, [7981]); (7974, [7982]);
   (7975, [7983]); (7984, [7992]); (7985, [7993]); (7986, [7994]);
   (7987, [7995]); (7988, [7996]); (7989, [7997]); (7990, [7998]);
   (7991, [7999]); (8000, [8008]); (8001, [8009]); (8002, [8010]);
   (8003, [8011]); (8004, [8012]); (8005, [8013]); (8016, [933; 787]);
   (8017, [8025]); (8018, [933; 787; 768]); (8019, [8027]);
   (8020, [933; 787; 769]); (8021, [8029]); (8022, [933; 787; 834]);
   (8023, [8031]); (8032, [8040]); (8033, [8041]); (8034, [8042]);
   (8035, [8043]); (8036, [8044]); (8037, [8045]); (8038, [8046]);
   (8039, [8047]); (8048, [8122]); (8049, [8123]); (8050, [8136]);
   (8051, [8137]); (8052, [8138]); (8053, [8139]); (8054, [8154]);
   (8055, [8155]); (8056, [8184]); (8057, [8185]); (8058, [8170]);
   (8059, [8171]); (8060, [8186]); (8061, [8187]); (8064, [7944; 921]);
   (8065, [7945; 921]); (8066, [7946; 921]); (8067, [7947; 921]);
   (8068, [7948; 921]); (8069, [7949; 921]); (8070, [7950; 921]);
   (8071, [7951; 921]); (8072, [7944; 921]); (8073, [7945; 921]);
   (8074, [7946; 921]); (8075, [7947; 921]); (8076, [7948; 921]);
   (8077, [7949; 921]); (8078, [7950; 921]); (8079, [7951; 921]);
   (8080, [7976; 921]); (8081, [7977; 921]); (8082, [7978; 921]);
   (8083, [7979; 921]); (8084, [7980; 921]); (8085, [7981; 921]);
   (8086, [7982; 921]); (8087, [7983; 921]); (8088, [7976; 921]);
   (8089, [7977; 921]); (8090, [7978; 921]); (8091, [7979; 921]);
   (8092, [7980; 921]); (8093, [7981; 921]); (8094, [7982; 921]);
   (8095, [7983; 921]); (8096, [8040; 921]); (8097, [8041; 921]);
   (8098, [8042; 921]); (8099, [8043; 921]); (8100, [8044; 921]);
   (8101, [8045; 921]); (8102, [8046; 921]); (8103, [8047; 921])]%N.

Definition upper_table_4 : list (N * list N) :=
  [(8104, [8040; 921]); (8105, [8041; 921]); (8106, [8042; 921]);
   (8107, [8043; 921]); (8108, [8044; 921]); (8109, [8045; 921]);
   (8110, [8046; 921]); (8111, [8047; 921]); (8112, [8120]); (8113, [8121]);
   (8114, [8122; 921]); (8115, [913; 921]); (8116, [902; 921]);
   (8118, [913; 834]); (8119, [913; 834; 921]); (8124, [913; 921]);
   (8126, [921]); (8130, [8138; 921]); (8131, [919; 921]);
   (8132, [905; 921]); (8134, [919; 834]); (8135, [919; 834; 921]);
   (8140, [919; 921]); (8144, [8152]); (8145, [8153]);
   (8146, [921; 776; 768]); (8147, [921; 776; 769]); (8150, [921; 834]);
   (8151, [921; 776; 834]); (8160, [8168]); (8161, [8169]);
   (8162, [933; 776; 768]); (8163, [933; 776; 769]); (8164, [929; 787]);
   (8165, [8172]); (8166, [933; 834]); (8167, [933; 776; 834]);
   (8178, [8186; 921]); (8179, [937; 921]); (8180, [911; 921]);
   (8182, [937; 834]); (8183, [937; 834; 921]); (8188, [937; 921]);
   (8526, [8498]); (8560, [8544]); (8561, [8545]); (8562, [8546]);
   (8563, [8547]); (8564, [8548]); (8565, [8549]); (8566, [8550]);
   (8567, [8551]); (8568, [8552]); (8569, [8553]); (8570, [8554]);
   (8571, [8555]); (8572, [8556]); (8573, [8557]); (8574, [8558]);
   (8575, [8559]); (8580, [8579]); (9424, [9398]); (9425, [9399]);
   (9426, [9400]); (9427, [9401]); (9428, [9402]); (9429, [9403]);
   (9430, [9404]); (9431, [9405]); (9432, [9406]); (9433, [9407]);
   (9434, [9408]); (9435, [9409]); (9436, [9410]); (9437, [9411]);
   (9438, [9412]); (9439, [9413]); (9440, [9414]); (9441, [9415]);
   (9442, [9416]); (9443, [9417]); (9444, [9418]); (9445, [9419]);
   (9446, [9420]); (9447, [9421]); (9448, [9422]); (9449, [9423]);
   (11312, [11264]); (11313, [11265]); (11314, [11266]); (11315, [11267]);
   (11316, [11268]); (11317, [11269]); (11318, [11270]); (11319, [11271]);
   (11320, [11272]); (11321, [11273]); (11322, [11274]); (11323, [11275]);
   (11324, [11276]); (11325, [11277]); (11326, [11278]); (11327, [11279]);
   (11328, [11280]); (11329, [11281]); (11330, [11282]); (11331, [11283]);
   (11332, [11284]); (11333, [11285]); (11334, [11286]); (11335, [11287]);
   (11336, [11288]); (11337, [11289]); (11338, [11290]); (11339, [11291]);
   (11340, [11292]); (11341, [11293]); (11342, [11294]); (11343, [11295]);
   (11344, [11296]); (11345, [11297]); (11346, [11298]); (11347, [11299]);
   (11348, [11300]); (11349, [11301]); (11350, [11302]); (11351, [11303]);
   (11352, [11304]); (11353, [11305]); (11354, [11306]); (11355, [11307]);
   (11356, [11308]); (11357, [11309]); (11358, [11310]); (11359, [11311]);
   (11361, [11360]); (11365, [570]); (11366, [574]); (11368, [11367]);
   (11370, [11369]); (11372, [11371]); (11379, [11378]); (11382, [11381]);
   (11393, [11392]); (11395, [11394]); (11397, [11396]); (11399, [11398]);
   (11401, [11400]); (11403, [11402]); (11405, [11404]); (11407, [11406]);
   (11409, [11408]); (11411, [11410]); (11413, [11412]); (11415, [11414]);
   (11417, [11416]); (11419, [11418]); (11421, [11420]); (11423, [11422]);
   (11425, [11424]); (11427, [11426]); (11429, [11428]); (11431, [11430]);
   (11433, [11432]); (11435, [11434]); (11437, [11436]); (11439, [11438]);
   (11441, [11440]); (11443, [11442]); (11445, [11444]); (11447, [11446]);
   (11449, [11448]); (11451, [11450]); (11453, [11452]); (11455, [11454]);
   (11457, [11456]); (11459, [11458]); (11461, [11460]); (11463, [11462]);
   (11465, [11464]); (11467, [11466]); (11469, [11468]); (11471, [11470]);
   (11473, [11472]); (11475, [11474]); (11477, [11476]); (11479, [11478]);
   (11481, [11480]); (11483, [11482]); (11485, [11484]); (11487, [11486]);
   (11489, [11488]); (11491, [11490]); (11500, [11499]); (11502, [11501]);
   (11507, [11506]); (11520, [4256]); (11521, [4257]); (11522, [4258]);
   (11523, [4259])]%N.

Definition upper_table_5 : list (N * list N) :=
  [(11524, [4260]); (11525, [4261]); (11526, [4262]); (11527, [4263]);
   (11528, [4264]); (11529, [4265]); (11530, [4266]); (11531, [4267]);
   (11532, [4268]); (11533, [4269]); (11534, [4270]); (11535, [4271]);
   (11536, [4272]); (11537, [4273]); (11538, [4274]); (11539, [4275]);
   (11540, [4276]); (11541, [4277]); (11542, [4278]); (11543, [4279]);
   (11544, [4280]); (11545, [4281]); (11546, [4282]); (11547, [4283]);
   (11548, [4284]); (11549, [4285]); (11550, [4286]); (11551, [4287]);
   (11552, [4288]); (11553, [4289]); (11554, [4290]); (11555, [4291]);
   (11556, [4292]); (11557, [4293]); (11559, [4295]); (11565, [4301]);
   (42561, [42560]); (42563, [42562]); (42565, [42564]); (42567, [42566]);
   (42569, [42568]); (42571, [42570]); (42573, [42572]); (42575, [42574]);
   (42577, [42576]); (42579, [42578]); (42581, [42580]); (42583, [42582]);
   (42585, [42584]); (42587, [42586]); (42589, [42588]); (42591, [42590]);
   (42593, [42592]); (42595, [42594]); (42597, [42596]); (42599, [42598]);
   (42601, [42600]); (42603, [42602]); (42605, [42604]); (42625, [42624]);
   (42627, [42626]); (42629, [42628]); (42631, [42630]); (42633, [42632]);
   (42635, [42634]); (42637, [42636]); (42639, [42638]); (42641, [42640]);
   (42643, [42642]); (42645, [42644]); (42647, [42646]); (42649, [42648]);
   (42651, [42650]); (42787, [42786]); (42789, [42788]); (42791, [42790]);
   (42793, [42792]); (42795, [42794]); (42797, [42796]); (42799, [42798]);
   (42803, [42802]); (42805, [42804]); (42807, [42806]); (42809, [42808]);
   (42811, [42810]); (42813, [42812]); (42815, [42814]); (42817, [42816]);
   (42819, [42818]); (42821, [42820]); (42823, [42822]); (42825, [42824]);
   (42827, [42826]); (42829, [42828]); (42831, [42830]); (42833, [42832]);
   (42835, [42834]); (42837, [42836]); (42839, [42838]); (42841, [42840]);
   (42843, [42842]); (42845, [42844]); (42847, [42846]); (42849, [42848]);
   (42851, [42850]); (42853, [42852]); (42855, [42854]); (42857, [42856]);
   (42859, [42858]); (42861, [42860]); (42863, [42862]); (42874, [42873]);
   (42876, [42875]); (42879, [42878]); (42881, [42880]); (42883, [42882]);
   (42885, [42884]); (42887, [42886]); (42892, [42891]); (42897, [42896]);
   (42899, [42898]); (42900, [42948]); (42903, [42902]); (42905, [42904]);
   (42907, [42906]); (42909, [42908]); (42911, [42910]); (42913, [42912]);
   (42915, [42914]); (42917, [42916]); (42919, [42918]); (42921, [42920]);
   (42933, [42932]); (42935, [42934]); (42937, [42936]); (42939, [42938]);
   (42941, [42940]); (42943, [42942]); (42945, [42944]); (42947, [42946]);
   (42952, [42951]); (42954, [42953]); (42961, [42960]); (42967, [42966]);
   (42969, [42968]); (42998, [42997]); (43859, [42931]); (43888, [5024]);
   (43889, [5025]); (43890, [5026]); (43891, [5027]); (43892, [5028]);
   (43893, [5029]); (43894, [5030]); (43895, [5031]); (43896, [5032]);
   (43897, [5033]); (43898, [5034]); (43899, [5035]); (43900, [5036]);
   (43901, [5037]); (43902, [5038]); (43903, [5039]); (43904, [5040]);
   (43905, [5041]); (43906, [5042]); (43907, [5043]); (43908, [5044]);
   (43909, [5045]); (43910, [5046]); (43911, [5047]); (43912, [5048]);
   (43913, [5049]); (43914, [5050]); (43915, [5051]); (43916, [5052]);
   (43917, [5053]); (43918, [5054]); (43919, [5055]); (43920, [5056]);
   (43921, [5057]); (43922, [5058]); (43923, [5059]); (43924, [5060]);
   (43925, [5061]); (43926, [5062]); (43927, [5063]); (43928, [5064]);
   (43929, [5065]); (43930, [5066]); (43931, [5067]); (43932, [5068]);
   (43933, [5069]); (43934, [5070]); (43935, [5071]); (43936, [5072]);
   (43937, [5073]); (43938, [5074]); (43939, [5075]); (43940, [5076])]%N.

Definition upper_table_6 : list (N * list N) :=
  [(43941, [5077]); (43942, [5078]); (43943, [5079]); (43944, [5080]);
   (43945, [5081]); (43946, [5082]); (43947, [5083]); (43948, [5084]);
   (43949, [5085]); (43950, [5086]); (43951, [5087]); (43952, [5088]);
   (43953, [5089]); (43954, [5090]); (43955, [5091]); (43956, [5092]);
   (43957, [5093]); (43958, [5094]); (43959, [5095]); (43960, [5096]);
   (43961, [5097]); (43962, [5098]); (43963, [5099]); (43964, [5100]);
   (43965, [5101]); (43966, [5102]); (43967, [5103]); (64256, [70; 70]);
   (64257, [70; 73]); (64258, [70; 76]); (64259, [70; 70; 73]);
   (64260, [70; 70; 76]); (64261, [83; 84]); (64262, [83; 84]);
   (64275, [1348; 1350]); (64276, [1348; 1333]); (64277, [1348; 1339]);
   (64278, [1358; 1350]); (64279, [1348; 1341]); (65345, [65313]);
   (65346, [65314]); (65347, [65315]); (65348, [65316]); (65349, [65317]);
   (65350, [65318]); (65351, [65319]); (65352, [65320]); (65353, [65321]);
   (65354, [65322]); (65355, [65323]); (65356, [65324]); (65357, [65325]);
   (65358, [65326]); (65359, [65327]); (65360, [65328]); (65361, [65329]);
   (65362, [65330]); (65363, [65331]); (65364, [65332]); (65365, [65333]);
   (65366, [65334]); (65367, [65335]); (65368, [65336]); (65369, [65337]);
   (65370, [65338]); (66600, [66560]); (66601, [66561]); (66602, [66562]);
   (66603, [66563]); (66604, [66564]); (66605, [66565]); (66606, [66566]);
   (66607, [66567]); (66608, [66568]); (66609, [66569]); (66610, [66570]);
   (66611, [66571]); (66612, [66572]); (66613, [66573]); (66614, [66574]);
   (66615, [66575]); (66616, [66576]); (66617, [66577]); (66618, [66578]);
   (66619, [66579]); (66620, [66580]); (66621, [66581]); (66622, [66582]);
   (66623, [66583]); (66624, [66584]); (66625, [66585]); (66626, [66586]);
   (66627, [66587]); (66628, [66588]); (66629, [66589]); (66630, [66590]);
   (66631, [66591]); (66632, [66592]); (66633, [66593]); (66634, [66594]);
   (66635, [66595]); (66636, [66596]); (66637, [66597]); (66638, [66598]);
   (66639, [66599]); (66776, [66736]); (66777, [66737]); (66778, [66738]);
   (66779, [66739]); (66780, [66740]); (66781, [66741]); (66782, [66742]);
   (66783, [66743]); (66784, [66744]); (66785, [66745]); (66786, [66746]);
   (66787, [66747]); (66788, [66748]); (66789, [66749]); (66790, [66750]);
   (66791, [66751]); (66792, [66752]); (66793, [66753]); (66794, [66754]);
   (66795, [66755]); (66796, [66756]); (66797, [66757]); (66798, [66758]);
   (66799, [66759]); (66800, [66760]); (66801, [66761]); (66802, [66762]);
   (66803, [66763]); (66804, [66764]); (66805, [66765]); (66806, [66766]);
   (66807, [66767]); (66808, [66768]); (66809, [66769]); (66810, [66770]);
   (66811, [66771]); (66967, [66928]); (66968, [66929]); (66969, [66930]);
   (66970, [66931]); (66971, [66932]); (66972, [66933]); (66973, [66934]);
   (66974, [66935]); (66975, [66936]); (66976, [66937]); (66977, [66938]);
   (66979, [66940]); (66980, [66941]); (66981, [66942]); (66982, [66943]);
   (66983, [66944]); (66984, [66945]); (66985, [66946]); (66986, [66947]);
   (66987, [66948]); (66988, [66949]); (66989, [66950]); (66990, [66951]);
   (66991, [66952]); (66992, [66953]); (66993, [66954]); (66995, [66956]);
   (66996, [66957]); (66997, [66958]); (66998, [66959]); (66999, [66960]);
   (67000, [66961]); (67001, [66962]); (67003, [66964]); (67004, [66965]);
   (68800, [68736]); (68801, [68737]); (68802, [68738]); (68803, [68739]);
   (68804, [68740]); (68805, [68741]); (68806, [68742]); (68807, [68743]);
   (68808, [68744]); (68809, [68745]); (68810, [68746]); (68811, [68747]);
   (68812, [68748]); (68813, [68749]); (68814, [68750]); (68815, [68751]);
   (68816, [68752]); (68817, [68753]); (68818, [68754]); (68819, [68755]);
   (68820, [68756]); (68821, [68757]); (68822, [68758]); (68823, [68759])]%N.

Definition upper_table_7 : list (N * list N) :=
  [(68824, [68760]); (68825, [68761]); (68826, [68762]); (68827, [68763]);
   (68828, [68764]); (68829, [68765]); (68830, [68766]); (68831, [68767]);
   (68832, [68768]); (68833, [68769]); (68834, [68770]); (68835, [68771]);
   (68836, [68772]); (68837, [68773]); (68838, [68774]); (68839, [68775]);
   (68840, [68776]); (68841, [68777]); (68842, [68778]); (68843, [68779]);
   (68844, [68780]); (68845, [68781]); (68846, [68782]); (68847, [68783]);
   (68848, [68784]); (68849, [68785]); (68850, [68786]); (71872, [71840]);
   (71873, [71841]); (71874, [71842]); (71875, [71843]); (71876, [71844]);
   (71877, [71845]); (71878, [71846]); (71879, [71847]); (71880, [71848]);
   (71881, [71849]); (71882, [71850]); (71883, [71851]); (71884, [71852]);
   (71885, [71853]); (71886, [71854]); (71887, [71855]); (71888, [71856]);
   (71889, [71857]); (71890, [71858]); (71891, [71859]); (71892, [71860]);
   (71893, [71861]); (71894, [71862]); (71895, [71863]); (71896, [71864]);
   (71897, [71865]); (71898, [71866]); (71899, [71867]); (71900, [71868]);
   (71901, [71869]); (71902, [71870]); (71903, [71871]); (93792, [93760]);
   (93793, [93761]); (93794, [93762]); (93795, [93763]); (93796, [93764]);
   (93797, [93765]); (93798, [93766]); (93799, [93767]); (93800, [93768]);
   (93801, [93769]); (93802, [93770]); (93803, [93771]); (93804, [93772]);
   (93805, [93773]); (93806, [93774]); (93807, [93775]); (93808, [93776]);
   (93809, [93777]); (93810, [93778]); (93811, [93779]); (93812, [93780]);
   (93813, [93781]); (93814, [93782]); (93815, [93783]); (93816, [93784]);
   (93817, [93785]); (93818, [93786]); (93819, [93787]); (93820, [93788]);
   (93821, [93789]); (93822, [93790]); (93823, [93791]); (125218, [125184]);
   (125219, [125185]); (125220, [125186]); (125221, [125187]);
   (125222, [125188]); (125223, [125189]); (125224, [125190]);
   (125225, [125191]); (125226, [125192]); (125227, [125193]);
   (125228, [125194]); (125229, [125195]); (125230, [125196]);
   (125231, [125197]); (125232, [125198]); (125233, [125199]);
   (125234, [125200]); (125235, [125201]); (125236, [125202]);
   (125237, [125203]); (125238, [125204]); (125239, [125205]);
   (125240, [125206]); (125241, [125207]); (125242, [125208]);
   (125243, [125209]); (125244, [125210]); (125245, [125211]);
   (125246, [125212]); (125247, [125213]); (125248, [125214]);
   (125249, [125215]); (125250, [125216]); (125251, [125217])]%N.

(** The characters [str.upper] changes, each with what it becomes. *)
Definition upper_table : list (N * list N) :=
  upper_table_0
  ++ upper_table_1
  ++ upper_table_2
  ++ upper_table_3
  ++ upper_table_4
  ++ upper_table_5
  ++ upper_table_6
  ++ upper_table_7.

Definition lower_table_0 : list (N * list N) :=
  [(65, [97]); (66, [98]); (67, [99]); (68, [100]); (69, [101]); (70, [102]);
   (71, [103]); (72, [104]); (73, [105]); (74, [106]); (75, [107]);
   (76, [108]); (77, [109]); (78, [110]); (79, [111]); (80, [112]);
   (81, [113]); (82, [114]); (83, [115]); (84, [116]); (85, [117]);
   (86, [118]); (87, [119]); (88, [120]); (89, [121]); (90, [122]);
   (192, [224]); (193, [225]); (194, [226]); (195, [227]); (196, [228]);
   (197, [229]); (198, [230]); (199, [231]); (200, [232]); (201, [233]);
   (202, [234]); (203, [235]); (204, [236]); (205, [237]); (206, [238]);
   (207, [239]); (208, [240]); (209, [241]); (210, [242]); (211, [243]);
   (212, [244]); (213, [245]); (214, [246]); (216, [248]); (217, [249]);
   (218, [250]); (219, [251]); (220, [252]); (221, [253]); (222, [254]);
   (256, [257]); (258, [259]); (260, [261]); (262, [263]); (264, [265]);
   (266, [267]); (268, [269]); (270, [271]); (272, [273]); (274, [275]);
   (276, [277]); (278, [279]); (280, [281]); (282, [283]); (284, [285]);
   (286, [287]); (288, [289]); (290, [291]); (292, [293]); (294, [295]);
   (296, [297]); (298, [299]); (300, [301]); (302, [303]); (304, [105; 775]);
   (306, [307]); (308, [309]); (310, [311]); (313, [314]); (315, [316]);
   (317, [318]); (319, [320]); (321, [322]); (323, [324]); (325, [326]);
   (327, [328]); (330, [331]); (332, [333]); (334, [335]); (336, [337]);
   (338, [339]); (340, [341]); (342, [343]); (344, [345]); (346, [347]);
   (348, [349]); (350, [351]); (352, [353]); (354, [355]); (356, [357]);
   (358, [359]); (360, [361]); (362, [363]); (364, [365]); (366, [367]);
   (368, [369]); (370, [371]); (372, [373]); (374, [375]); (376, [255]);
   (377, [378]); (379, [380]); (381, [382]); (385, [595]); (386, [387]);
   (388, [389]); (390, [596]); (391, [392]); (393, [598]); (394, [599]);
   (395, [396]); (398, [477]); (399, [601]); (400, [603]); (401, [402]);
   (403, [608]); (404, [611]); (406, [617]); (407, [616]); (408, [409]);
   (412, [623]); (413, [626]); (415, [629]); (416, [417]); (418, [419]);
   (420, [421]); (422, [640]); (423, [424]); (425, [643]); (428, [429]);
   (430, [648]); (431, [432]); (433, [650]); (434, [651]); (435, [436]);
   (437, [438]); (439, [658]); (440, [441]); (444, [445]); (452, [454]);
   (453, [454]); (455, [457]); (456, [457]); (458, [460]); (459, [460]);
   (461, [462]); (463, [464]); (465, [466]); (467, [468]); (469, [470]);
   (471, [472]); (473, [474]); (475, [476]); (478, [479]); (480, [481]);
   (482, [483]); (484, [485]); (486, [487]); (488, [489]); (490, [491]);
   (492, [493]); (494, [495]); (497, [499]); (498, [499]); (500, [501]);
   (502, [405]); (503, [447]); (504, [505]); (506, [507]); (508, [509]);
   (510, [511]); (512, [513]); (514, [515]); (516, [517]); (518, [519]);
   (520, [521]); (522, [523]); (524, [525]); (526, [527]); (528, [529]);
   (530, [531]); (532, [533]); (534, [535]); (536, [537])]%N.

Definition lower_table_1 : list (N * list N) :=
  [(538, [539]); (540, [541]); (542, [543]); (544, [414]); (546, [547]);
   (548, [549]); (550, [551]); (552, [553]); (554, [555]); (556, [557]);
   (558, [559]); (560, [561]); (562, [563]); (570, [11365]); (571, [572]);
   (573, [410]); (574, [11366]); (577, [578]); (579, [384]); (580, [649]);
   (581, [652]); (582, [583]); (584, [585]); (586, [587]); (588, [589]);
   (590, [591]); (880, [881]); (882, [883]); (886, [887]); (895, [1011]);
   (902, [940]); (904, [941]); (905, [942]); (906, [943]); (908, [972]);
   (910, [973]); (911, [974]); (913, [945]); (914, [946]); (915, [947]);
   (916, [948]); (917, [949]); (918, [950]); (919, [951]); (920, [952]);
   (921, [953]); (922, [954]); (923, [955]); (924, [956]); (925, [957]);
   (926, [958]); (927, [959]); (928, [960]); (929, [961]); (931, [963]);
   (932, [964]); (933, [965]); (934, [966]); (935, [967]); (936, [968]);
   (937, [969]); (938, [970]); (939, [971]); (975, [983]); (984, [985]);
   (986, [987]); (988, [989]); (990, [991]); (992, [993]); (994, [995]);
   (996, [997]); (998, [999]); (1000, [1001]); (1002, [1003]);
   (1004, [1005]); (1006, [1007]); (1012, [952]); (1015, [1016]);
   (1017, [1010]); (1018, [1019]); (1021, [891]); (1022, [892]);
   (1023, [893]); (1024, [1104]); (1025, [1105]); (1026, [1106]);
   (1027, [1107]); (1028, [1108]); (1029, [1109]); (1030, [1110]);
   (1031, [1111]); (1032, [1112]); (1033, [1113]); (1034, [1114]);
   (1035, [1115]); (1036, [1116]); (1037, [1117]); (1038, [1118]);
   (1039, [1119]); (1040, [1072]); (1041, [1073]); (1042, [1074]);
   (1043, [1075]); (1044, [1076]); (1045, [1077]); (1046, [1078]);
   (1047, [1079]); (1048, [1080]); (1049, [1081]); (1050, [1082]);
   (1051, [1083]); (1052, [1084]); (1053, [1085]); (1054, [1086]);
   (1055, [1087]); (1056, [1088]); (1057, [1089]); (1058, [1090]);
   (1059, [1091]); (1060, [1092]); (1061, [1093]); (1062, [1094]);
   (1063, [1095]); (1064, [1096]); (1065, [1097]); (1066, [1098]);
   (1067, [1099]); (1068, [1100]); (1069, [1101]); (1070, [1102]);
   (1071, [1103]); (1120, [1121]); (1122, [1123]); (1124, [1125]);
   (1126, [1127]); (1128, [1129]); (1130, [1131]); (1132, [1133]);
   (1134, [1135]); (1136, [1137]); (1138, [1139]); (1140, [1141]);
   (1142, [1143]); (1144, [1145]); (1146, [1147]); (1148, [1149]);
   (1150, [1151]); (1152, [1153]); (1162, [1163]); (1164, [1165]);
   (1166, [1167]); (1168, [1169]); (1170, [1171]); (1172, [1173]);
   (1174, [1175]); (1176, [1177]); (1178, [1179]); (1180, [1181]);
   (1182, [1183]); (1184, [1185]); (1186, [1187]); (1188, [1189]);
   (1190, [1191]); (1192, [1193]); (1194, [1195]); (1196, [1197]);
   (1198, [1199]); (1200, [1201]); (1202, [1203]); (1204, [1205]);
   (1206, [1207]); (1208, [1209]); (1210, [1211]); (1212, [1213]);
   (1214, [1215]); (1216, [1231]); (1217, [1218]); (1219, [1220]);
   (1221, [1222]); (1223, [1224]); (1225, [1226]); (1227, [1228]);
   (1229, [1230]); (1232, [1233]); (1234, [1235]); (1236, [1237]);
   (1238, [1239]); (1240, [1241]); (1242, [1243]); (1244, [1245]);
   (1246, [1247]); (1248, [1249]); (1250, [1251]); (1252, [1253]);
   (1254, [1255]); (1256, [1257]); (1258, [1259]); (1260, [1261]);
   (1262, [1263]); (1264, [1265])]%N.

Definition lower_table_2 : list (N * list N) :=
  [(1266, [1267]); (1268, [1269]); (1270, [1271]); (1272, [1273]);
   (1274, [1275]); (1276, [1277]); (1278, [1279]); (1280, [1281]);
   (1282, [1283]); (1284, [1285]); (1286, [1287]); (1288, [1289]);
   (1290, [1291]); (1292, [1293]); (1294, [1295]); (1296, [1297]);
   (1298, [1299]); (1300, [1301]); (1302, [1303]); (1304, [1305]);
   (1306, [1307]); (1308, [1309]); (1310, [1311]); (1312, [1313]);
   (1314, [1315]); (1316, [1317]); (1318, [1319]); (1320, [1321]);
   (1322, [1323]); (1324, [1325]); (1326, [1327]); (1329, [1377]);
   (1330, [1378]); (1331, [1379]); (1332, [1380]); (1333, [1381]);
   (1334, [1382]); (1335, [1383]); (1336, [1384]); (1337, [1385]);
   (1338, [1386]); (1339, [1387]); (1340, [1388]); (1341, [1389]);
   (1342, [1390]); (1343, [1391]); (1344, [1392]); (1345, [1393]);
   (1346, [1394]); (1347, [1395]); (1348, [1396]); (1349, [1397]);
   (1350, [1398]); (1351, [1399]); (1352, [1400]); (1353, [1401]);
   (1354, [1402]); (1355, [1403]); (1356, [1404]); (1357, [1405]);
   (1358, [1406]); (1359, [1407]); (1360, [1408]); (1361, [1409]);
   (1362, [1410]); (1363, [1411]); (1364, [1412]); (1365, [1413]);
   (1366, [1414]); (4256, [11520]); (4257, [11521]); (4258, [11522]);
   (4259, [11523]); (4260, [11524]); (4261, [11525]); (4262, [11526]);
   (4263, [11527]); (4264, [11528]); (4265, [11529]); (4266, [11530]);
   (4267, [11531]); (4268, [11532]); (4269, [11533]); (4270, [11534]);
   (4271, [11535]); (4272, [11536]); (4273, [11537]); (4274, [11538]);
   (4275, [11539]); (4276, [11540]); (4277, [11541]); (4278, [11542]);
   (4279, [11543]); (4280, [11544]); (4281, [11545]); (4282, [11546]);
   (4283, [11547]); (4284, [11548]); (4285, [11549]); (4286, [11550]);
   (4287, [11551]); (4288, [11552]); (4289, [11553]); (4290, [11554]);
   (4291, [11555]); (4292, [11556]); (4293, [11557]); (4295, [11559]);
   (4301, [11565]); (5024, [43888]); (5025, [43889]); (5026, [43890]);
   (5027, [43891]); (5028, [43892]); (5029, [43893]); (5030, [43894]);
   (5031, [43895]); (5032, [43896]); (5033, [43897]); (5034, [43898]);
   (5035, [43899]); (5036, [43900]); (5037, [43901]); (5038, [43902]);
   (5039, [43903]); (5040, [43904]); (5041, [43905]); (5042, [43906]);
   (5043, [43907]); (5044, [43908]); (5045, [43909]); (5046, [43910]);
   (5047, [43911]); (5048, [43912]); (5049, [43913]); (5050, [43914]);
   (5051, [43915]); (5052, [43916]); (5053, [43917]); (5054, [43918]);
   (5055, [43919]); (5056, [43920]); (5057, [43921]); (5058, [43922]);
   (5059, [43923]); (5060, [43924]); (5061, [43925]); (5062, [43926]);
   (5063, [43927]); (5064, [43928]); (5065, [43929]); (5066, [43930]);
   (5067, [43931]); (5068, [43932]); (5069, [43933]); (5070, [43934]);
   (5071, [43935]); (5072, [43936]); (5073, [43937]); (5074, [43938]);
   (5075, [43939]); (5076, [43940]); (5077, [43941]); (5078, [43942]);
   (5079, [43943]); (5080, [43944]); (5081, [43945]); (5082, [43946]);
   (5083, [43947]); (5084, [43948]); (5085, [43949]); (5086, [43950]);
   (5087, [43951]); (5088, [43952]); (5089, [43953]); (5090, [43954]);
   (5091, [43955]); (5092, [43956]); (5093, [43957]); (5094, [43958]);
   (5095, [43959]); (5096, [43960]); (5097, [43961]); (5098, [43962]);
   (5099, [43963]); (5100, [43964]); (5101, [43965]); (5102, [43966]);
   (5103, [43967]); (5104, [5112]); (5105, [5113]); (5106, [5114]);
   (5107, [5115]); (5108, [5116]); (5109, [5117]); (7312, [4304]);
   (7313, [4305]); (7314, [4306]); (7315, [4307]); (7316, [4308])]%N.

Definition lower_table_3 : list (N * list N) :=
  [(7317, [4309]); (7318, [4310]); (7319, [4311]); (7320, [4312]);
   (7321, [4313]); (7322, [4314]); (7323, [4315]); (7324, [4316]);
   (7325, [4317]); (7326, [4318]); (7327, [4319]); (7328, [4320]);
   (7329, [4321]); (7330, [4322]); (7331, [4323]); (7332, [4324]);
   (7333, [4325]); (7334, [4326]); (7335, [4327]); (7336, [4328]);
   (7337, [4329]); (7338, [4330]); (7339, [4331]); (7340, [4332]);
   (7341, [4333]); (7342, [4334]); (7343, [4335]); (7344, [4336]);
   (7345, [4337]); (7346, [4338]); (7347, [4339]); (7348, [4340]);
   (7349, [4341]); (7350, [4342]); (7351, [4343]); (7352, [4344]);
   (7353, [4345]); (7354, [4346]); (7357, [4349]); (7358, [4350]);
   (7359, [4351]); (7680, [7681]); (7682, [7683]); (7684, [7685]);
   (7686, [7687]); (7688, [7689]); (7690, [7691]); (7692, [7693]);
   (7694, [7695]); (7696, [7697]); (7698, [7699]); (7700, [7701]);
   (7702, [7703]); (7704, [7705]); (7706, [7707]); (7708, [7709]);
   (7710, [7711]); (7712, [7713]); (7714, [7715]); (7716, [7717]);
   (7718, [7719]); (7720, [7721]); (7722, [7723]); (7724, [7725]);
   (7726, [7727]); (7728, [7729]); (7730, [7731]); (7732, [7733]);
   (7734, [7735]); (7736, [7737]); (7738, [7739]); (7740, [7741]);
   (7742, [7743]); (7744, [7745]); (7746, [7747]); (7748, [7749]);
   (7750, [7751]); (7752, [7753]); (7754, [7755]); (7756, [7757]);
   (7758, [7759]); (7760, [7761]); (7762, [7763]); (7764, [7765]);
   (7766, [7767]); (7768, [7769]); (7770, [7771]); (7772, [7773]);
   (7774, [7775]); (7776, [7777]); (7778, [7779]); (7780, [7781]);
   (7782, [7783]); (7784, [7785]); (7786, [7787]); (7788, [7789]);
   (7790, [7791]); (7792, [7793]); (7794, [7795]); (7796, [7797]);
   (7798, [7799]); (7800, [7801]); (7802, [7803]); (7804, [7805]);
   (7806, [7807]); (7808, [7809]); (7810, [7811]); (7812, [7813]);
   (7814, [7815]); (7816, [7817]); (7818, [7819]); (7820, [7821]);
   (7822, [7823]); (7824, [7825]); (7826, [7827]); (7828, [7829]);
   (7838, [223]); (7840, [7841]); (7842, [7843]); (7844, [7845]);
   (7846, [7847]); (7848, [7849]); (7850, [7851]); (7852, [7853]);
   (7854, [7855]); (7856, [7857]); (7858, [7859]); (7860, [7861]);
   (7862, [7863]); (7864, [7865]); (7866, [7867]); (7868, [7869]);
   (7870, [7871]); (7872, [7873]); (7874, [7875]); (7876, [7877]);
   (7878, [7879]); (7880, [7881]); (7882, [7883]); (7884, [7885]);
   (7886, [7887]); (7888, [7889]); (7890, [7891]); (7892, [7893]);
   (7894, [7895]); (7896, [7897]); (7898, [7899]); (7900, [7901]);
   (7902, [7903]); (7904, [7905]); (7906, [7907]); (7908, [7909]);
   (7910, [7911]); (7912, [7913]); (7914, [7915]); (7916, [7917]);
   (7918, [7919]); (7920, [7921]); (7922, [7923]); (7924, [7925]);
   (7926, [7927]); (7928, [7929]); (7930, [7931]); (7932, [7933]);
   (7934, [7935]); (7944, [7936]); (7945, [7937]); (7946, [7938]);
   (7947, [7939]); (7948, [7940]); (7949, [7941]); (7950, [7942]);
   (7951, [7943]); (7960, [7952]); (7961, [7953]); (7962, [7954]);
   (7963, [7955]); (7964, [7956]); (7965, [7957]); (7976, [7968]);
   (7977, [7969]); (7978, [7970]); (7979, [7971]); (7980, [7972]);
   (7981, [7973]); (7982, [7974]); (7983, [7975]); (7992, [7984]);
   (7993, [7985]); (7994, [7986]); (7995, [7987]); (7996, [7988]);
   (7997, [7989]); (7998, [7990]); (7999, [7991]); (8008, [8000]);
   (8009, [8001]); (8010, [8002]); (8011, [8003]); (8012, [8004])]%N.

Definition lower_table_4 : list (N * list N) :=
  [(8013, [8005]); (8025, [8017]); (8027, [8019]); (8029, [8021]);
   (8031, [8023]); (8040, [8032]); (8041, [8033]); (8042, [8034]);
   (8043, [8035]); (8044, [8036]); (8045, [8037]); (8046, [8038]);
   (8047, [8039]); (8072, [8064]); (8073, [8065]); (8074, [8066]);
   (8075, [8067]); (8076, [8068]); (8077, [8069]); (8078, [8070]);
   (8079, [8071]); (8088, [8080]); (8089, [8081]); (8090, [8082]);
   (8091, [8083]); (8092, [8084]); (8093, [8085]); (8094, [8086]);
   (8095, [8087]); (8104, [8096]); (8105, [8097]); (8106, [8098]);
   (8107, [8099]); (8108, [8100]); (8109, [8101]); (8110, [8102]);
   (8111, [8103]); (8120, [8112]); (8121, [8113]); (8122, [8048]);
   (8123, [8049]); (8124, [8115]); (8136, [8050]); (8137, [8051]);
   (8138, [8052]); (8139, [8053]); (8140, [8131]); (8152, [8144]);
   (8153, [8145]); (8154, [8054]); (8155, [8055]); (8168, [8160]);
   (8169, [8161]); (8170, [8058]); (8171, [8059]); (8172, [8165]);
   (8184, [8056]); (8185, [8057]); (8186, [8060]); (8187, [8061]);
   (8188, [8179]); (8486, [969]); (8490, [107]); (8491, [229]);
   (8498, [8526]); (8544, [8560]); (8545, [8561]); (8546, [8562]);
   (8547, [8563]); (8548, [8564]); (8549, [8565]); (8550, [8566]);
   (8551, [8567]); (8552, [8568]); (8553, [8569]); (8554, [8570]);
   (8555, [8571]); (8556, [8572]); (8557, [8573]); (8558, [8574]);
   (8559, [8575]); (8579, [8580]); (9398, [9424]); (9399, [9425]);
   (9400, [9426]); (9401, [9427]); (9402, [9428]); (9403, [9429]);
   (9404, [9430]); (9405, [9431]); (9406, [9432]); (9407, [9433]);
   (9408, [9434]); (9409, [9435]); (9410, [9436]); (9411, [9437]);
   (9412, [9438]); (9413, [9439]); (9414, [9440]); (9415, [9441]);
   (9416, [9442]); (9417, [9443]); (9418, [9444]); (9419, [9445]);
   (9420, [9446]); (9421, [9447]); (9422, [9448]); (9423, [9449]);
   (11264, [11312]); (11265, [11313]); (11266, [11314]); (11267, [11315]);
   (11268, [11316]); (11269, [11317]); (11270, [11318]); (11271, [11319]);
   (11272, [11320]); (11273, [11321]); (11274, [11322]); (11275, [11323]);
   (11276, [11324]); (11277, [11325]); (11278, [11326]); (11279, [11327]);
   (11280, [11328]); (11281, [11329]); (11282, [11330]); (11283, [11331]);
   (11284, [11332]); (11285, [11333]); (11286, [11334]); (11287, [11335]);
   (11288, [11336]); (11289, [11337]); (11290, [11338]); (11291, [11339]);
   (11292, [11340]); (11293, [11341]); (11294, [11342]); (11295, [11343]);
   (11296, [11344]); (11297, [11345]); (11298, [11346]); (11299, [11347]);
   (11300, [11348]); (11301, [11349]); (11302, [11350]); (11303, [11351]);
   (11304, [11352]); (11305, [11353]); (11306, [11354]); (11307, [11355]);
   (11308, [11356]); (11309, [11357]); (11310, [11358]); (11311, [11359]);
   (11360, [11361]); (11362, [619]); (11363, [7549]); (11364, [637]);
   (11367, [11368]); (11369, [11370]); (11371, [11372]); (11373, [593]);
   (11374, [625]); (11375, [592]); (11376, [594]); (11378, [11379]);
   (11381, [11382]); (11390, [575]); (11391, [576]); (11392, [11393]);
   (11394, [11395]); (11396, [11397]); (11398, [11399]); (11400, [11401]);
   (11402, [11403]); (11404, [11405]); (11406, [11407]); (11408, [11409]);
   (11410, [11411]); (11412, [11413]); (11414, [11415]); (11416, [11417]);
   (11418, [11419]); (11420, [11421]); (11422, [11423]); (11424, [11425]);
   (11426, [11427]); (11428, [11429]); (11430, [11431]); (11432, [11433]);
   (11434, [11435]); (11436, [11437]); (11438, [11439]); (11440, [11441]);
   (11442, [11443]); (11444, [11445]); (11446, [11447]); (11448, [11449])]%N.

Definition lower_table_5 : list (N * list N) :=
  [(11450, [11451]); (11452, [11453]); (11454, [11455]); (11456, [11457]);
   (11458, [11459]); (11460, [11461]); (11462, [11463]); (11464, [11465]);
   (11466, [11467]); (11468, [11469]); (11470, [11471]); (11472, [11473]);
   (11474, [11475]); (11476, [11477]); (11478, [11479]); (11480, [11481]);
   (11482, [11483]); (11484, [11485]); (11486, [11487]); (11488, [11489]);
   (11490, [11491]); (11499, [11500]); (11501, [11502]); (11506, [11507]);
   (42560, [42561]); (42562, [42563]); (42564, [42565]); (42566, [42567]);
   (42568, [42569]); (42570, [42571]); (42572, [42573]); (42574, [42575]);
   (42576, [42577]); (42578, [42579]); (42580, [42581]); (42582, [42583]);
   (42584, [42585]); (42586, [42587]); (42588, [42589]); (42590, [42591]);
   (42592, [42593]); (42594, [42595]); (42596, [42597]); (42598, [42599]);
   (42600, [42601]); (42602, [42603]); (42604, [42605]); (42624, [42625]);
   (42626, [42627]); (42628, [42629]); (42630, [42631]); (42632, [42633]);
   (42634, [42635]); (42636, [42637]); (42638, [42639]); (42640, [42641]);
   (42642, [42643]); (42644, [42645]); (42646, [42647]); (42648, [42649]);
   (42650, [42651]); (42786, [42787]); (42788, [42789]); (42790, [42791]);
   (42792, [42793]); (42794, [42795]); (42796, [42797]); (42798, [42799]);
   (42802, [42803]); (42804, [42805]); (42806, [42807]); (42808, [42809]);
   (42810, [42811]); (42812, [42813]); (42814, [42815]); (42816, [42817]);
   (42818, [42819]); (42820, [42821]); (42822, [42823]); (42824, [42825]);
   (42826, [42827]); (42828, [42829]); (42830, [42831]); (42832, [42833]);
   (42834, [42835]); (42836, [42837]); (42838, [42839]); (42840, [42841]);
   (42842, [42843]); (42844, [42845]); (42846, [42847]); (42848, [42849]);
   (42850, [42851]); (42852, [42853]); (42854, [42855]); (42856, [42857]);
   (42858, [42859]); (42860, [42861]); (42862, [42863]); (42873, [42874]);
   (42875, [42876]); (42877, [7545]); (42878, [42879]); (42880, [42881]);
   (42882, [42883]); (42884, [42885]); (42886, [42887]); (42891, [42892]);
   (42893, [613]); (42896, [42897]); (42898, [42899]); (42902, [42903]);
   (42904, [42905]); (42906, [42907]); (42908, [42909]); (42910, [42911]);
   (42912, [42913]); (42914, [42915]); (42916, [42917]); (42918, [42919]);
   (42920, [42921]); (42922, [614]); (42923, [604]); (42924, [609]);
   (42925, [620]); (42926, [618]); (42928, [670]); (42929, [647]);
   (42930, [669]); (42931, [43859]); (42932, [42933]); (42934, [42935]);
   (42936, [42937]); (42938, [42939]); (42940, [42941]); (42942, [42943]);
   (42944, [42945]); (42946, [42947]); (42948, [42900]); (42949, [642]);
   (42950, [7566]); (42951, [42952]); (42953, [42954]); (42960, [42961]);
   (42966, [42967]); (42968, [42969]); (42997, [42998]); (65313, [65345]);
   (65314, [65346]); (65315, [65347]); (65316, [65348]); (65317, [65349]);
   (65318, [65350]); (65319, [65351]); (65320, [65352]); (65321, [65353]);
   (65322, [65354]); (65323, [65355]); (65324, [65356]); (65325, [65357]);
   (65326, [65358]); (65327, [65359]); (65328, [65360]); (65329, [65361]);
   (65330, [65362]); (65331, [65363]); (65332, [65364]); (65333, [65365]);
   (65334, [65366]); (65335, [65367]); (65336, [65368]); (65337, [65369]);
   (65338, [65370]); (66560, [66600]); (66561, [66601]); (66562, [66602]);
   (66563, [66603]); (66564, [66604]); (66565, [66605]); (66566, [66606]);
   (66567, [66607]); (66568, [66608]); (66569, [66609]); (66570, [66610]);
   (66571, [66611]); (66572, [66612]); (66573, [66613]); (66574, [66614]);
   (66575, [66615]); (66576, [66616]); (66577, [66617]); (66578, [66618]);
   (66579, [66619]); (66580, [66620]); (66581, [66621]); (66582, [66622]);
   (66583, [66623]); (66584, [66624]); (66585, [66625]); (66586, [66626])]%N.

Definition lower_table_6 : list (N * list N) :=
  [(66587, [66627]); (66588, [66628]); (66589, [66629]); (66590, [66630]);
   (66591, [66631]); (66592, [66632]); (66593, [66633]); (66594, [66634]);
   (66595, [66635]); (66596, [66636]); (66597, [66637]); (66598, [66638]);
   (66599, [66639]); (66736, [66776]); (66737, [66777]); (66738, [66778]);
   (66739, [66779]); (66740, [66780]); (66741, [66781]); (66742, [66782]);
   (66743, [66783]); (66744, [66784]); (66745, [66785]); (66746, [66786]);
   (66747, [66787]); (66748, [66788]); (66749, [66789]); (66750, [66790]);
   (66751, [66791]); (66752, [66792]); (66753, [66793]); (66754, [66794]);
   (66755, [66795]); (66756, [66796]); (66757, [66797]); (66758, [66798]);
   (66759, [66799]); (66760, [66800]); (66761, [66801]); (66762, [66802]);
   (66763, [66803]); (66764, [66804]); (66765, [66805]); (66766, [66806]);
   (66767, [66807]); (66768, [66808]); (66769, [66809]); (66770, [66810]);
   (66771, [66811]); (66928, [66967]); (66929, [66968]); (66930, [66969]);
   (66931, [66970]); (66932, [66971]); (66933, [66972]); (66934, [66973]);
   (66935, [66974]); (66936, [66975]); (66937, [66976]); (66938, [66977]);
   (66940, [66979]); (66941, [66980]); (66942, [66981]); (66943, [66982]);
   (66944, [66983]); (66945, [66984]); (66946, [66985]); (66947, [66986]);
   (66948, [66987]); (66949, [66988]); (66950, [66989]); (66951, [66990]);
   (66952, [66991]); (66953, [66992]); (66954, [66993]); (66956, [66995]);
   (66957, [66996]); (66958, [66997]); (66959, [66998]); (66960, [66999]);
   (66961, [67000]); (66962, [67001]); (66964, [67003]); (66965, [67004]);
   (68736, [68800]); (68737, [68801]); (68738, [68802]); (68739, [68803]);
   (68740, [68804]); (68741, [68805]); (68742, [68806]); (68743, [68807]);
   (68744, [68808]); (68745, [68809]); (68746, [68810]); (68747, [68811]);
   (68748, [68812]); (68749, [68813]); (68750, [68814]); (68751, [68815]);
   (68752, [68816]); (68753, [68817]); (68754, [68818]); (68755, [68819]);
   (68756, [68820]); (68757, [68821]); (68758, [68822]); (68759, [68823]);
   (68760, [68824]); (68761, [68825]); (68762, [68826]); (68763, [68827]);
   (68764, [68828]); (68765, [68829]); (68766, [68830]); (68767, [68831]);
   (68768, [68832]); (68769, [68833]); (68770, [68834]); (68771, [68835]);
   (68772, [68836]); (68773, [68837]); (68774, [68838]); (68775, [68839]);
   (68776, [68840]); (68777, [68841]); (68778, [68842]); (68779, [68843]);
   (68780, [68844]); (68781, [68845]); (68782, [68846]); (68783, [68847]);
   (68784, [68848]); (68785, [68849]); (68786, [68850]); (71840, [71872]);
   (71841, [71873]); (71842, [71874]); (71843, [71875]); (71844, [71876]);
   (71845, [71877]); (71846, [71878]); (71847, [71879]); (71848, [71880]);
   (71849, [71881]); (71850, [71882]); (71851, [71883]); (71852, [71884]);
   (71853, [71885]); (71854, [71886]); (71855, [71887]); (71856, [71888]);
   (71857, [71889]); (71858, [71890]); (71859, [71891]); (71860, [71892]);
   (71861, [71893]); (71862, [71894]); (71863, [71895]); (71864, [71896]);
   (71865, [71897]); (71866, [71898]); (71867, [71899]); (71868, [71900]);
   (71869, [71901]); (71870, [71902]); (71871, [71903]); (93760, [93792]);
   (93761, [93793]); (93762, [93794]); (93763, [93795]); (93764, [93796]);
   (93765, [93797]); (93766, [93798]); (93767, [93799]); (93768, [93800]);
   (93769, [93801]); (93770, [93802]); (93771, [93803]); (93772, [93804]);
   (93773, [93805]); (93774, [93806]); (93775, [93807]); (93776, [93808]);
   (93777, [93809]); (93778, [93810]); (93779, [93811]); (93780, [93812]);
   (93781, [93813]); (93782, [93814]); (93783, [93815]); (93784, [93816]);
   (93785, [93817]); (93786, [93818]); (93787, [93819]); (93788, [93820]);
   (93789, [93821]); (93790, [93822]); (93791, [93823]); (125184, [125218])]%N.

Definition lower_table_7 : list (N * list N) :=
  [(125185, [125219]); (125186, [125220]); (125187, [125221]);
   (125188, [125222]); (125189, [125223]); (125190, [125224]);
   (125191, [125225]); (125192, [125226]); (125193, [125227]);
   (125194, [125228]); (125195, [125229]); (125196, [125230]);
   (125197, [125231]); (125198, [125232]); (125199, [125233]);
   (125200, [125234]); (125201, [125235]); (125202, [125236]);
   (125203, [125237]); (125204, [125238]); (125205, [125239]);
   (125206, [125240]); (125207, [125241]); (125208, [125242]);
   (125209, [125243]); (125210, [125244]); (125211, [125245]);
   (125212, [125246]); (125213, [125247]); (125214, [125248]);
   (125215, [125249]); (125216, [125250]); (125217, [125251])]%N.

(** The characters [str.lower] changes, each with what it becomes. *)
Definition lower_table : list (N * list N) :=
  lower_table_0
  ++ lower_table_1
  ++ lower_table_2
  ++ lower_table_3
  ++ lower_table_4
  ++ lower_table_5
  ++ lower_table_6
  ++ lower_table_7.

Fixpoint assoc (c : N) (table : list (N * list N)) : option (list N) :=
  match table with
  | [] => None
  | (k, v) :: table' => if (k =? c)%N then Some v else assoc c table'
  end.

(** [ch.upper()] and [ch.lower()] for a single character; the result can
    be longer than one character. *)
Definition chr_upper (c : N) : str :=
  match assoc c upper_table with Some v => v | None => [c] end.

Definition chr_lower (c : N) : str :=
  match assoc c lower_table with Some v => v | None => [c] end.

(** ** Exceptions *)

Inductive exn : Type :=
| ValueError (msg : str)
| FileNotFoundError (name : str)
| TypeError
| UnicodeDecodeError.

Inductive result (A : Type) : Type :=
| Ok (a : A)
| Raise (e : exn).

Arguments Ok {A} a.
Arguments Raise {A} e.

#[global] Instance result_ret : MRet result := fun A a => Ok a.

#[global] Instance result_bind : MBind result := fun A B f r =>
  match r with
  | Ok a => f a
  | Raise e => Raise e
  end.

#[global] Instance result_fmap : FMap result := fun A B f r =>
  match r with
  | Ok a => Ok (f a)
  | Raise e => Raise e
  end.

(** ** Python string primitives *)

Module Py.

Definition len (s : str) : Z := Z.of_nat (length s).

(** How Python turns a slice bound into a position of a sequence of length
    [n]: a negative bound counts from the end, and the result is clipped
    to [0..n]. *)
Definition adjust (n i : Z) : Z :=
  let i := if i <? 0 then i + n else i in
  if i <? 0 then 0 else if n <? i then n else i.

(** [s[lo:hi]]; [None] is an omitted bound. *)
Definition slice (s : str) (lo hi : option Z) : str :=
  let n := len s in
  let l := match lo with Some i => adjust n i | None => 0 end in
  let h := match hi with Some i => adjust n i | None => n end in
  take (Z.to_nat (h - l)) (drop (Z.to_nat l) s).

(** [s.startswith(sub)]. *)
Fixpoint startswith (s sub : str) : bool :=
  match sub, s with
  | [], _ => true
  | _ :: _, [] => false
  | a :: sub', b :: s' => (a =? b)%N && startswith s' sub'
  end.

(** The lowest index at or after [skip] where [sub] occurs in [s]. *)
Fixpoint index (skip : nat) (sub s : str) : option nat :=
  match s with
  | [] =>
      match skip, sub with
      | O, [] => Some O
      | _, _ => None
      end
  | _ :: s' =>
      match skip with
      | O => if startswith s sub then Some O else S <$> index O sub s'
      | S skip' => S <$> index skip' sub s'
      end
  end.

(** [s.find(sub, start)]: the lowest index at or after [start] where
    [sub] occurs, or [-1].  A negative [start] counts from the end; a
    [start] past the end finds nothing. *)
Definition find (s sub : str) (start : Z) : Z :=
  let n := len s in
  let start :=
    if start <? 0 then (if start + n <? 0 then 0 else start + n) else start in
  if n <? start then -1
  else match index (Z.to_nat start) sub s with
       | Some m => Z.of_nat m
       | None => -1
       end.

(** [s.endswith(suffix)]. *)
Definition endswith (s suffix : str) : bool :=
  (length suffix <=? length s)%nat
  && bool_decide (drop (length s - length suffix) s = suffix).

(** [s.upper()]: every character gives its upper-case form, which can be
    several characters. *)
Fixpoint upper (s : str) : str :=
  match s with
  | [] => []
  | c :: s' => chr_upper c ++ upper s'
  end.

(** [''.join(parts)]. *)
Definition join (parts : list str) : str := concat parts.

End Py.

(** ** The line rewriter *)

(** ['[%c%c]' % (ch, ch.lower())]: the second [%c] raises when the
    lower-case form of [ch] is not one character. *)
Definition bracket (ch : N) : result str :=
  match chr_lower ch with
  | [l] => Ok (u "[" ++ [ch] ++ [l] ++ u "]")
  | _ => Raise TypeError
  end.

(** The list comprehension of line 25: the bracket expressions of the
    characters, in order, up to the first one that raises. *)
Fixpoint brackets (text : str) : result (list str) :=
  match text with
  | [] => Ok []
  | ch :: text' =>
      b ← bracket ch; bs ← brackets text'; Ok (b :: bs)
  end.

(** Lines 24-26 of [make_insensitive]: the expansion of the text found
    between the quotes. *)
Definition insens_of (text : str) : result str :=
  let text := Py.upper text in
  insens ← brackets text;
  Ok (Py.join insens).

(** The body of the [while] loop of [make_insensitive] (lines 17-28): the
    value of [line] handed to [out.write], or the exception raised. *)
Definition rewrite_line (line : str) : result str :=
  let i_comment := Py.find line (u "//") 0 in
  let i_quote := Py.find line (u "'") 0 in
  if negb (i_quote =? -1) && ((i_comment =? -1) || (i_quote <? i_comment)) then
    let i_endquote := Py.find line (u "'") (i_quote + 1) in
    if negb (i_endquote =? -1) then
      let text := Py.slice line (Some (i_quote + 1)) (Some i_endquote) in
      insens ← insens_of text;
      Ok (Py.slice line None (Some i_quote) ++ insens
            ++ Py.slice line (Some (i_endquote + 1)) None)
    else Ok line
  else Ok line.

(** ** Quote characters and comment markers in a line *)

(** [c] occurs in [s]. *)
Fixpoint has_char (c : N) (s : str) : bool :=
  match s with
  | [] => false
  | b :: s' => (b =? c)%N || has_char c s'
  end.

(** The number of occurrences of [c] in [s]. *)
Fixpoint count_char (c : N) (s : str) : nat :=
  match s with
  | [] => O
  | b :: s' => ((if (b =? c)%N then 1 else 0) + count_char c s')%nat
  end.

(** The comment marker occurs somewhere in [s]. *)
Fixpoint has_marker (s : str) : bool :=
  match s with
  | [] => false
  | _ :: s' => Py.startswith s (u "//") || has_marker s'
  end.

Definition has_quote (s : str) : bool := has_char QUOTE s.
Definition count_quotes (s : str) : nat := count_char QUOTE s.

(** The bracket expression in the words of the specification: an opening
    bracket, the upper-case form of [c], the lower-case form of [c], a
    closing bracket. *)
Definition bracket_expr (c : N) : str :=
  u "[" ++ chr_upper c ++ chr_lower c ++ u "]".

(** One bracket expression per character, nothing in between. *)
Fixpoint expand_each (s : str) : str :=
  match s with
  | [] => []
  | c :: s' => bracket_expr c ++ expand_each s'
  end.

(** The lower-case form of [c] is one character, so that ['%c'] takes
    it. *)
Definition formattable (c : N) : bool :=
  match chr_lower c with
  | [_] => true
  | _ => false
  end.

(** A character without an upper-case/lower-case distinction. *)
Definition caseless (c : N) : Prop := chr_upper c = [c] /\ chr_lower c = [c].

(** The text from the first comment marker of [line] on comes out of the
    rewriter as it went in. *)
Definition keeps_comment_tail (line : str) : Prop :=
  forall pre rest,
    line = pre ++ u "//" ++ rest ->
    has_marker (pre ++ u "/") = false ->
    exists pre', rewrite_line line = Ok (pre' ++ u "//" ++ rest).

(** The four shapes of a line: no quote; a marker that no quote
    precedes; a first quote that nothing closes; or a literal whose opening
    quote no marker precedes. *)
Inductive line_shape (line : str) : Prop :=
| NoQuote : has_quote line = false -> line_shape line
| MarkerFirst pre rest :
    line = pre ++ u "//" ++ rest -> has_quote pre = false -> line_shape line
| OpenQuote pre rest :
    line = pre ++ u "'" ++ rest ->
    has_quote pre = false -> has_quote rest = false -> line_shape line
| Literal pre mid post :
    line = pre ++ u "'" ++ mid ++ u "'" ++ post ->
    has_quote pre = false -> has_marker pre = false -> has_quote mid = false ->
    line_shape line.

(** ** Files *)

(** What a file holds, as reading it delivers it.  [Text s]: the bytes
    decode to [s].  [Damaged s]: the bytes do not decode; [s] is the text
    that reading hands over, line terminators already read as line feeds,
    before the chunk that does not decode is reached (nothing, when that
    is the first chunk). *)
Inductive file : Type :=
| Text (s : str)
| Damaged (s : str).

(** Universal newlines: a carriage return, with the line feed that may
    follow it, is read as a line feed. *)
Fixpoint universal_newlines (s : str) : str :=
  match s with
  | [] => []
  | c :: rest =>
      if (c =? CR)%N then
        match rest with
        | d :: rest' =>
            if (d =? LF)%N then LF :: universal_newlines rest'
            else LF :: universal_newlines rest
        | [] => [LF]
        end
      else c :: universal_newlines rest
  end.

(** A file open for reading: the text not read yet, and whether decoding
    fails where it ends. *)
Record reader : Type := Reader { unread : str; damaged : bool }.

(** [open(filename)], on what the file holds. *)
Definition open_read (f : file) : reader :=
  match f with
  | Text s => Reader (universal_newlines s) false
  | Damaged s => Reader s true
  end.

(** The text up to the first line feed, included, and what follows it;
    without a line feed, all the text and nothing. *)
Fixpoint split_line (s : str) : str * option str :=
  match s with
  | [] => ([], None)
  | c :: rest =>
      if (c =? LF)%N then ([c], Some rest)
      else let '(line, rest') := split_line rest in (c :: line, rest')
  end.

(** [inp.readline()]: the next line, its line feed included, or what is
    left when no line feed is left; the empty string at the end of the
    file.  Where decoding fails no end of file is reached: the read that
    needs more text raises. *)
Definition readline (inp : reader) : result str * reader :=
  match split_line (unread inp) with
  | (line, Some rest) => (Ok line, Reader rest (damaged inp))
  | (line, None) =>
      if damaged inp then (Raise UnicodeDecodeError, inp)
      else (Ok line, Reader [] false)
  end.

(** How a call ends.  [OutOfFuel] belongs to the model only: the [while]
    loop is run with a bound on its iterations, and
    [make_insensitive_never_out_of_fuel] shows the bound is never hit. *)
Inductive outcome : Type :=
| Returned
| Raised (e : exn)
| OutOfFuel.

(** The [while True] loop of [make_insensitive] (lines 12-30): [inp] is
    the input file, [out] what has been written.  The result is what has
    been written when the loop is left, and the exception that left it, if
    any. *)
Fixpoint copy_loop (fuel : nat) (inp : reader) (out : str)
  : option (str * option exn) :=
  match fuel with
  | O => None
  | S fuel' =>
      match readline inp with
      | (Raise e, _) => Some (out, Some e)
      | (Ok line, inp') =>
          if bool_decide (line = []) then Some (out, None)
          else match rewrite_line line with
               | Raise e => Some (out, Some e)
               | Ok line' => copy_loop fuel' inp' (out ++ line')
               end
      end
  end.

(** [filename[:-3]]: chop off the ".in" part (line 9). *)
Definition out_filename (filename : str) : str :=
  Py.slice filename None (Some (-3)).

(** [make_insensitive(filename)]: the file system it leaves, and how it
    ends. *)
Definition make_insensitive (filename : str) (fs : gmap str file)
  : gmap str file * outcome :=
  if negb (Py.endswith filename (u ".g4.in")) then
    (fs, Raised (ValueError (u "Unrecognized file-type for " ++ filename)))
  else
    match fs !! filename with
    | None => (fs, Raised (FileNotFoundError filename))
    | Some data =>
        let inp := open_read data in
        match copy_loop (S (length (unread inp))) inp [] with
        | Some (written, None) =>
            (<[out_filename filename := Text written]> fs, Returned)
        | Some (written, Some e) =>
            (<[out_filename filename := Text written]> fs, Raised e)
        | None => (fs, OutOfFuel)
        end
    end.

(** ** The command driver *)

Record world : Type := World { stdout : str; files : gmap str file }.

(** [print(s)]. *)
Definition print (s : str) (w : world) : world :=
  World (stdout w ++ s ++ [LF]) (files w).

(** How the process ends: with an exit status, or on an exception nobody
    catches (which the interpreter turns into status 1). *)
Inductive termination : Type :=
| Exits (code : Z)
| Uncaught (e : exn)
| Unfinished.

Definition exit_status (t : termination) : option Z :=
  match t with
  | Exits code => Some code
  | Uncaught _ => Some 1
  | Unfinished => None
  end.

(** The [for] loop over [sys.argv[1:]] (lines 39-44). *)
Fixpoint for_filenames (names : list str) (w : world) : world * termination :=
  match names with
  | [] => (w, Exits 0)
  | filename :: names' =>
      if negb (Py.endswith filename (u ".g4.in")) then
        for_filenames names'
          (print (u "WARNING:  Unrecognized file-type for " ++ filename
                    ++ u ", skipping.") w)
      else
        match make_insensitive filename (files w) with
        | (fs', Returned) => for_filenames names' (World (stdout w) fs')
        | (fs', Raised e) => (World (stdout w) fs', Uncaught e)
        | (fs', OutOfFuel) => (World (stdout w) fs', Unfinished)
        end
  end.

(** The module's top level (lines 33-44), [argv] being [sys.argv]. *)
Definition main (argv : list str) (w : world) : world * termination :=
  if (length argv =? 1)%nat then
    let w := print (u "usage: " ++ nth 0 argv [] ++ u " file1.g4.in [file2.g4.in ...]") w in
    let w := print (TAB :: u "Converts the ANTLRv4 keyword file(s) to be case-insensitive.") w in
    let w := print (TAB :: u "Requires at least one file to be specified on the command-line.") w in
    (w, Exits 1)
  else for_filenames (drop 1 argv) w.

(** The number of lines a text printed on standard output takes. *)
Definition printed_lines (out : str) : nat := count_char LF out.

(** The line the driver prints for a name it does not recognise. *)
Definition warning_for (filename : str) : str :=
  u "WARNING:  Unrecognized file-type for " ++ filename ++ u ", skipping.".

(** The usage text, as the terminal shows it. *)
Definition usage_text (prog : str) : str :=
  u "usage: " ++ prog ++ u " file1.g4.in [file2.g4.in ...]" ++ [LF]
  ++ TAB :: u "Converts the ANTLRv4 keyword file(s) to be case-insensitive."
  ++ [LF]
  ++ TAB :: u "Requires at least one file to be specified on the command-line."
  ++ [LF].

(** ** Whole texts *)

(** The lines of a text: its pieces, cut after each line feed. *)
Fixpoint readlines (s : str) : list str :=
  match s with
  | [] => []
  | c :: rest =>
      if (c =? LF)%N then [c] :: readlines rest
      else match readlines rest with
           | [] => [[c]]
           | line :: lines => (c :: line) :: lines
           end
  end.

(** What the loop writes for the lines it reads: the lines rewritten, in
    order, up to the first one that raises, and the exception if there is
    one. *)
Fixpoint rewrite_lines (lines : list str) : str * option exn :=
  match lines with
  | [] => ([], None)
  | line :: lines' =>
      match rewrite_line line with
      | Raise e => ([], Some e)
      | Ok line' =>
          let '(written, e) := rewrite_lines lines' in (line' ++ written, e)
      end
  end.

(** What the rewriter makes of a text that decodes: the lines of the text,
    read with universal newlines, rewritten. *)
Definition rewrite_text (content : str) : str * option exn :=
  rewrite_lines (readlines (universal_newlines content)).

(** A line of a text has no line feed but, possibly, its last character. *)
Definition one_line (line : str) : Prop :=
  exists body, has_char LF body = false /\ (line = body \/ line = body ++ [LF]).

(** The driver takes [filename] for a keyword file. *)
Definition recognised (filename : str) : bool :=
  Py.endswith filename (u ".g4.in").

(** [make_insensitive] runs to its end on [filename]: the file is there,
    it decodes, and no line of it raises. *)
Definition rewritable (fs : gmap str file) (filename : str) : Prop :=
  exists content written,
    fs !! filename = Some (Text content)
    /\ rewrite_text content = (written, None).

(** A file system with one small keyword file, before and after the
    rewriter has run on it. *)
Definition one_keyword_file : gmap str file := {[ u "K.g4.in" := Text (u "'a'") ]}.

Definition one_keyword_file_done : gmap str file :=
  <[ u "K.g4" := Text (u "[Aa]") ]> one_keyword_file.

(** For a character: its upper-case form is one character, the lower-case
    form of that one is one character, the character is one of the two,
    and the two are the case forms of each other. *)
Definition ascii_bracket_ok (c : N) : bool :=
  match chr_upper c with
  | [U] =>
      match chr_lower U with
      | [l] => ((c =? U)%N || (c =? l)%N) && bool_decide (chr_upper l = [U])
      | _ => false
      end
  | _ => false
  end.

(** ** Checks run over the case tables *)

(** The characters the rewriter looks for or writes itself: the quote,
    the slash, the two line terminators and the two brackets. *)
Definition plain (q : N) : bool :=
  bool_decide (q ∈ [QUOTE; SLASH; LF; CR; 91%N; 93%N]).

(** A table entry that neither maps a plain character nor yields one. *)
Definition keeps_plain (c : N) (v : str) : bool :=
  negb (plain c) && forallb (fun d => negb (plain d)) v.

(** A table entry of [upper_table] whose value is not empty and is left
    alone by a second upper-casing. *)
Definition settled (c : N) (v : str) : bool :=
  negb (bool_decide (v = []))
  && forallb (fun d => bool_decide (assoc d upper_table = None)) v.

(** The capital I with a dot above, U+0130. *)
Definition DOTTED_I : N := 304%N.

(** A table entry whose value is one character, or whose key is
    [DOTTED_I]. *)
Definition one_char (c : N) (v : str) : bool :=
  match v with
  | [_] => true
  | _ => (c =? DOTTED_I)%N
  end.

(** A table entry that neither maps [DOTTED_I] nor yields it. *)
Definition no_dotted_i (c : N) (v : str) : bool :=
  negb (c =? DOTTED_I)%N && negb (has_char DOTTED_I v).

(** * Strings: concatenation, slices and searches *)

(** The literals of the source, as lists of code points. *)
Ltac literals :=
  change (u "'") with [QUOTE] in *;
  change (u "//") with [SLASH; SLASH] in *;
  change (u "/") with [SLASH] in *;
  change (u "[") with [91%N] in *;
  change (u "]") with [93%N] in *.

Section StringFacts.

Implicit Types (s t v sub : str) (a b c : N).

Lemma app_ass s t v : (s ++ t) ++ v = s ++ t ++ v.
Proof. induction s as [|a s IH]; simpl; [reflexivity | now rewrite IH]. Qed.

Lemma len_app_nat s t : length (s ++ t) = (length s + length t)%nat.
Proof. induction s as [|a s IH]; simpl; [reflexivity | now rewrite IH]. Qed.

Lemma take_all s : take (length s) s = s.
Proof. induction s as [|a s IH]; simpl; [reflexivity | now rewrite IH]. Qed.

Lemma take_seam s t : take (length s) (s ++ t) = s.
Proof. induction s as [|a s IH]; simpl; [now destruct t | now rewrite IH]. Qed.

Lemma drop_seam s t : drop (length s) (s ++ t) = t.
Proof. induction s as [|a s IH]; simpl; [reflexivity | exact IH]. Qed.

Lemma index_skip sub s t (n : nat) :
  Py.index (length s + n) sub (s ++ t)
  = (fun m => (length s + m)%nat) <$> Py.index n sub t.
Proof.
  induction s as [|a s IH]; simpl.
  - now destruct (Py.index n sub t).
  - rewrite IH. now destruct (Py.index n sub t).
Qed.

Lemma startswith_nil s : Py.startswith s [] = true.
Proof. now destruct s. Qed.

Lemma startswith_cons a sub b s :
  Py.startswith (b :: s) (a :: sub) = (a =? b)%N && Py.startswith s sub.
Proof. reflexivity. Qed.

Lemma startswith_char c b s : Py.startswith (b :: s) [c] = (b =? c)%N.
Proof. now rewrite startswith_cons, startswith_nil, andb_true_r, N.eqb_sym. Qed.

Lemma startswith_app sub s t :
  Py.startswith s sub = true -> Py.startswith (s ++ t) sub = true.
Proof.
  revert sub. induction s as [|b s IH]; intros [|a sub] H;
    rewrite ?startswith_nil; try easy.
  simpl in *. apply andb_prop in H as [-> H]. now apply IH.
Qed.

End StringFacts.

(** ** Searching for a character and for the comment marker *)

Section Searches.

Implicit Types (s t sub : str) (a b c : N).

Lemma index0_cons sub b s :
  Py.index 0 sub (b :: s)
  = if Py.startswith (b :: s) sub then Some O else S <$> Py.index 0 sub s.
Proof. reflexivity. Qed.

Lemma has_marker_cons a s :
  has_marker (a :: s)
  = Py.startswith (a :: s) [SLASH; SLASH] || has_marker s.
Proof. reflexivity. Qed.

Lemma index0_char_app c s t :
  has_char c s = false ->
  Py.index 0 [c] (s ++ t)
  = (fun m => (length s + m)%nat) <$> Py.index 0 [c] t.
Proof.
  induction s as [|b s IH]; intros H.
  - simpl. now destruct (Py.index 0 [c] t).
  - simpl in H. apply orb_false_elim in H as [Hb Hs].
    change ((b :: s) ++ t) with (b :: (s ++ t)).
    rewrite index0_cons, startswith_char, Hb, (IH Hs).
    now destruct (Py.index 0 [c] t).
Qed.

Lemma index0_char_here c t : Py.index 0 [c] (c :: t) = Some O.
Proof. now rewrite index0_cons, startswith_char, N.eqb_refl. Qed.

Lemma index0_char_absent c s : has_char c s = false -> Py.index 0 [c] s = None.
Proof.
  intros H. rewrite <- (app_nil_r s). now rewrite index0_char_app.
Qed.

Lemma index0_char_first c s t :
  has_char c s = false -> Py.index 0 [c] (s ++ c :: t) = Some (length s).
Proof.
  intros H. rewrite (index0_char_app _ _ _ H), index0_char_here.
  simpl. f_equal. lia.
Qed.

Lemma startswith_marker_quote s t :
  Py.startswith (s ++ QUOTE :: t) [SLASH; SLASH] = Py.startswith s [SLASH; SLASH].
Proof.
  destruct s as [|a [|b s]]; cbn [app].
  - reflexivity.
  - rewrite !startswith_cons. now destruct (SLASH =? a)%N.
  - now rewrite !startswith_cons, !startswith_nil.
Qed.

Lemma has_marker_app_l s t : has_marker (s ++ t) = false -> has_marker s = false.
Proof.
  induction s as [|a s IH]; [reflexivity |].
  change ((a :: s) ++ t) with (a :: (s ++ t)). rewrite !has_marker_cons.
  intros H. apply orb_false_elim in H as [Hp Hm].
  rewrite (IH Hm), orb_false_r.
  destruct (Py.startswith (a :: s) [SLASH; SLASH]) eqn:E; [| reflexivity].
  apply (startswith_app _ _ t) in E. simpl in *. congruence.
Qed.

Lemma index0_marker_absent s :
  has_marker s = false -> Py.index 0 [SLASH; SLASH] s = None.
Proof.
  induction s as [|a s IH]; [reflexivity |].
  rewrite has_marker_cons, index0_cons. intros H.
  apply orb_false_elim in H as [Hp Hm]. now rewrite Hp, (IH Hm).
Qed.

(** Past a marker-free text that a quote ends, the first marker is the
    first one of what follows the quote. *)
Lemma index0_marker_quote s t :
  has_marker s = false ->
  Py.index 0 [SLASH; SLASH] (s ++ QUOTE :: t)
  = (fun m => (length s + S m)%nat) <$> Py.index 0 [SLASH; SLASH] t.
Proof.
  induction s as [|a s IH]; intros H.
  - cbn [app]. rewrite index0_cons, startswith_cons.
    now destruct (Py.index 0 [SLASH; SLASH] t).
  - rewrite has_marker_cons in H. apply orb_false_elim in H as [Hp Hm].
    change ((a :: s) ++ QUOTE :: t) with (a :: (s ++ QUOTE :: t)).
    rewrite index0_cons.
    change (a :: (s ++ QUOTE :: t)) with ((a :: s) ++ QUOTE :: t).
    rewrite startswith_marker_quote, Hp, (IH Hm).
    now destruct (Py.index 0 [SLASH; SLASH] t).
Qed.

(** A marker at position [length s] puts the first marker at or before
    that position. *)
Lemma index0_marker_le s t :
  exists m, Py.index 0 [SLASH; SLASH] (s ++ [SLASH; SLASH] ++ t) = Some m
            /\ (m <= length s)%nat.
Proof.
  induction s as [|a s (m & Hm & Hle)].
  - exists O. split; [| reflexivity]. cbn [app].
    now rewrite index0_cons, !startswith_cons, startswith_nil.
  - change ((a :: s) ++ [SLASH; SLASH] ++ t)
      with (a :: (s ++ [SLASH; SLASH] ++ t)).
    rewrite index0_cons.
    destruct (Py.startswith (a :: s ++ [SLASH; SLASH] ++ t) [SLASH; SLASH]).
    + exists O. split; [reflexivity | lia].
    + exists (S m). rewrite Hm. split; [reflexivity | simpl; lia].
Qed.

Lemma has_char_app c s t : has_char c (s ++ t) = has_char c s || has_char c t.
Proof.
  induction s as [|b s IH]; [reflexivity |]. simpl. now rewrite IH, orb_assoc.
Qed.

Lemma count_char_none c s : has_char c s = false -> count_char c s = O.
Proof.
  induction s as [|b s IH]; [reflexivity |]. simpl. intros H.
  apply orb_false_elim in H as [-> Hs]. now rewrite (IH Hs).
Qed.

Lemma count_char_app c s t :
  count_char c (s ++ t) = (count_char c s + count_char c t)%nat.
Proof.
  induction s as [|b s IH]; [reflexivity |]. simpl. rewrite IH. lia.
Qed.

(** A string with an occurrence of [c] splits at the first one. *)
Lemma split_first c s :
  has_char c s = true ->
  exists s1 s2, s = s1 ++ c :: s2 /\ has_char c s1 = false.
Proof.
  induction s as [|b s IH]; [discriminate |]. simpl.
  destruct (N.eqb_spec b c) as [->|ne]; intros H.
  - now exists [], s.
  - destruct (IH H) as (s1 & s2 & -> & H1).
    exists (b :: s1), s2. split; [reflexivity |].
    simpl. rewrite H1. now apply N.eqb_neq in ne as ->.
Qed.

(** The two boolean predicates say what their names say. *)
Lemma has_char_spec c s :
  has_char c s = true <-> exists s1 s2, s = s1 ++ c :: s2.
Proof.
  split.
  - intros H. destruct (split_first _ _ H) as (s1 & s2 & E & _). eauto.
  - intros (s1 & s2 & ->). rewrite has_char_app. simpl.
    now rewrite N.eqb_refl, orb_true_r.
Qed.

Lemma has_marker_spec s :
  has_marker s = true <-> exists s1 s2, s = s1 ++ [SLASH; SLASH] ++ s2.
Proof.
  split.
  - induction s as [|a s IH]; [discriminate |].
    rewrite has_marker_cons. intros H. apply orb_prop in H as [H|H].
    + destruct s as [|b s]; rewrite startswith_cons in H;
        apply andb_prop in H as [Ha H]; [discriminate |].
      rewrite startswith_cons in H. apply andb_prop in H as [Hb _].
      apply N.eqb_eq in Ha, Hb. subst a b. now exists [], s.
    + destruct (IH H) as (s1 & s2 & ->). now exists (a :: s1), s2.
  - intros (s1 & s2 & ->). induction s1 as [|a s1 IH].
    + cbn [app]. now rewrite has_marker_cons, !startswith_cons, startswith_nil.
    + change ((a :: s1) ++ [SLASH; SLASH] ++ s2)
        with (a :: (s1 ++ [SLASH; SLASH] ++ s2)).
      rewrite has_marker_cons, IH. apply orb_true_r.
Qed.

End Searches.

(** ** The Python primitives on positions inside the string *)

Section PyFacts.

Implicit Types (s t v sub : str) (j k : nat).

Lemma len_app s t : Py.len (s ++ t) = Py.len s + Py.len t.
Proof. unfold Py.len. rewrite len_app_nat. lia. Qed.

Lemma len_nonneg s : 0 <= Py.len s.
Proof. unfold Py.len. lia. Qed.

Lemma adjust_id n i : 0 <= i <= n -> Py.adjust n i = i.
Proof.
  intros H. unfold Py.adjust.
  destruct (Z.ltb_spec i 0); [lia |].
  destruct (Z.ltb_spec i 0); [lia |].
  destruct (Z.ltb_spec n i); lia.
Qed.

Lemma find_at s sub k :
  (k <= length s)%nat ->
  Py.find s sub (Z.of_nat k)
  = match Py.index k sub s with Some m => Z.of_nat m | None => -1 end.
Proof.
  intros H. unfold Py.find, Py.len.
  destruct (Z.ltb_spec (Z.of_nat k) 0); [lia |].
  destruct (Z.ltb_spec (Z.of_nat (length s)) (Z.of_nat k)); [lia |].
  now rewrite Nat2Z.id.
Qed.

Lemma slice_upto s k :
  (k <= length s)%nat -> Py.slice s None (Some (Z.of_nat k)) = take k s.
Proof.
  intros H. unfold Py.slice, Py.len.
  rewrite adjust_id by lia. now rewrite Z.sub_0_r, Nat2Z.id.
Qed.

Lemma slice_between s j k :
  (j <= k <= length s)%nat ->
  Py.slice s (Some (Z.of_nat j)) (Some (Z.of_nat k)) = take (k - j) (drop j s).
Proof.
  intros H. unfold Py.slice, Py.len.
  rewrite !adjust_id by lia. rewrite Nat2Z.id. do 2 f_equal. lia.
Qed.

Lemma slice_from s j :
  (j <= length s)%nat ->
  Py.slice s (Some (Z.of_nat j)) None = drop j s.
Proof.
  intros H. unfold Py.slice, Py.len.
  rewrite adjust_id by lia. rewrite Nat2Z.id.
  replace (Z.to_nat (Z.of_nat (length s) - Z.of_nat j)) with (length (drop j s)).
  - apply take_all.
  - rewrite length_drop. lia.
Qed.

(** Slices that cut a concatenation at its seams. *)
Lemma slice_head s t : Py.slice (s ++ t) None (Some (Py.len s)) = s.
Proof.
  unfold Py.len at 1. rewrite slice_upto by (rewrite len_app_nat; lia).
  apply take_seam.
Qed.

Lemma slice_tail s t : Py.slice (s ++ t) (Some (Py.len s)) None = t.
Proof.
  unfold Py.len at 1. rewrite slice_from by (rewrite len_app_nat; lia).
  apply drop_seam.
Qed.

Lemma slice_inner s t v :
  Py.slice (s ++ t ++ v) (Some (Py.len s)) (Some (Py.len s + Py.len t)) = t.
Proof.
  unfold Py.len. rewrite <- Nat2Z.inj_add.
  rewrite slice_between by (rewrite !len_app_nat; lia).
  rewrite drop_seam.
  replace (length s + length t - length s)%nat with (length t) by lia.
  apply take_seam.
Qed.

(** Searches from the start and from a seam. *)
Lemma find_0 s sub :
  Py.find s sub 0
  = match Py.index 0 sub s with Some m => Z.of_nat m | None => -1 end.
Proof. apply (find_at s sub 0). lia. Qed.

Lemma find_seam s t sub :
  Py.find (s ++ t) sub (Py.len s)
  = match Py.index 0 sub t with
    | Some m => Py.len s + Z.of_nat m
    | None => -1
    end.
Proof.
  unfold Py.len. rewrite find_at by (rewrite len_app_nat; lia).
  rewrite <- (Nat.add_0_r (length s)) at 1. rewrite index_skip.
  destruct (Py.index 0 sub t); simpl; [lia | reflexivity].
Qed.

End PyFacts.

(** * The case mappings, checked over their tables *)

Section CaseTables.

Implicit Types (c d q : N) (v s t : str).

(** What holds of every entry of a table holds of every hit. *)
Lemma assoc_forallb (P : N -> str -> bool) (table : list (N * str)) c v :
  forallb (fun kv => P kv.1 kv.2) table = true ->
  assoc c table = Some v -> P c v = true.
Proof.
  induction table as [|[k w] table IH]; [discriminate |]. simpl.
  intros H. apply andb_prop in H as [Hk Ht].
  destruct (N.eqb_spec k c) as [->|_]; [| now apply IH].
  now intros [= <-].
Qed.

(** Neither mapping touches, or yields, a quote, a slash, a bracket or a
    line terminator. *)
Lemma upper_table_keeps_plain :
  forallb (fun kv => keeps_plain kv.1 kv.2) upper_table = true.
Proof. vm_compute. reflexivity. Qed.

Lemma lower_table_keeps_plain :
  forallb (fun kv => keeps_plain kv.1 kv.2) lower_table = true.
Proof. vm_compute. reflexivity. Qed.

Lemma has_char_plain q v :
  plain q = true -> forallb (fun d => negb (plain d)) v = true ->
  has_char q v = false.
Proof.
  intros Hq. induction v as [|d v IH]; [reflexivity |]. simpl.
  intros H. apply andb_prop in H as [Hd Hv]. rewrite (IH Hv), orb_false_r.
  apply N.eqb_neq. intros ->. now rewrite Hq in Hd.
Qed.

Lemma table_has_plain (table : list (N * str)) q c :
  forallb (fun kv => keeps_plain kv.1 kv.2) table = true ->
  plain q = true ->
  has_char q (match assoc c table with Some v => v | None => [c] end)
  = (c =? q)%N.
Proof.
  intros Ht Hq. destruct (assoc c table) as [v|] eqn:E.
  - apply (assoc_forallb keeps_plain _ _ _ Ht) in E.
    apply andb_prop in E as [Hc Hv]. rewrite (has_char_plain _ _ Hq Hv).
    symmetry. apply N.eqb_neq. intros ->. now rewrite Hq in Hc.
  - simpl. apply orb_false_r.
Qed.

Lemma chr_upper_has_plain q c :
  plain q = true -> has_char q (chr_upper c) = (c =? q)%N.
Proof. apply table_has_plain, upper_table_keeps_plain. Qed.

Lemma chr_lower_has_plain q c :
  plain q = true -> has_char q (chr_lower c) = (c =? q)%N.
Proof. apply table_has_plain, lower_table_keeps_plain. Qed.

(** An upper-case form is never empty, and upper-casing it again changes
    nothing. *)
Lemma upper_table_settled :
  forallb (fun kv => settled kv.1 kv.2) upper_table = true.
Proof. vm_compute. reflexivity. Qed.

Lemma chr_upper_not_nil c : chr_upper c <> [].
Proof.
  unfold chr_upper. destruct (assoc c upper_table) as [v|] eqn:E; [| discriminate].
  apply (assoc_forallb settled _ _ _ upper_table_settled) in E.
  apply andb_prop in E as [Hv _]. intros ->. discriminate.
Qed.

Lemma chr_upper_idem c d : d ∈ chr_upper c -> chr_upper d = [d].
Proof.
  unfold chr_upper at 1. destruct (assoc c upper_table) as [v|] eqn:E.
  - apply (assoc_forallb settled _ _ _ upper_table_settled) in E.
    apply andb_prop in E as [_ Hv]. intros Hd.
    rewrite forallb_forall in Hv. apply list_elem_of_In in Hd.
    specialize (Hv d Hd). apply bool_decide_eq_true in Hv.
    unfold chr_upper. now rewrite Hv.
  - intros Hd. apply list_elem_of_singleton in Hd as ->.
    unfold chr_upper. now rewrite E.
Qed.

(** One character only has a lower-case form that is not one character:
    the capital I with a dot above, U+0130; and no other character has it
    in its upper-case form. *)
Lemma lower_table_one_char :
  forallb (fun kv => one_char kv.1 kv.2) lower_table = true.
Proof. vm_compute. reflexivity. Qed.

Lemma formattable_iff c : formattable c = negb (c =? DOTTED_I)%N.
Proof.
  unfold formattable, chr_lower.
  destruct (assoc c lower_table) as [v|] eqn:E.
  - pose proof (assoc_forallb one_char _ _ _ lower_table_one_char E) as H.
    destruct (N.eqb_spec c DOTTED_I) as [->|ne].
    + vm_compute in E. now injection E as <-.
    + destruct v as [|? [|? ?]]; simpl in *; try reflexivity;
        apply N.eqb_eq in H; contradiction.
  - destruct (N.eqb_spec c DOTTED_I) as [->|ne]; [| reflexivity].
    vm_compute in E. discriminate.
Qed.

Lemma upper_table_no_dotted_i :
  forallb (fun kv => no_dotted_i kv.1 kv.2) upper_table = true.
Proof. vm_compute. reflexivity. Qed.

Lemma chr_upper_has_dotted_i c :
  has_char DOTTED_I (chr_upper c) = (c =? DOTTED_I)%N.
Proof.
  unfold chr_upper. destruct (assoc c upper_table) as [v|] eqn:E.
  - apply (assoc_forallb no_dotted_i _ _ _ upper_table_no_dotted_i) in E.
    apply andb_prop in E as [Hc Hv]. apply negb_true_iff in Hc, Hv.
    now rewrite Hv, Hc.
  - simpl. apply orb_false_r.
Qed.

End CaseTables.

(** * The expansion of a literal *)

Section Expansion.

Implicit Types (s t text : str) (c d q : N).

Lemma fmap_ok {A B} (f : A -> B) (a : A) : f <$> Ok a = Ok (f a).
Proof. reflexivity. Qed.

Lemma fmap_raise {A B} (f : A -> B) (e : exn) : f <$> (Raise e : result A) = Raise e.
Proof. reflexivity. Qed.

Lemma bind_ok {A B} (f : A -> result B) (a : A) : Ok a ≫= f = f a.
Proof. reflexivity. Qed.

Lemma bind_raise {A B} (f : A -> result B) (e : exn) :
  (Raise e : result A) ≫= f = Raise e.
Proof. reflexivity. Qed.

Lemma upper_app s t : Py.upper (s ++ t) = Py.upper s ++ Py.upper t.
Proof.
  induction s as [|c s IH]; [reflexivity |]. simpl. now rewrite IH, app_ass.
Qed.

Lemma join_app (l1 l2 : list str) : Py.join (l1 ++ l2) = Py.join l1 ++ Py.join l2.
Proof.
  unfold Py.join. induction l1 as [|x l1 IH]; [reflexivity |].
  simpl. now rewrite IH, app_ass.
Qed.

Lemma bracket_formattable d :
  formattable d = true ->
  exists l, chr_lower d = [l] /\ bracket d = Ok [91%N; d; l; 93%N].
Proof.
  unfold formattable, bracket.
  destruct (chr_lower d) as [|l [|? ?]]; try discriminate. eauto.
Qed.

Lemma bracket_unformattable d : formattable d = false -> bracket d = Raise TypeError.
Proof.
  unfold formattable, bracket.
  now destruct (chr_lower d) as [|l [|? ?]].
Qed.

Lemma brackets_app s t :
  brackets (s ++ t) = bs ← brackets s; bt ← brackets t; Ok (bs ++ bt).
Proof.
  induction s as [|d s IH]; simpl.
  - now destruct (brackets t).
  - destruct (bracket d) as [b|e]; [| reflexivity]. simpl. rewrite IH.
    destruct (brackets s) as [bs|e]; [| reflexivity]. simpl.
    now destruct (brackets t).
Qed.

Lemma insens_of_app s t :
  insens_of (s ++ t) = a ← insens_of s; b ← insens_of t; Ok (a ++ b).
Proof.
  unfold insens_of. rewrite upper_app, brackets_app.
  destruct (brackets (Py.upper s)) as [bs|e]; [| reflexivity]. simpl.
  destruct (brackets (Py.upper t)) as [bt|e]; [| reflexivity]. simpl.
  now rewrite join_app.
Qed.

(** The characters of an upper-cased text are their own upper-case
    form. *)
Lemma upper_settled text d : d ∈ Py.upper text -> chr_upper d = [d].
Proof.
  induction text as [|c s IH]; simpl.
  - now intros H%elem_of_nil.
  - intros [H|H]%elem_of_app; [now apply (chr_upper_idem c) | now apply IH].
Qed.

Lemma forallb_formattable s :
  forallb formattable s = negb (has_char DOTTED_I s).
Proof.
  induction s as [|d s IH]; [reflexivity |]. simpl.
  now rewrite IH, formattable_iff, negb_orb.
Qed.

Lemma upper_has_dotted_i text :
  has_char DOTTED_I (Py.upper text) = has_char DOTTED_I text.
Proof.
  induction text as [|c s IH]; [reflexivity |]. simpl.
  now rewrite has_char_app, chr_upper_has_dotted_i, IH.
Qed.

Lemma brackets_raise s :
  has_char DOTTED_I s = true -> brackets s = Raise TypeError.
Proof.
  induction s as [|d s IH]; [discriminate |]. simpl.
  destruct (formattable d) eqn:Hd.
  - destruct (bracket_formattable d Hd) as (l & _ & ->).
    rewrite formattable_iff in Hd. apply negb_true_iff in Hd. rewrite Hd.
    simpl. intros H. now rewrite (IH H).
  - now rewrite (bracket_unformattable d Hd).
Qed.

Lemma brackets_ok s :
  has_char DOTTED_I s = false -> (forall d, d ∈ s -> chr_upper d = [d]) ->
  exists bs, brackets s = Ok bs /\ Py.join bs = expand_each s.
Proof.
  induction s as [|d s IH]; [now exists [] |]. simpl. intros H Hup.
  apply orb_false_elim in H as [Hd Hs].
  destruct (bracket_formattable d) as (l & Hl & ->).
  { rewrite formattable_iff. now rewrite Hd. }
  destruct (IH Hs) as (bs & -> & Hj).
  { intros d' Hd'. apply Hup. now right. }
  exists ([91%N; d; l; 93%N] :: bs). split; [reflexivity |].
  unfold Py.join in *. simpl. rewrite Hj. unfold bracket_expr.
  rewrite Hl, (Hup d) by now left. reflexivity.
Qed.

(** The expansion: one bracket expression, in the sense of the
    specification, for each character of the upper-cased text, unless the
    text holds the character that ['%c'] cannot take. *)
Lemma insens_of_spec text :
  insens_of text
  = if has_char DOTTED_I text then Raise TypeError
    else Ok (expand_each (Py.upper text)).
Proof.
  unfold insens_of. rewrite <- upper_has_dotted_i.
  destruct (has_char DOTTED_I (Py.upper text)) eqn:H.
  - now rewrite (brackets_raise _ H).
  - destruct (brackets_ok _ H (upper_settled text)) as (bs & -> & <-).
    reflexivity.
Qed.

Lemma upper_has_plain q text :
  plain q = true -> has_char q (Py.upper text) = has_char q text.
Proof.
  intros Hq. induction text as [|c s IH]; [reflexivity |]. simpl.
  now rewrite has_char_app, (chr_upper_has_plain q c Hq), IH.
Qed.

Lemma expand_each_has_plain q s :
  plain q = true -> (q =? 91)%N = false -> (q =? 93)%N = false ->
  has_char q (expand_each s) = has_char q s.
Proof.
  intros Hq H1 H2. induction s as [|d s IH]; [reflexivity |].
  cbn [expand_each]. unfold bracket_expr. literals.
  rewrite !has_char_app, (chr_upper_has_plain q d Hq),
    (chr_lower_has_plain q d Hq), IH. cbn [has_char].
  rewrite (N.eqb_sym 91), (N.eqb_sym 93), H1, H2.
  now destruct (d =? q)%N.
Qed.

Lemma insens_of_has_quote text e :
  insens_of text = Ok e -> has_char QUOTE e = has_char QUOTE text.
Proof.
  rewrite insens_of_spec. destruct (has_char DOTTED_I text); [discriminate |].
  intros [= <-]. now rewrite expand_each_has_plain, upper_has_plain.
Qed.

Lemma insens_of_has_lf text e :
  insens_of text = Ok e -> has_char LF e = has_char LF text.
Proof.
  rewrite insens_of_spec. destruct (has_char DOTTED_I text); [discriminate |].
  intros [= <-]. now rewrite expand_each_has_plain, upper_has_plain.
Qed.

Lemma length_brackets s bs :
  brackets s = Ok bs -> length (Py.join bs) = (4 * length s)%nat.
Proof.
  revert bs. induction s as [|d s IH]; intros bs; simpl.
  - now intros [= <-].
  - unfold bracket. destruct (chr_lower d) as [|l [|? ?]]; try discriminate.
    simpl. destruct (brackets s) as [bs'|]; [| discriminate]. simpl.
    intros [= <-]. unfold Py.join in *. simpl. rewrite (IH bs' eq_refl). lia.
Qed.

Lemma length_upper text : (length text <= length (Py.upper text))%nat.
Proof.
  induction text as [|c s IH]; [reflexivity |]. simpl. rewrite len_app_nat.
  pose proof (chr_upper_not_nil c). destruct (chr_upper c); [easy | simpl; lia].
Qed.

Lemma length_insens_of text e :
  insens_of text = Ok e -> length e = (4 * length (Py.upper text))%nat.
Proof.
  unfold insens_of. destruct (brackets (Py.upper text)) as [bs|] eqn:E;
    [| discriminate].
  simpl. intros [= <-]. now apply length_brackets.
Qed.

Lemma brackets_inj s1 s2 bs1 bs2 :
  brackets s1 = Ok bs1 -> brackets s2 = Ok bs2 ->
  Py.join bs1 = Py.join bs2 -> s1 = s2.
Proof.
  revert s2 bs1 bs2. induction s1 as [|d1 s1 IH]; intros [|d2 s2] bs1 bs2; simpl.
  - reflexivity.
  - intros [= <-]. unfold bracket.
    destruct (chr_lower d2) as [|l [|? ?]]; try discriminate. simpl.
    destruct (brackets s2); [| discriminate]. now intros [= <-].
  - unfold bracket.
    destruct (chr_lower d1) as [|l [|? ?]]; try discriminate. simpl.
    destruct (brackets s1); [| discriminate]. now intros [= <-] [= <-].
  - unfold bracket.
    destruct (chr_lower d1) as [|l1 [|? ?]]; try discriminate.
    destruct (chr_lower d2) as [|l2 [|? ?]]; try discriminate. simpl.
    destruct (brackets s1) as [b1|] eqn:E1; [| discriminate].
    destruct (brackets s2) as [b2|] eqn:E2; [| discriminate]. simpl.
    intros [= <-] [= <-]. unfold Py.join. simpl. intros [= -> _ H].
    f_equal. now apply (IH s2 b1 b2).
Qed.

Lemma insens_of_upper_inj t1 t2 e :
  insens_of t1 = Ok e -> insens_of t2 = Ok e -> Py.upper t1 = Py.upper t2.
Proof.
  unfold insens_of.
  destruct (brackets (Py.upper t1)) as [b1|] eqn:E1; [| discriminate].
  destruct (brackets (Py.upper t2)) as [b2|] eqn:E2; [| discriminate].
  simpl. intros [= <-] [= H]. now apply (brackets_inj _ _ _ _ E1 E2).
Qed.

End Expansion.

(** * The line rewriter, case by case *)

Section RewriteLine.

Implicit Types (line pre mid post rest : str).

Lemma find_quote_split pre rest :
  has_quote pre = false ->
  Py.find (pre ++ rest) [QUOTE] 0
  = match Py.index 0 [QUOTE] rest with
    | Some m => Py.len pre + Z.of_nat m
    | None => -1
    end.
Proof.
  intros H. rewrite find_0, (index0_char_app _ _ _ H). unfold Py.len.
  destruct (Py.index 0 [QUOTE] rest); simpl; [lia | reflexivity].
Qed.

Lemma find_quote_absent line : has_quote line = false -> Py.find line [QUOTE] 0 = -1.
Proof. intros H. now rewrite find_0, (index0_char_absent _ _ H). Qed.

Lemma find_quote_first pre rest :
  has_quote pre = false -> Py.find (pre ++ QUOTE :: rest) [QUOTE] 0 = Py.len pre.
Proof.
  intros H. rewrite (find_quote_split _ _ H), index0_char_here. lia.
Qed.

(** The search for the closing quote starts one past the opening one. *)
Lemma find_quote_next pre rest :
  Py.find (pre ++ QUOTE :: rest) [QUOTE] (Py.len pre + 1)
  = match Py.index 0 [QUOTE] rest with
    | Some m => Py.len pre + 1 + Z.of_nat m
    | None => -1
    end.
Proof.
  change (QUOTE :: rest) with ([QUOTE] ++ rest).
  rewrite <- app_ass.
  change 1 with (Py.len [QUOTE]). rewrite <- len_app.
  apply find_seam.
Qed.

(** No quote at all: the guard of line 20 fails on [i_quote]. *)
Lemma rewrite_line_no_quote line :
  has_quote line = false -> rewrite_line line = Ok line.
Proof.
  intros H. unfold rewrite_line. literals. now rewrite (find_quote_absent _ H).
Qed.

(** A marker with no quote before it: the guard fails on the comparison
    of the two positions. *)
Lemma rewrite_line_marker_first pre rest :
  has_quote pre = false ->
  rewrite_line (pre ++ [SLASH; SLASH] ++ rest) = Ok (pre ++ [SLASH; SLASH] ++ rest).
Proof.
  intros H. unfold rewrite_line. literals.
  destruct (index0_marker_le pre rest) as (m & Hm & Hle).
  rewrite (find_0 _ [SLASH; SLASH]), Hm, (find_quote_split _ _ H).
  cbn [app]. rewrite !index0_cons, !startswith_char.
  change (SLASH =? QUOTE)%N with false. cbv iota.
  destruct (Py.index 0 [QUOTE] rest) as [q|]; simpl fmap; [| reflexivity].
  unfold Py.len.
  destruct (Z.eqb_spec (Z.of_nat m) (-1)); [lia |].
  destruct (Z.ltb_spec (Z.of_nat (length pre) + Z.of_nat (S (S q)))
              (Z.of_nat m)); [lia |].
  now rewrite andb_false_r.
Qed.

(** An opening quote that nothing closes: whatever the guard says, the
    line is written as it was read. *)
Lemma rewrite_line_unterminated pre rest :
  has_quote pre = false -> has_quote rest = false ->
  rewrite_line (pre ++ QUOTE :: rest) = Ok (pre ++ QUOTE :: rest).
Proof.
  intros Hpre Hrest. unfold rewrite_line. literals.
  rewrite (find_quote_first _ _ Hpre), find_quote_next.
  rewrite (index0_char_absent _ _ Hrest).
  now destruct (_ && _).
Qed.

(** The guard of line 20 holds when the text before the first quote has
    no marker. *)
Lemma guard_holds pre rest :
  has_marker pre = false ->
  let line := pre ++ QUOTE :: rest in
  negb (Py.len pre =? -1)
  && ((Py.find line [SLASH; SLASH] 0 =? -1)
      || (Py.len pre <? Py.find line [SLASH; SLASH] 0))
  = true.
Proof.
  intros H line. subst line.
  rewrite find_0, (index0_marker_quote _ _ H).
  pose proof (len_nonneg pre) as Hn.
  destruct (Z.eqb_spec (Py.len pre) (-1)); [lia |].
  destruct (Py.index 0 [SLASH; SLASH] rest) as [m|]; simpl; [| reflexivity].
  unfold Py.len.
  destruct (Z.ltb_spec (Z.of_nat (length pre))
              (Z.of_nat (length pre + S m))); [| lia].
  now rewrite orb_true_r.
Qed.

(** A literal: first quote before any marker, and a quote that closes
    it.  The line is written with the expansion in the place of the
    literal, or the expansion raises. *)
Lemma rewrite_line_literal pre mid post :
  has_quote pre = false -> has_marker pre = false -> has_quote mid = false ->
  rewrite_line (pre ++ QUOTE :: mid ++ QUOTE :: post)
  = (fun e => pre ++ e ++ post) <$> insens_of mid.
Proof.
  intros Hpre Hmark Hmid. unfold rewrite_line. literals.
  rewrite (find_quote_first _ _ Hpre), (guard_holds _ _ Hmark).
  rewrite find_quote_next, (index0_char_first _ _ _ Hmid).
  fold (Py.len mid).
  pose proof (len_nonneg pre). pose proof (len_nonneg mid).
  destruct (Z.eqb_spec (Py.len pre + 1 + Py.len mid) (-1)); [lia |].
  cbn [negb].
  assert (Hmidslice :
    Py.slice (pre ++ QUOTE :: mid ++ QUOTE :: post) (Some (Py.len pre + 1))
      (Some (Py.len pre + 1 + Py.len mid)) = mid).
  { change (QUOTE :: mid ++ QUOTE :: post) with ([QUOTE] ++ mid ++ QUOTE :: post).
    rewrite <- app_ass.
    change 1 with (Py.len [QUOTE]). rewrite <- len_app. apply slice_inner. }
  assert (Hpost :
    Py.slice (pre ++ QUOTE :: mid ++ QUOTE :: post)
      (Some (Py.len pre + 1 + Py.len mid + 1)) None = post).
  { change (QUOTE :: mid ++ QUOTE :: post)
      with ([QUOTE] ++ mid ++ [QUOTE] ++ post).
    rewrite <- !app_ass.
    replace (Py.len pre + 1 + Py.len mid + 1)
      with (Py.len (((pre ++ [QUOTE]) ++ mid) ++ [QUOTE]))
      by (rewrite !len_app; reflexivity).
    apply slice_tail. }
  rewrite Hmidslice, Hpost, slice_head.
  now destruct (insens_of mid).
Qed.

(** Every line has one of the four shapes. *)
Lemma line_shapes line : line_shape line.
Proof.
  destruct (has_quote line) eqn:Hq; [| now apply NoQuote].
  destruct (split_first _ _ Hq) as (pre & rest & -> & Hpre).
  destruct (has_marker pre) eqn:Hm.
  - apply has_marker_spec in Hm as (p1 & p2 & ->).
    apply (MarkerFirst _ p1 (p2 ++ QUOTE :: rest)).
    + now rewrite !app_ass.
    + unfold has_quote in *. rewrite has_char_app in Hpre.
      now apply orb_false_elim in Hpre as [-> _].
  - destruct (has_quote rest) eqn:Hr.
    + destruct (split_first _ _ Hr) as (mid & post & -> & Hmid).
      now apply (Literal _ pre mid post).
    + now apply (OpenQuote _ pre rest).
Qed.

End RewriteLine.

(** * Lines and line terminators *)

Section Lines.

Implicit Types (s t line rest body content : str) (lines : list str) (c d : N).

Lemma count_quotes_literal pre mid post e :
  has_quote pre = false -> has_quote mid = false -> insens_of mid = Ok e ->
  count_quotes (pre ++ QUOTE :: mid ++ QUOTE :: post) = S (S (count_quotes post))
  /\ count_quotes (pre ++ e ++ post) = count_quotes post.
Proof.
  intros Hpre Hmid He. unfold count_quotes, has_quote in *.
  assert (Hins : has_char QUOTE e = false)
    by now rewrite (insens_of_has_quote _ _ He).
  rewrite !count_char_app. cbn [count_char]. rewrite N.eqb_refl.
  rewrite count_char_app. cbn [count_char]. rewrite N.eqb_refl.
  rewrite !(count_char_none _ _ Hpre), (count_char_none _ _ Hmid),
    (count_char_none _ _ Hins).
  split; lia.
Qed.

(** A line feed put after a line that has none comes out after the
    rewritten line; the rewriting itself brings no line feed in. *)
Lemma rewrite_line_lf body :
  has_char LF body = false ->
  rewrite_line (body ++ [LF]) = (fun out => out ++ [LF]) <$> rewrite_line body
  /\ (forall out, rewrite_line body = Ok out -> has_char LF out = false).
Proof.
  intros Hlf.
  destruct (line_shapes body) as [H | pre rest -> H | pre rest -> H1 H2
                                 | pre mid post -> H1 H2 H3]; literals.
  - rewrite (rewrite_line_no_quote body H), fmap_ok.
    split; [| now intros out [= <-]].
    apply rewrite_line_no_quote. unfold has_quote in *.
    now rewrite has_char_app, H.
  - rewrite (rewrite_line_marker_first pre rest H), fmap_ok.
    split; [| now intros out [= <-]].
    rewrite !app_ass. now apply rewrite_line_marker_first.
  - cbn [app] in *. rewrite (rewrite_line_unterminated pre rest H1 H2), fmap_ok.
    split; [| now intros out [= <-]].
    rewrite app_ass. cbn [app].
    apply rewrite_line_unterminated; [exact H1 |].
    unfold has_quote in *. now rewrite has_char_app, H2.
  - cbn [app] in *. rewrite (rewrite_line_literal pre mid post H1 H2 H3). split.
    + rewrite app_ass. cbn [app]. rewrite app_ass. cbn [app].
      rewrite (rewrite_line_literal pre mid _ H1 H2 H3).
      destruct (insens_of mid) as [e|]; [| reflexivity].
      rewrite !fmap_ok. now rewrite !app_ass.
    + rewrite has_char_app in Hlf. cbn [has_char] in Hlf.
      rewrite has_char_app in Hlf. cbn [has_char] in Hlf.
      apply orb_false_elim in Hlf as [Hpre Hlf].
      apply orb_false_elim in Hlf as [_ Hlf].
      apply orb_false_elim in Hlf as [Hmid Hlf].
      apply orb_false_elim in Hlf as [_ Hpost].
      destruct (insens_of mid) as [e|] eqn:He; [| discriminate].
      rewrite fmap_ok. intros out [= <-].
      now rewrite !has_char_app, (insens_of_has_lf _ _ He), Hpre, Hmid, Hpost.
Qed.

Lemma count_lf_rewrite_line line out :
  one_line line -> rewrite_line line = Ok out ->
  count_char LF out = count_char LF line.
Proof.
  intros (body & Hb & [->| ->]) H.
  - destruct (rewrite_line_lf body Hb) as [_ Hout].
    now rewrite (count_char_none _ _ (Hout out H)), (count_char_none _ _ Hb).
  - destruct (rewrite_line_lf body Hb) as [E Hout]. rewrite E in H.
    destruct (rewrite_line body) as [o|]; [| discriminate].
    rewrite fmap_ok in H. injection H as <-.
    now rewrite !count_char_app, (count_char_none _ _ (Hout o eq_refl)),
      (count_char_none _ _ Hb).
Qed.

(** Universal newlines, equation by equation. *)
Lemma universal_newlines_cr_lf s :
  universal_newlines (CR :: LF :: s) = LF :: universal_newlines s.
Proof. reflexivity. Qed.

Lemma universal_newlines_cr d s :
  (d =? LF)%N = false ->
  universal_newlines (CR :: d :: s) = LF :: universal_newlines (d :: s).
Proof. intros H. cbn [universal_newlines]. cbn. now rewrite H. Qed.

Lemma universal_newlines_other c s :
  (c =? CR)%N = false -> universal_newlines (c :: s) = c :: universal_newlines s.
Proof. intros H. cbn [universal_newlines]. now rewrite H. Qed.

(** An induction that follows the equations. *)
Lemma universal_newlines_ind (P : str -> Prop) :
  P [] -> P [CR] ->
  (forall s, P s -> P (CR :: LF :: s)) ->
  (forall d s, (d =? LF)%N = false -> P (d :: s) -> P (CR :: d :: s)) ->
  (forall c s, (c =? CR)%N = false -> P s -> P (c :: s)) ->
  forall s, P s.
Proof.
  intros Hnil Hcr Hcrlf Hcrd Hc.
  assert (H : forall s, P s /\ forall c, P (c :: s)).
  { induction s as [|d s [IH1 IH2]].
    - split; [exact Hnil |]. intros c.
      destruct (N.eqb_spec c CR) as [->|ne]; [exact Hcr |].
      apply Hc; [now apply N.eqb_neq | exact Hnil].
    - split; [apply IH2 |]. intros c.
      destruct (N.eqb_spec c CR) as [->|ne].
      + destruct (N.eqb_spec d LF) as [->|ne']; [now apply Hcrlf |].
        apply Hcrd; [now apply N.eqb_neq | apply IH2].
      + apply Hc; [now apply N.eqb_neq | apply IH2]. }
  intros s. apply H.
Qed.

(** Universal newlines leave every character but the two line terminators
    where it is. *)
Lemma universal_newlines_has_char q s :
  (q =? LF)%N = false -> (q =? CR)%N = false ->
  has_char q (universal_newlines s) = has_char q s.
Proof.
  intros Hlf Hcr. induction s using universal_newlines_ind.
  - reflexivity.
  - change (universal_newlines [CR]) with [LF]. cbn [has_char].
    now rewrite (N.eqb_sym LF), (N.eqb_sym CR), Hlf, Hcr.
  - rewrite universal_newlines_cr_lf. cbn [has_char].
    now rewrite IHs, !(N.eqb_sym LF), (N.eqb_sym CR), Hlf, Hcr.
  - rewrite universal_newlines_cr by assumption. cbn [has_char] in *.
    now rewrite IHs, (N.eqb_sym LF), (N.eqb_sym CR), Hlf, Hcr.
  - rewrite universal_newlines_other by assumption. cbn [has_char].
    now rewrite IHs.
Qed.

(** A text without carriage return is read as it is. *)
Lemma universal_newlines_no_cr s :
  has_char CR s = false -> universal_newlines s = s.
Proof.
  induction s as [|c s IH]; [reflexivity |]. cbn [has_char]. intros H.
  apply orb_false_elim in H as [Hc Hs].
  now rewrite (universal_newlines_other _ _ Hc), (IH Hs).
Qed.

(** A text cut after a line feed is read part by part. *)
Lemma universal_newlines_cut t1 t2 :
  universal_newlines (t1 ++ LF :: t2)
  = universal_newlines (t1 ++ [LF]) ++ universal_newlines t2.
Proof.
  induction t1 using universal_newlines_ind; cbn [app].
  - reflexivity.
  - reflexivity.
  - rewrite !universal_newlines_cr_lf, IHt1. reflexivity.
  - rewrite !universal_newlines_cr by assumption. cbn [app] in IHt1.
    now rewrite IHt1.
  - rewrite !universal_newlines_other by assumption. now rewrite IHt1.
Qed.

Lemma universal_newlines_ends_lf t :
  exists v, universal_newlines (t ++ [LF]) = v ++ [LF].
Proof.
  induction t using universal_newlines_ind; cbn [app].
  - now exists [].
  - now exists [].
  - rewrite universal_newlines_cr_lf. destruct IHt as [v ->]. now exists (LF :: v).
  - rewrite universal_newlines_cr by assumption. cbn [app] in IHt.
    destruct IHt as [v ->]. now exists (LF :: v).
  - rewrite universal_newlines_other by assumption.
    destruct IHt as [v ->]. now exists (c :: v).
Qed.

(** The lines of a text. *)
Lemma readlines_nil s : readlines s = [] -> s = [].
Proof.
  destruct s as [|c s]; [reflexivity |]. simpl.
  destruct (c =? LF)%N; [discriminate |].
  now destruct (readlines s).
Qed.

(** [readlines] is [split_line], again and again. *)
Lemma readlines_split_line c s :
  readlines (c :: s)
  = match split_line (c :: s) with
    | (line, Some rest) => line :: readlines rest
    | (line, None) => [line]
    end.
Proof.
  revert c. induction s as [|d s IH]; intros c; simpl.
  - now destruct (c =? LF)%N.
  - destruct (c =? LF)%N; [reflexivity |].
    specialize (IH d). simpl in IH. rewrite IH.
    destruct (d =? LF)%N; [reflexivity |].
    now destruct (split_line s) as [line [rest|]].
Qed.

Lemma split_line_app s :
  match split_line s with
  | (line, Some rest) => s = line ++ rest /\ line <> []
  | (line, None) => s = line
  end.
Proof.
  induction s as [|c s IH]; [reflexivity |]. simpl.
  destruct (c =? LF)%N; [now split |].
  destruct (split_line s) as [line [rest|]].
  - destruct IH as [-> _]. now split.
  - now subst.
Qed.

(** The lines of a text, put end to end, are the text. *)
Lemma join_readlines s : Py.join (readlines s) = s.
Proof.
  unfold Py.join. induction s as [|c s IH]; [reflexivity |]. simpl.
  destruct (c =? LF)%N.
  - simpl. now rewrite IH.
  - destruct (readlines s) as [|l ls].
    + simpl in *. now subst s.
    + simpl in *. now rewrite IH.
Qed.

Lemma readlines_one_line s : Forall one_line (readlines s).
Proof.
  induction s as [|c s IH]; [constructor |]. simpl.
  destruct (N.eqb_spec c LF) as [->|ne].
  - constructor; [| exact IH]. exists []. split; [reflexivity | now right].
  - apply N.eqb_neq in ne. destruct (readlines s) as [|l ls].
    + constructor; [| constructor]. exists [c]. split; [| now left].
      simpl. now rewrite ne.
    + inversion IH as [|? ? (body & Hb & Hl) Hls]; subst.
      constructor; [| exact Hls]. exists (c :: body). split.
      * simpl. now rewrite ne, Hb.
      * destruct Hl as [->| ->]; [now left | now right].
Qed.

(** A text cut after a line feed: the lines of the two parts. *)
Lemma readlines_cut t1 t2 :
  readlines (t1 ++ LF :: t2) = readlines (t1 ++ [LF]) ++ readlines t2.
Proof.
  induction t1 as [|c t1 IH]; [reflexivity |].
  cbn [app readlines]. rewrite IH.
  destruct (c =? LF)%N; [reflexivity |].
  destruct (readlines (t1 ++ [LF])) as [|l ls] eqn:E; [| reflexivity].
  apply readlines_nil in E. now destruct t1.
Qed.

(** A line without a line feed is the one line of the text it makes, with
    or without a line feed after it. *)
Lemma readlines_one body :
  has_char LF body = false -> body <> [] -> readlines body = [body].
Proof.
  induction body as [|c s IH]; [easy |]. cbn [has_char readlines].
  intros H _. apply orb_false_elim in H as [-> Hs].
  destruct s as [|d s]; [reflexivity |]. now rewrite IH.
Qed.

Lemma readlines_one_lf body :
  has_char LF body = false -> readlines (body ++ [LF]) = [body ++ [LF]].
Proof.
  induction body as [|c s IH]; [reflexivity |]. cbn [has_char app readlines].
  intros H. apply orb_false_elim in H as [-> Hs]. now rewrite (IH Hs).
Qed.

Lemma rewrite_lines_app lines1 lines2 :
  rewrite_lines (lines1 ++ lines2)
  = match rewrite_lines lines1 with
    | (w1, Some e) => (w1, Some e)
    | (w1, None) =>
        let '(w2, e) := rewrite_lines lines2 in (w1 ++ w2, e)
    end.
Proof.
  induction lines1 as [|l lines1 IH]; cbn [app rewrite_lines].
  - now destruct (rewrite_lines lines2).
  - destruct (rewrite_line l) as [l'|e]; [| reflexivity]. rewrite IH.
    destruct (rewrite_lines lines1) as [w1 [e|]]; [reflexivity |].
    destruct (rewrite_lines lines2) as [w2 e2]. now rewrite app_ass.
Qed.

Lemma rewrite_text_cut t1 t2 :
  rewrite_text (t1 ++ LF :: t2)
  = match rewrite_text (t1 ++ [LF]) with
    | (w1, Some e) => (w1, Some e)
    | (w1, None) => let '(w2, e) := rewrite_text t2 in (w1 ++ w2, e)
    end.
Proof.
  unfold rewrite_text. rewrite universal_newlines_cut.
  destruct (universal_newlines_ends_lf t1) as [v ->].
  rewrite app_ass. cbn [app]. rewrite readlines_cut. apply rewrite_lines_app.
Qed.

Lemma count_char_join c (parts : list str) :
  count_char c (Py.join parts)
  = fold_right (fun l n => (count_char c l + n)%nat) O parts.
Proof.
  unfold Py.join. induction parts as [|x parts IH]; [reflexivity |].
  simpl. now rewrite count_char_app, IH.
Qed.

Lemma has_char_join c (parts : list str) :
  has_char c (Py.join parts) = false ->
  Forall (fun l => has_char c l = false) parts.
Proof.
  unfold Py.join. induction parts as [|x parts IH]; [constructor |].
  simpl. rewrite has_char_app. intros H.
  apply orb_false_elim in H as [Hx Hp]. constructor; [exact Hx | now apply IH].
Qed.

Lemma rewrite_lines_no_quote lines :
  Forall (fun l => has_quote l = false) lines ->
  rewrite_lines lines = (Py.join lines, None).
Proof.
  induction 1 as [|l lines Hl _ IH]; [reflexivity |].
  cbn [rewrite_lines]. now rewrite (rewrite_line_no_quote l Hl), IH.
Qed.

Lemma count_lf_rewrite_lines lines written :
  Forall one_line lines -> rewrite_lines lines = (written, None) ->
  count_char LF written = count_char LF (Py.join lines).
Proof.
  intros H. revert written. induction H as [|l lines Hl _ IH]; intros written.
  - now intros [= <-].
  - cbn [rewrite_lines]. destruct (rewrite_line l) as [l'|] eqn:El; [| discriminate].
    destruct (rewrite_lines lines) as [w e]. intros [= <- ->].
    unfold Py.join in *. simpl. rewrite !count_char_app, (IH w eq_refl).
    now rewrite (count_lf_rewrite_line l l' Hl El).
Qed.

End Lines.

(** * File names and file contents *)

Section Files.

Implicit Types (s t base suffix out line rest content f g filename : str)
  (fs : gmap str file).

Lemma endswith_app s suffix : Py.endswith (s ++ suffix) suffix = true.
Proof.
  unfold Py.endswith. rewrite len_app_nat.
  replace (length s + length suffix - length suffix)%nat with (length s) by lia.
  rewrite drop_seam, bool_decide_eq_true_2 by reflexivity.
  apply andb_true_iff. split; [| reflexivity]. apply Nat.leb_le. lia.
Qed.

Lemma endswith_inv s suffix :
  Py.endswith s suffix = true -> exists base, s = base ++ suffix.
Proof.
  unfold Py.endswith. intros H. apply andb_prop in H as [_ Heq].
  apply bool_decide_eq_true in Heq.
  set (n := (length s - length suffix)%nat) in *.
  exists (take n s). rewrite <- Heq. symmetry. apply take_drop.
Qed.

Lemma out_filename_chops base suffix :
  length suffix = 3%nat -> out_filename (base ++ suffix) = base.
Proof.
  intros H. unfold out_filename, Py.slice, Py.adjust, Py.len.
  rewrite len_app_nat, H.
  destruct (Z.ltb_spec (-3) 0); [| lia].
  destruct (Z.ltb_spec (-3 + Z.of_nat (length base + 3)) 0); [lia |].
  destruct (Z.ltb_spec (Z.of_nat (length base + 3))
              (-3 + Z.of_nat (length base + 3))); [lia |].
  replace (Z.to_nat (-3 + Z.of_nat (length base + 3) - 0))
    with (length base) by lia.
  apply take_seam.
Qed.

Lemma recognised_split f :
  recognised f = true ->
  exists base, f = base ++ u ".g4.in" /\ out_filename f = base ++ u ".g4".
Proof.
  intros H. destruct (endswith_inv _ _ H) as [base ->]. exists base.
  split; [reflexivity |].
  change (base ++ u ".g4.in") with (base ++ u ".g4" ++ u ".in").
  rewrite <- app_ass. now apply out_filename_chops.
Qed.

Lemma out_filename_in f : recognised f = true -> out_filename f ++ u ".in" = f.
Proof.
  intros H. destruct (recognised_split f H) as (base & -> & ->).
  now rewrite app_ass.
Qed.

(** An output name is never the name of a keyword file. *)
Lemma out_filename_not_recognised f :
  recognised f = true -> recognised (out_filename f) = false.
Proof.
  intros H. destruct (recognised_split f H) as (base & -> & ->).
  destruct (recognised (base ++ u ".g4")) eqn:E; [| reflexivity].
  destruct (endswith_inv _ _ E) as [b2 E2].
  apply (f_equal (@rev N)) in E2. rewrite !rev_app_distr in E2.
  discriminate.
Qed.

Lemma out_filename_neq f g :
  recognised f = true -> recognised g = true -> out_filename f <> g.
Proof.
  intros Hf Hg E. apply out_filename_not_recognised in Hf. congruence.
Qed.

Lemma out_filename_inj f g :
  recognised f = true -> recognised g = true ->
  out_filename f = out_filename g -> f = g.
Proof.
  intros Hf Hg E. rewrite <- (out_filename_in f Hf), <- (out_filename_in g Hg).
  now rewrite E.
Qed.

(** The loop ends: every turn but the last takes at least one character
    off the input. *)
Lemma copy_loop_total (fuel : nat) s (dmg : bool) out :
  (length s < fuel)%nat ->
  exists r, copy_loop fuel (Reader s dmg) out = Some r.
Proof.
  revert s out. induction fuel as [|fuel IH]; intros s out H; [lia |].
  cbn [copy_loop]. unfold readline. cbn [unread damaged].
  pose proof (split_line_app s) as Hs.
  destruct (split_line s) as [line [rest|]].
  - destruct Hs as [-> Hne]. rewrite bool_decide_eq_false_2 by exact Hne.
    destruct (rewrite_line line); [| eauto].
    apply IH. rewrite len_app_nat in H. destruct line; [easy | simpl in H; lia].
  - destruct dmg; [eauto |]. subst line.
    destruct (decide (s = [])) as [->|Hne]; [cbn; eauto |].
    rewrite bool_decide_eq_false_2 by exact Hne.
    destruct (rewrite_line s); [| eauto].
    apply IH. destruct s; [easy | simpl in *; lia].
Qed.

(** On a file that decodes the loop writes the rewritten lines, one after
    the other, up to the first that raises. *)
Lemma copy_loop_text (fuel : nat) s out :
  (length s < fuel)%nat ->
  copy_loop fuel (Reader s false) out
  = Some (out ++ (rewrite_lines (readlines s)).1, (rewrite_lines (readlines s)).2).
Proof.
  revert s out. induction fuel as [|fuel IH]; intros s out H; [lia |].
  destruct s as [|c s].
  - cbn. now rewrite app_nil_r.
  - rewrite readlines_split_line. cbn [copy_loop].
    unfold readline. cbn [unread damaged].
    pose proof (split_line_app (c :: s)) as Hs.
    destruct (split_line (c :: s)) as [line [rest|]].
    + destruct Hs as [Hs Hne]. rewrite bool_decide_eq_false_2 by exact Hne.
      cbn [rewrite_lines].
      destruct (rewrite_line line) as [l'|e]; [| cbn; now rewrite app_nil_r].
      rewrite IH.
      * destruct (rewrite_lines (readlines rest)) as [w e]. cbn [fst snd].
        now rewrite app_ass.
      * apply (f_equal (@length N)) in Hs. rewrite len_app_nat in Hs.
        destruct line; [easy | simpl in *; lia].
    + subst line. rewrite bool_decide_eq_false_2 by discriminate.
      cbn [rewrite_lines].
      destruct (rewrite_line (c :: s)) as [l'|e]; [| cbn; now rewrite app_nil_r].
      destruct fuel as [|fuel]; [simpl in H; lia |].
      cbn. now rewrite !app_nil_r.
Qed.

(** On a file that does not decode the loop is left by an exception. *)
Lemma copy_loop_damaged (fuel : nat) s out written e :
  copy_loop fuel (Reader s true) out = Some (written, e) -> e <> None.
Proof.
  revert s out. induction fuel as [|fuel IH]; intros s out; [discriminate |].
  cbn [copy_loop]. unfold readline. cbn [unread damaged].
  pose proof (split_line_app s) as Hs.
  destruct (split_line s) as [line [rest|]].
  - destruct Hs as [_ Hne]. rewrite bool_decide_eq_false_2 by exact Hne.
    destruct (rewrite_line line); [apply IH | now intros [= _ <-]].
  - now intros [= _ <-].
Qed.

Lemma make_insensitive_never_out_of_fuel filename fs :
  (make_insensitive filename fs).2 <> OutOfFuel.
Proof.
  unfold make_insensitive.
  destruct (negb _); [discriminate |].
  destruct (fs !! filename) as [data|]; [| discriminate].
  destruct data as [s|s]; cbn [open_read unread].
  - destruct (copy_loop_total (S (length (universal_newlines s)))
                (universal_newlines s) false []) as [[w [e|]] ->];
      [lia | discriminate | discriminate].
  - destruct (copy_loop_total (S (length s)) s true []) as [[w [e|]] ->];
      [lia | discriminate | discriminate].
Qed.

(** The ways a call of [make_insensitive] can go. *)
Lemma make_insensitive_unrecognised f fs :
  recognised f = false ->
  make_insensitive f fs
  = (fs, Raised (ValueError (u "Unrecognized file-type for " ++ f))).
Proof. unfold recognised, make_insensitive. now intros ->. Qed.

Lemma make_insensitive_missing f fs :
  recognised f = true -> fs !! f = None ->
  make_insensitive f fs = (fs, Raised (FileNotFoundError f)).
Proof. unfold recognised, make_insensitive. now intros -> ->. Qed.

Lemma make_insensitive_text f fs content :
  recognised f = true -> fs !! f = Some (Text content) ->
  make_insensitive f fs
  = (<[out_filename f := Text (rewrite_text content).1]> fs,
     match (rewrite_text content).2 with
     | None => Returned
     | Some e => Raised e
     end).
Proof.
  unfold recognised, make_insensitive. intros -> ->. cbn [negb open_read unread].
  rewrite copy_loop_text by lia. unfold rewrite_text. cbn [app].
  now destruct (rewrite_lines (readlines (universal_newlines content))) as [w [e|]].
Qed.

Lemma make_insensitive_damaged f fs s :
  recognised f = true -> fs !! f = Some (Damaged s) ->
  exists written e,
    make_insensitive f fs = (<[out_filename f := Text written]> fs, Raised e).
Proof.
  unfold recognised, make_insensitive. intros -> ->. cbn [negb open_read unread].
  destruct (copy_loop_total (S (length s)) s true []) as [[w e] E]; [lia |].
  rewrite E. apply copy_loop_damaged in E. destruct e as [e|]; [eauto | easy].
Qed.

(** A call that returns has rewritten a file that decodes, all of it. *)
Lemma make_insensitive_returned f fs fs' :
  make_insensitive f fs = (fs', Returned) ->
  recognised f = true
  /\ exists content written,
       fs !! f = Some (Text content)
       /\ rewrite_text content = (written, None)
       /\ fs' = <[out_filename f := Text written]> fs.
Proof.
  intros H. destruct (recognised f) eqn:Hr.
  2: { now rewrite (make_insensitive_unrecognised _ _ Hr) in H. }
  split; [reflexivity |]. destruct (fs !! f) as [[content|s]|] eqn:Hin.
  - rewrite (make_insensitive_text _ _ _ Hr Hin) in H.
    destruct (rewrite_text content) as [w [e|]] eqn:Hw; [discriminate |].
    injection H as <-. now exists content, w.
  - destruct (make_insensitive_damaged _ _ _ Hr Hin) as (w & e & E).
    rewrite E in H. discriminate.
  - now rewrite (make_insensitive_missing _ _ Hr Hin) in H.
Qed.

Lemma make_insensitive_rewritable f fs :
  recognised f = true ->
  (exists fs', make_insensitive f fs = (fs', Returned)) <-> rewritable fs f.
Proof.
  intros Hr. split.
  - intros [fs' H]. apply make_insensitive_returned in H
      as (_ & content & written & Hin & Hw & _).
    now exists content, written.
  - intros (content & written & Hin & Hw).
    rewrite (make_insensitive_text _ _ _ Hr Hin), Hw. eauto.
Qed.

(** Whatever way it goes, a call leaves the file system as it was, but for
    the output file of a recognised name. *)
Lemma make_insensitive_frame f fs :
  (make_insensitive f fs).1 = fs
  \/ (recognised f = true
      /\ exists written,
           (make_insensitive f fs).1 = <[out_filename f := Text written]> fs).
Proof.
  destruct (recognised f) eqn:Hr.
  2: { left. now rewrite (make_insensitive_unrecognised _ _ Hr). }
  destruct (fs !! f) as [[content|s]|] eqn:Hin.
  - right. split; [reflexivity |].
    rewrite (make_insensitive_text _ _ _ Hr Hin). eauto.
  - right. split; [reflexivity |].
    destruct (make_insensitive_damaged _ _ _ Hr Hin) as (w & e & ->). eauto.
  - left. now rewrite (make_insensitive_missing _ _ Hr Hin).
Qed.

Lemma make_insensitive_keeps_sources f fs g :
  recognised g = true -> (make_insensitive f fs).1 !! g = fs !! g.
Proof.
  intros Hg. destruct (make_insensitive_frame f fs) as [-> | (Hf & w & ->)];
    [reflexivity |].
  apply lookup_insert_ne. now apply out_filename_neq.
Qed.

(** The exceptions of the loop: ['%c'] and the decoder. *)
Lemma rewrite_line_raises line e : rewrite_line line = Raise e -> e = TypeError.
Proof.
  destruct (line_shapes line) as [H | pre rest -> H | pre rest -> H1 H2
                                 | pre mid post -> H1 H2 H3]; literals.
  - now rewrite (rewrite_line_no_quote _ H).
  - now rewrite (rewrite_line_marker_first _ _ H).
  - cbn [app]. now rewrite (rewrite_line_unterminated _ _ H1 H2).
  - cbn [app]. rewrite (rewrite_line_literal _ _ _ H1 H2 H3), insens_of_spec.
    destruct (has_char DOTTED_I mid); [now intros [= <-] | discriminate].
Qed.

Lemma copy_loop_raises (fuel : nat) (inp : reader) out written e :
  copy_loop fuel inp out = Some (written, Some e) ->
  e = TypeError \/ e = UnicodeDecodeError.
Proof.
  revert inp out. induction fuel as [|fuel IH]; intros inp out; [discriminate |].
  cbn [copy_loop]. unfold readline.
  destruct (split_line (unread inp)) as [line [rest|]].
  - destruct (bool_decide (line = [])); [discriminate |].
    destruct (rewrite_line line) as [l'|e'] eqn:El; [apply IH |].
    intros [= _ <-]. left. now apply (rewrite_line_raises line).
  - destruct (damaged inp); [intros [= _ <-]; now right |].
    destruct (bool_decide (line = [])); [discriminate |].
    destruct (rewrite_line line) as [l'|e'] eqn:El; [apply IH |].
    intros [= _ <-]. left. now apply (rewrite_line_raises line).
Qed.

Lemma make_insensitive_raises f fs fs' e :
  recognised f = true -> make_insensitive f fs = (fs', Raised e) ->
  e = FileNotFoundError f \/ e = TypeError \/ e = UnicodeDecodeError.
Proof.
  unfold recognised, make_insensitive. intros ->. cbn [negb].
  destruct (fs !! f) as [data|]; [| intros [= _ <-]; now left].
  destruct (copy_loop _ _ _) as [[wr [e'|]]|] eqn:E; try discriminate.
  intros [= _ <-]. right. now apply copy_loop_raises in E.
Qed.

End Files.

(** * The driver *)

Section Driver.

Implicit Types (f g k filename : str) (names : list str) (w : world)
  (fs : gmap str file).

(** The three ways a turn of the driver's loop can go. *)
Lemma for_filenames_unrecognised f names w :
  recognised f = false ->
  for_filenames (f :: names) w = for_filenames names (print (warning_for f) w).
Proof. unfold recognised. intros H. cbn [for_filenames]. now rewrite H. Qed.

Lemma for_filenames_returned f names w fs' :
  recognised f = true -> make_insensitive f (files w) = (fs', Returned) ->
  for_filenames (f :: names) w = for_filenames names (World (stdout w) fs').
Proof.
  unfold recognised. intros Hr H. cbn [for_filenames]. now rewrite Hr, H.
Qed.

Lemma for_filenames_raised f names w fs' e :
  recognised f = true -> make_insensitive f (files w) = (fs', Raised e) ->
  for_filenames (f :: names) w = (World (stdout w) fs', Uncaught e).
Proof.
  unfold recognised. intros Hr H. cbn [for_filenames]. now rewrite Hr, H.
Qed.

(** The case analysis the proofs about runs go by. *)
Lemma turn_cases f w :
  recognised f = false
  \/ (recognised f = true
      /\ exists fs', make_insensitive f (files w) = (fs', Returned))
  \/ (recognised f = true
      /\ exists fs' e, make_insensitive f (files w) = (fs', Raised e)
                       /\ forall msg, e <> ValueError msg).
Proof.
  destruct (recognised f) eqn:Hr; [| now left]. right.
  pose proof (make_insensitive_never_out_of_fuel f (files w)) as Hfuel.
  destruct (make_insensitive f (files w)) as [fs' [|e|]] eqn:E;
    [left | right | easy]; eauto.
  split; [reflexivity |]. exists fs', e. split; [reflexivity |].
  intros msg ->.
  now destruct (make_insensitive_raises _ _ _ _ Hr E) as [H | [H | H]].
Qed.

(** What is on standard output has no influence on the files the loop
    leaves behind or on how it ends. *)
Lemma for_filenames_ignores_stdout names (o1 o2 : str) fs :
  files (for_filenames names (World o1 fs)).1
  = files (for_filenames names (World o2 fs)).1
  /\ (for_filenames names (World o1 fs)).2
     = (for_filenames names (World o2 fs)).2.
Proof.
  revert o1 o2 fs. induction names as [|filename names IH]; intros o1 o2 fs.
  - now split.
  - cbn [for_filenames stdout files].
    destruct (negb (Py.endswith filename (u ".g4.in"))).
    + unfold print. cbn [stdout files]. apply IH.
    + destruct (make_insensitive filename fs) as [fs' [|e|]]; [apply IH | |];
        now split.
Qed.

(** The run always ends: with an exit status or on an exception. *)
Lemma for_filenames_finishes names w : (for_filenames names w).2 <> Unfinished.
Proof.
  revert w. induction names as [|f names IH]; intros w; [discriminate |].
  destruct (turn_cases f w) as [Hf | [[Hf [fs' H]] | [Hf (fs' & e & H & _)]]].
  - rewrite (for_filenames_unrecognised _ _ _ Hf). apply IH.
  - rewrite (for_filenames_returned _ _ _ _ Hf H). apply IH.
  - now rewrite (for_filenames_raised _ _ _ _ _ Hf H).
Qed.

Lemma main_finishes (argv : list str) w :
  exists code, exit_status (main argv w).2 = Some code.
Proof.
  unfold main. destruct (length argv =? 1)%nat; [now exists 1 |].
  pose proof (for_filenames_finishes (drop 1 argv) w) as H.
  destruct (for_filenames (drop 1 argv) w).2; [now eexists | now eexists | easy].
Qed.

Lemma count_char_usage_text prog :
  has_char LF prog = false -> printed_lines (usage_text prog) = 3%nat.
Proof.
  intros H. unfold printed_lines, usage_text.
  rewrite !count_char_app. cbn [count_char].
  rewrite !count_char_app, (count_char_none _ _ H). reflexivity.
Qed.

(** A run leaves the keyword files as they are. *)
Lemma for_filenames_keeps_sources names w g :
  recognised g = true ->
  files (for_filenames names w).1 !! g = files w !! g.
Proof.
  intros Hg. revert w. induction names as [|f names IH]; intros w; [reflexivity |].
  destruct (turn_cases f w) as [Hf | [[Hf [fs' H]] | [Hf (fs' & e & H & _)]]].
  - rewrite (for_filenames_unrecognised _ _ _ Hf). now rewrite IH.
  - rewrite (for_filenames_returned _ _ _ _ Hf H), IH. cbn [files].
    rewrite <- (make_insensitive_keeps_sources f (files w) g Hg). now rewrite H.
  - rewrite (for_filenames_raised _ _ _ _ _ Hf H). cbn [files fst].
    rewrite <- (make_insensitive_keeps_sources f (files w) g Hg). now rewrite H.
Qed.

(** The run over a list of names in two parts. *)
Lemma for_filenames_app names1 names2 w :
  ((for_filenames names1 w).2 = Exits 0 ->
   for_filenames (names1 ++ names2) w
   = for_filenames names2 (for_filenames names1 w).1)
  /\ ((for_filenames names1 w).2 <> Exits 0 ->
      for_filenames (names1 ++ names2) w = for_filenames names1 w).
Proof.
  revert w. induction names1 as [|f names1 IH]; intros w.
  - split; [reflexivity | now intros H].
  - change ((f :: names1) ++ names2) with (f :: (names1 ++ names2)).
    destruct (turn_cases f w) as [Hf | [[Hf [fs' H]] | [Hf (fs' & e & H & _)]]].
    + rewrite !(for_filenames_unrecognised _ _ _ Hf). apply IH.
    + rewrite !(for_filenames_returned _ _ _ _ Hf H). apply IH.
    + rewrite !(for_filenames_raised _ _ _ _ _ Hf H).
      split; [discriminate | reflexivity].
Qed.

(** A run ends with status 0 or on the exception of the first keyword file
    that is not rewritten to its end; that exception is not the
    [ValueError] of [make_insensitive]. *)
Lemma for_filenames_ends names w :
  (for_filenames names w).2 = Exits 0
  \/ exists e, (for_filenames names w).2 = Uncaught e
               /\ forall msg, e <> ValueError msg.
Proof.
  revert w. induction names as [|f names IH]; intros w; [now left |].
  destruct (turn_cases f w) as [Hf | [[Hf [fs' H]] | [Hf (fs' & e & H & He)]]].
  - rewrite (for_filenames_unrecognised _ _ _ Hf). apply IH.
  - rewrite (for_filenames_returned _ _ _ _ Hf H). apply IH.
  - right. rewrite (for_filenames_raised _ _ _ _ _ Hf H). eauto.
Qed.

(** A run ends well exactly when every keyword file it names is, at the
    start, one that [make_insensitive] rewrites to its end. *)
Lemma for_filenames_exit_0 names w :
  (for_filenames names w).2 = Exits 0
  <-> Forall (fun f => recognised f = true -> rewritable (files w) f) names.
Proof.
  revert w. induction names as [|f names IH]; intros w; [now split |].
  rewrite Forall_cons.
  destruct (turn_cases f w) as [Hf | [[Hf [fs' H]] | [Hf (fs' & e & H & _)]]].
  - rewrite (for_filenames_unrecognised _ _ _ Hf), IH.
    cbn [print files]. split; [| tauto]. intros HF; split; [congruence | exact HF].
  - rewrite (for_filenames_returned _ _ _ _ Hf H), IH. cbn [files].
    assert (Hsame : forall g, recognised g = true ->
              (rewritable fs' g <-> rewritable (files w) g)).
    { intros g Hg. unfold rewritable.
      rewrite <- (make_insensitive_keeps_sources f (files w) g Hg), H.
      reflexivity. }
    split.
    + intros HF. split.
      * intros _. apply (make_insensitive_rewritable _ _ Hf). eauto.
      * eapply Forall_impl; [exact HF |]. intros g Hg Hr.
        now apply (Hsame g Hr), Hg.
    + intros [_ HF]. eapply Forall_impl; [exact HF |]. intros g Hg Hr.
      now apply (Hsame g Hr), Hg.
  - rewrite (for_filenames_raised _ _ _ _ _ Hf H). cbn [snd].
    split; [discriminate |]. intros [Hrw _]. specialize (Hrw Hf).
    apply (make_insensitive_rewritable _ _ Hf) in Hrw as [fs'' E].
    rewrite H in E. discriminate.
Qed.

(** After a run a file is what it was, or it is the output of one of the
    keyword files named. *)
Lemma for_filenames_files names w k :
  files (for_filenames names w).1 !! k = files w !! k
  \/ exists g, g ∈ names /\ recognised g = true /\ k = out_filename g.
Proof.
  revert w. induction names as [|f names IH]; intros w; [now left |].
  assert (Hstep : forall fs', (make_insensitive f (files w)).1 = fs' ->
            fs' !! k = files w !! k \/ (recognised f = true /\ k = out_filename f)).
  { intros fs' <-.
    destruct (make_insensitive_frame f (files w)) as [-> | (Hf & wr & ->)];
      [now left |].
    destruct (decide (k = out_filename f)) as [->|ne]; [now right | left].
    now apply lookup_insert_ne. }
  destruct (turn_cases f w) as [Hf | [[Hf [fs' H]] | [Hf (fs' & e & H & _)]]].
  - rewrite (for_filenames_unrecognised _ _ _ Hf).
    destruct (IH (print (warning_for f) w)) as [E | (g & Hg & Hr & ->)];
      [now left | right].
    exists g. repeat split; try assumption. now constructor.
  - rewrite (for_filenames_returned _ _ _ _ Hf H).
    destruct (IH (World (stdout w) fs')) as [E | (g & Hg & Hr & ->)].
    + rewrite E. cbn [files].
      destruct (Hstep fs') as [E' | [_ ->]]; [now rewrite H | now left |].
      right. exists f. repeat split; try assumption. constructor.
    + right. exists g. repeat split; try assumption. now constructor.
  - rewrite (for_filenames_raised _ _ _ _ _ Hf H). cbn [fst files].
    destruct (Hstep fs') as [E' | [_ ->]]; [now rewrite H | now left |].
    right. exists f. repeat split; try assumption. constructor.
Qed.

End Driver.

(** ** What a run leaves behind *)

Section RunResults.

Implicit Types (f g k content written : str) (names : list str) (w : world)
  (fs : gmap str file).

(** After a run that ends well, every keyword file named has its output,
    rewritten from what the file held at the start. *)
Lemma for_filenames_outputs names w f :
  (for_filenames names w).2 = Exits 0 ->
  f ∈ names -> recognised f = true ->
  exists content written,
    files w !! f = Some (Text content)
    /\ rewrite_text content = (written, None)
    /\ files (for_filenames names w).1 !! out_filename f = Some (Text written).
Proof.
  revert w f. induction names as [|h names IH]; intros w f Hok Hin Hr.
  - inversion Hin.
  - destruct (turn_cases h w) as [Hh | [[Hh [fs' H]] | [Hh (fs' & e & H & _)]]].
    + rewrite (for_filenames_unrecognised _ _ _ Hh) in *.
      apply elem_of_cons in Hin as [->|Hin]; [congruence |].
      now apply (IH (print (warning_for h) w)).
    + rewrite (for_filenames_returned _ _ _ _ Hh H) in *.
      set (w' := World (stdout w) fs') in *.
      assert (Hsame : forall g, recognised g = true ->
                files w' !! g = files w !! g).
      { intros g Hg. subst w'. cbn [files].
        rewrite <- (make_insensitive_keeps_sources h (files w) g Hg).
        now rewrite H. }
      assert (Htail : forall g, g ∈ names -> recognised g = true ->
                exists content written,
                  files w !! g = Some (Text content)
                  /\ rewrite_text content = (written, None)
                  /\ files (for_filenames names w').1 !! out_filename g
                     = Some (Text written)).
      { intros g Hg Hrg. destruct (IH w' g Hok Hg Hrg) as (c & wr & Hc & Hw & Hout).
        exists c, wr. rewrite <- (Hsame g Hrg). now repeat split. }
      apply elem_of_cons in Hin as [->|Hin]; [| now apply Htail].
      destruct (decide (h ∈ names)) as [Hhn|Hhn]; [now apply Htail |].
      apply make_insensitive_returned in H as (_ & c & wr & Hc & Hw & Hfs').
      exists c, wr. repeat split; try assumption.
      destruct (for_filenames_files names w' (out_filename h))
        as [E | (g & Hg & Hrg & E)].
      * rewrite E. subst w'. cbn [files]. rewrite Hfs'. apply lookup_insert_eq.
      * apply (out_filename_inj _ _ Hh Hrg) in E. now subst g.
    + now rewrite (for_filenames_raised _ _ _ _ _ Hh H) in Hok.
Qed.

(** Where every keyword file named already has its output, a run writes
    what is there. *)
Lemma for_filenames_fixpoint names (o : str) fs :
  (forall f, f ∈ names -> recognised f = true ->
     exists content written,
       fs !! f = Some (Text content)
       /\ rewrite_text content = (written, None)
       /\ fs !! out_filename f = Some (Text written)) ->
  files (for_filenames names (World o fs)).1 = fs.
Proof.
  revert o. induction names as [|h names IH]; intros o H; [reflexivity |].
  assert (Htl : forall f, f ∈ names -> recognised f = true ->
            exists content written,
              fs !! f = Some (Text content)
              /\ rewrite_text content = (written, None)
              /\ fs !! out_filename f = Some (Text written)).
  { intros f Hin. apply H. now constructor. }
  destruct (recognised h) eqn:Hh.
  - destruct (H h) as (content & wr & Hc & Hw & Hout); [constructor | exact Hh |].
    rewrite (for_filenames_returned h names (World o fs) fs Hh).
    + now apply IH.
    + cbn [files]. rewrite (make_insensitive_text _ _ _ Hh Hc), Hw. cbn [fst snd].
      now rewrite (insert_id _ _ _ Hout).
  - rewrite (for_filenames_unrecognised _ _ _ Hh). unfold print.
    cbn [stdout files]. now apply IH.
Qed.

(** The warnings of a run that ends well: one line for each name that is
    not recognised, in the order of the names. *)
Lemma for_filenames_stdout names w :
  (for_filenames names w).2 = Exits 0 ->
  stdout (for_filenames names w).1
  = stdout w
    ++ Py.join (map (fun f => warning_for f ++ [LF])
                  (List.filter (fun f => negb (recognised f)) names)).
Proof.
  revert w. induction names as [|h names IH]; intros w Hok.
  - cbn. now rewrite app_nil_r.
  - cbn [List.filter].
    destruct (turn_cases h w) as [Hh | [[Hh [fs' H]] | [Hh (fs' & e & H & _)]]].
    + rewrite (for_filenames_unrecognised _ _ _ Hh) in *. rewrite Hh.
      cbn [negb map]. rewrite (IH _ Hok). unfold Py.join.
      cbn [print stdout concat]. now rewrite !app_ass.
    + rewrite (for_filenames_returned _ _ _ _ Hh H) in *. rewrite Hh.
      cbn [negb]. now rewrite (IH _ Hok).
    + now rewrite (for_filenames_raised _ _ _ _ _ Hh H) in Hok.
Qed.

Lemma main_runs (prog : str) names w :
  names <> [] -> main (prog :: names) w = for_filenames names w.
Proof. intros H. now destruct names. Qed.

Lemma main_exit_0 (prog : str) names w :
  (main (prog :: names) w).2 = Exits 0 ->
  main (prog :: names) w = for_filenames names w.
Proof. intros H. destruct names; [discriminate | reflexivity]. Qed.

(** A text that is one line, with what comes before and after it. *)
Lemma rewrite_text_line body :
  has_char LF body = false -> has_char CR body = false ->
  rewrite_text (body ++ [LF])
  = match rewrite_line (body ++ [LF]) with
    | Ok out => (out, None)
    | Raise e => ([], Some e)
    end.
Proof.
  intros Hlf Hcr. unfold rewrite_text.
  rewrite universal_newlines_no_cr
    by (rewrite has_char_app, Hcr; reflexivity).
  rewrite (readlines_one_lf _ Hlf). cbn [rewrite_lines].
  destruct (rewrite_line (body ++ [LF])); [| reflexivity].
  now rewrite app_nil_r.
Qed.

Lemma rewrite_text_last_line body :
  has_char LF body = false -> has_char CR body = false -> body <> [] ->
  rewrite_text body
  = match rewrite_line body with
    | Ok out => (out, None)
    | Raise e => ([], Some e)
    end.
Proof.
  intros Hlf Hcr Hne. unfold rewrite_text.
  rewrite (universal_newlines_no_cr _ Hcr), (readlines_one _ Hlf Hne).
  cbn [rewrite_lines]. destruct (rewrite_line body); [| reflexivity].
  now rewrite app_nil_r.
Qed.

Lemma rewrite_text_no_quote content :
  has_quote content = false ->
  rewrite_text content = (universal_newlines content, None).
Proof.
  intros H. unfold rewrite_text.
  assert (Hq : has_quote (universal_newlines content) = false).
  { unfold has_quote in *. now rewrite universal_newlines_has_char. }
  rewrite <- (join_readlines (universal_newlines content)) in Hq.
  apply has_char_join in Hq.
  now rewrite (rewrite_lines_no_quote _ Hq), join_readlines.
Qed.

End RunResults.

(** * The properties of the specification *)

(** The primitives on the values the interpreter gives. *)
Example find_examples :
  Py.find (u "KEY 'abc' // x") (u "'") 0 = 4
  /\ Py.find (u "KEY 'abc' // x") (u "'") 5 = 8
  /\ Py.find (u "KEY 'abc' // x") (u "//") 0 = 10
  /\ Py.find (u "KEY 'abc") (u "'") 5 = -1
  /\ Py.find (u "KEY") (u "'") 7 = -1.
Proof. repeat split. Qed.

Example slice_examples :
  Py.slice (u "KEY 'abc' // x") None (Some 4) = u "KEY "
  /\ Py.slice (u "KEY 'abc' // x") (Some 5) (Some 8) = u "abc"
  /\ Py.slice (u "KEY 'abc' // x") (Some 9) None = u " // x"
  /\ Py.slice (u "Keywords.g4.in") None (Some (-3)) = u "Keywords.g4"
  /\ Py.slice (u "in") None (Some (-3)) = [].
Proof. repeat split. Qed.

Example endswith_examples :
  Py.endswith (u "Keywords.g4.in") (u ".g4.in") = true
  /\ Py.endswith (u "g4.in") (u ".g4.in") = false
  /\ Py.endswith (u "notes.txt") (u ".g4.in") = false.
Proof. repeat split. Qed.

(** The case mappings on some characters outside ASCII: e with acute
    accent, sharp s, micro sign, capital I with dot above. *)
Example case_examples :
  chr_upper 233 = [201%N] /\ chr_lower 201 = [233%N]
  /\ chr_upper 223 = [83%N; 83%N]
  /\ chr_upper 181 = [924%N] /\ chr_lower 924 = [956%N]
  /\ chr_upper DOTTED_I = [DOTTED_I] /\ chr_lower DOTTED_I = [105%N; 775%N].
Proof. repeat split. Qed.

Example rewrite_line_examples :
  rewrite_line (u "KEY 'abc' // comment") = Ok (u "KEY [Aa][Bb][Cc] // comment")
  /\ rewrite_line (u "A: 'a' 'b';") = Ok (u "A: [Aa] 'b';")
  /\ rewrite_line (u "KEY // 'abc'") = Ok (u "KEY // 'abc'")
  /\ rewrite_line (u "KEY 'abc") = Ok (u "KEY 'abc")
  /\ rewrite_line (u "K: '" ++ [233%N; 223%N] ++ u "';")
     = Ok (u "K: [" ++ [201%N; 233%N] ++ u "][Ss][Ss];").
Proof. repeat split. Qed.

(** ** The line rewriter *)

(** C1.  A line with a literal is written with one bracket expression for
    each character of the upper-cased literal, but for one kind of
    literal: the lower-case form of the capital I with dot above, U+0130,
    is two characters, so on the line that holds it between the quotes of
    [K: '';], which stand before any marker, the ['%c'] of line 25 raises
    [TypeError] and no line is written. *)
Theorem literal_with_dotted_capital_i_raises :
  has_quote (u "K: ") = false /\ has_marker (u "K: ") = false
  /\ has_quote [DOTTED_I] = false
  /\ chr_lower DOTTED_I = [105%N; 775%N]
  /\ rewrite_line (u "K: '" ++ [DOTTED_I] ++ u "';") = Raise TypeError.
Proof. repeat split. Qed.

(** C4.  A line without a quote character is written as it was read. *)
Theorem line_without_quote_unchanged (line : str) :
  has_quote line = false -> rewrite_line line = Ok line.
Proof. apply rewrite_line_no_quote. Qed.

Lemma grammar_header_line :
  rewrite_line (u "lexer grammar Keywords; // keywords")
  = Ok (u "lexer grammar Keywords; // keywords").
Proof.
  exact (line_without_quote_unchanged (u "lexer grammar Keywords; // keywords")
           eq_refl).
Defined.

(** C5.  A line with a comment marker that no quote precedes is written as
    it was read, whether or not quotes follow the marker. *)
Theorem quote_after_marker_unchanged (pre rest : str) :
  has_quote pre = false ->
  rewrite_line (pre ++ u "//" ++ rest) = Ok (pre ++ u "//" ++ rest).
Proof. apply rewrite_line_marker_first. Qed.

Lemma commented_out_literals :
  has_quote (u " 'abc' and 'def'") = true
  /\ rewrite_line (u "KEY // 'abc' and 'def'") = Ok (u "KEY // 'abc' and 'def'").
Proof.
  split; [reflexivity |].
  exact (quote_after_marker_unchanged (u "KEY ") (u " 'abc' and 'def'") eq_refl).
Defined.

(** C6.  A line whose first quote has no quote after it is written as it
    was read and raises nothing; and it does not end the rewriting of its
    file: where the lines before it and after it are rewritten to their
    end, [make_insensitive] returns and the output file holds the
    rewritten lines before, the line as it is, and the rewritten lines
    after, be the line ended by a line feed or the last of the file
    without one. *)
Theorem unterminated_quote_passes_through (pre rest : str) :
  has_quote pre = false -> has_quote rest = false ->
  rewrite_line (pre ++ u "'" ++ rest) = Ok (pre ++ u "'" ++ rest)
  /\ (has_char LF (pre ++ u "'" ++ rest) = false ->
      has_char CR (pre ++ u "'" ++ rest) = false ->
      forall (filename lead after wl wa : str) (fs : gmap str file),
        recognised filename = true ->
        lead = [] \/ (exists b, lead = b ++ [LF]) ->
        rewrite_text lead = (wl, None) ->
        rewrite_text after = (wa, None) ->
        (fs !! filename
         = Some (Text (lead ++ (pre ++ u "'" ++ rest) ++ [LF] ++ after)) ->
         make_insensitive filename fs
         = (<[out_filename filename
              := Text (wl ++ (pre ++ u "'" ++ rest) ++ [LF] ++ wa)]> fs,
            Returned))
        /\ (fs !! filename = Some (Text (lead ++ pre ++ u "'" ++ rest)) ->
            make_insensitive filename fs
            = (<[out_filename filename
                 := Text (wl ++ pre ++ u "'" ++ rest)]> fs,
               Returned))).
Proof.
  intros Hpre Hrest. literals. cbn [app].
  pose proof (rewrite_line_unterminated pre rest Hpre Hrest) as Hline.
  split; [exact Hline |].
  intros Hlf Hcr filename lead after wl wa fs Hr Hlead Hl Ha.
  set (line := pre ++ QUOTE :: rest) in *.
  assert (Hne : line <> []) by (subst line; now destruct pre).
  assert (Hlast : rewrite_text line = (line, None)).
  { now rewrite (rewrite_text_last_line _ Hlf Hcr Hne), Hline. }
  assert (Hone : rewrite_text (line ++ [LF]) = (line ++ [LF], None)).
  { rewrite (rewrite_text_line _ Hlf Hcr).
    destruct (rewrite_line_lf line Hlf) as [-> _]. now rewrite Hline. }
  assert (Hrest' : rewrite_text (line ++ LF :: after)
                   = (line ++ LF :: wa, None)).
  { rewrite rewrite_text_cut, Hone, Ha. now rewrite app_ass. }
  split; intros Hin; rewrite (make_insensitive_text _ _ _ Hr Hin);
    destruct Hlead as [-> | [b ->]].
  - cbn [app] in *. injection Hl as <-. now rewrite Hrest'.
  - rewrite app_ass. cbn [app]. rewrite rewrite_text_cut, Hl, Hrest'. reflexivity.
  - cbn [app] in *. injection Hl as <-. now rewrite Hlast.
  - rewrite app_ass. cbn [app]. rewrite rewrite_text_cut, Hl, Hlast. reflexivity.
Qed.

Lemma open_quote_line :
  rewrite_line (u "KEY 'abc") = Ok (u "KEY 'abc")
  /\ make_insensitive (u "K.g4.in")
       {[ u "K.g4.in" := Text (u "A: 'a';" ++ [LF] ++ u "KEY 'abc" ++ [LF] ++ u "B: 'b';") ]}
     = (<[ out_filename (u "K.g4.in")
           := Text ((u "A: [Aa];" ++ [LF]) ++ u "KEY 'abc" ++ [LF] ++ u "B: [Bb];") ]>
          {[ u "K.g4.in" := Text (u "A: 'a';" ++ [LF] ++ u "KEY 'abc" ++ [LF] ++ u "B: 'b';") ]},
        Returned)
  /\ make_insensitive (u "K.g4.in") {[ u "K.g4.in" := Text (u "KEY 'abc") ]}
     = (<[ out_filename (u "K.g4.in") := Text (u "KEY 'abc") ]>
          {[ u "K.g4.in" := Text (u "KEY 'abc") ]},
        Returned).
Proof.
  destruct (unterminated_quote_passes_through (u "KEY ") (u "abc") eq_refl eq_refl)
    as [Hline Hfile].
  split; [exact Hline |].
  split.
  - refine (proj1 (Hfile eq_refl eq_refl (u "K.g4.in") (u "A: 'a';" ++ [LF])
                     (u "B: 'b';") (u "A: [Aa];" ++ [LF]) (u "B: [Bb];")
                     {[ u "K.g4.in" := Text (u "A: 'a';" ++ [LF] ++ u "KEY 'abc" ++ [LF] ++ u "B: 'b';") ]}
                     eq_refl _ eq_refl eq_refl) eq_refl).
    right. now exists (u "A: 'a';").
  - refine (proj2 (Hfile eq_refl eq_refl (u "K.g4.in") [] [] [] []
                     {[ u "K.g4.in" := Text (u "KEY 'abc") ]}
                     eq_refl _ eq_refl eq_refl) eq_refl).
    now left.
Defined.

(** C2, as the specification words it, fails on a literal that holds the
    marker: the line [DIV: '//';] has its first marker inside the quotes,
    and the marker is rewritten with the rest of the literal. *)
Lemma comment_tail_rewritten_inside_literal :
  rewrite_line (u "DIV: '//';") = Ok (u "DIV: [//][//];")
  /\ ~ keeps_comment_tail (u "DIV: '//';").
Proof.
  split; [reflexivity |]. intros H.
  destruct (H (u "DIV: '") (u "';") eq_refl eq_refl) as [pre' E].
  pose proof (endswith_app pre' (u "//" ++ u "';")) as Hend.
  assert (Hval : rewrite_line (u "DIV: '//';") = Ok (u "DIV: [//][//];"))
    by reflexivity.
  rewrite Hval in E.
  assert (E' : u "DIV: [//][//];" = pre' ++ u "//" ++ u "';") by congruence.
  rewrite <- E' in Hend. vm_compute in Hend. discriminate.
Qed.

(** C2, amended.  Let the first comment marker of a line stand after
    [pre].  Unless a literal opened before the marker is closed only after
    it (exactly one quote in [pre] and a quote after the marker), the
    rewriter does with the line what it does with [pre] alone, and where
    it writes the line the text from the marker on is written as it was
    read.  In the excepted case the literal runs from the quote in [pre]
    to the first quote after the marker: where the rewriter writes the
    line, the text between the two quotes, marker included, is replaced by
    one bracket expression for each character of that text upper-cased,
    and the text before the first and after the second quote is written as
    it was read; it raises [TypeError] when the text between the quotes
    holds U+0130. *)
Theorem comment_tail_kept (pre rest : str) :
  has_marker (pre ++ u "/") = false ->
  (count_quotes pre <> 1%nat \/ has_quote rest = false ->
   rewrite_line (pre ++ u "//" ++ rest)
   = (fun out => out ++ u "//" ++ rest) <$> rewrite_line pre)
  /\ (forall p0 p1 r0 r1 : str,
        pre = p0 ++ u "'" ++ p1 -> has_quote p0 = false -> has_quote p1 = false ->
        rest = r0 ++ u "'" ++ r1 -> has_quote r0 = false ->
        rewrite_line (pre ++ u "//" ++ rest)
        = if has_char DOTTED_I (p1 ++ u "//" ++ r0) then Raise TypeError
          else Ok (p0 ++ expand_each (Py.upper (p1 ++ u "//" ++ r0)) ++ r1)).
Proof.
  intros Hfirst. literals. split.
  - intros Hspan. destruct (has_quote pre) eqn:Hq.
    2: { now rewrite rewrite_line_marker_first, rewrite_line_no_quote. }
    destruct (split_first _ _ Hq) as (p0 & p1 & -> & Hp0).
    assert (Hm0 : has_marker p0 = false).
    { apply has_marker_app_l in Hfirst. now apply has_marker_app_l in Hfirst. }
    destruct (has_quote p1) eqn:Hq1.
    + destruct (split_first _ _ Hq1) as (mid & p2 & -> & Hmid).
      rewrite !app_ass. cbn [app]. rewrite !app_ass. cbn [app].
      rewrite !rewrite_line_literal by assumption.
      destruct (insens_of mid); [| reflexivity].
      rewrite !fmap_ok. now rewrite !app_ass.
    + assert (Hrest : has_quote rest = false).
      { destruct Hspan as [Hc|Hr]; [| exact Hr]. exfalso. apply Hc.
        unfold count_quotes. rewrite count_char_app. cbn [count_char].
        rewrite N.eqb_refl.
        now rewrite (count_char_none _ _ Hp0), (count_char_none _ _ Hq1). }
      rewrite !app_ass. cbn [app].
      rewrite !rewrite_line_unterminated; try assumption.
      * rewrite fmap_ok. now rewrite !app_ass.
      * unfold has_quote in *. rewrite !has_char_app, Hq1. exact Hrest.
  - intros p0 p1 r0 r1 -> Hp0 Hp1 -> Hr0.
    assert (Hm0 : has_marker p0 = false).
    { apply has_marker_app_l in Hfirst. now apply has_marker_app_l in Hfirst. }
    assert (Hmid : has_quote (p1 ++ [SLASH; SLASH] ++ r0) = false).
    { unfold has_quote in *. now rewrite !has_char_app, Hp1, Hr0. }
    replace ((p0 ++ [QUOTE] ++ p1) ++ [SLASH; SLASH] ++ r0 ++ [QUOTE] ++ r1)
      with (p0 ++ QUOTE :: (p1 ++ [SLASH; SLASH] ++ r0) ++ QUOTE :: r1)
      by (cbn [app]; rewrite !app_ass; reflexivity).
    rewrite (rewrite_line_literal _ _ _ Hp0 Hm0 Hmid), insens_of_spec.
    now destruct (has_char DOTTED_I _).
Qed.

Lemma trailing_comment_line :
  rewrite_line (u "KEY 'abc' " ++ u "//" ++ u " it's here")
  = (fun out => out ++ u "//" ++ u " it's here") <$> rewrite_line (u "KEY 'abc' ").
Proof.
  refine (proj1 (comment_tail_kept (u "KEY 'abc' ") (u " it's here") eq_refl) _).
  left. vm_compute. discriminate.
Defined.

(** ** File names *)

(** C7.  For a name that ends in [.g4.in] the output name is the input
    name without its last three characters [.in]: putting [.in] back gives
    the input name, the output name ends in [.g4], and this is the name of
    the file that the rewriter opens for writing once it has found the
    input file: however the call ends, the file system it leaves is the
    one it found with the file of that name written. *)
Theorem out_filename_drops_in (filename : str) :
  Py.endswith filename (u ".g4.in") = true ->
  out_filename filename ++ u ".in" = filename
  /\ Py.endswith (out_filename filename) (u ".g4") = true
  /\ (forall (fs : gmap str file) (data : file),
        fs !! filename = Some data ->
        exists written,
          (make_insensitive filename fs).1
          = <[out_filename filename := Text written]> fs).
Proof.
  intros H. destruct (recognised_split filename H) as (base & E & Hout).
  split; [now apply out_filename_in |].
  split; [rewrite Hout; apply endswith_app |].
  intros fs [content|s] Hin.
  - rewrite (make_insensitive_text _ _ _ H Hin). eauto.
  - destruct (make_insensitive_damaged _ _ _ H Hin) as (written & e & ->). eauto.
Qed.

Lemma keywords_file_name :
  out_filename (u "Keywords.g4.in") = u "Keywords.g4"
  /\ out_filename (u "Keywords.g4.in") ++ u ".in" = u "Keywords.g4.in".
Proof.
  split; [reflexivity |].
  exact (proj1 (out_filename_drops_in (u "Keywords.g4.in") eq_refl)).
Defined.

(** ** The command driver *)

(** C8.  An argument that does not end in [.g4.in] costs one warning line
    and nothing else: the loop goes on with the remaining arguments; the
    files and the way the run ends are those of the run without that
    argument; and when it is the only argument the run ends with status
    0, the warning printed and no file touched. *)
Theorem unrecognized_name_skipped (filename : str) (names : list str) (w : world) :
  Py.endswith filename (u ".g4.in") = false ->
  for_filenames (filename :: names) w
  = for_filenames names
      (World (stdout w ++ warning_for filename ++ [LF]) (files w))
  /\ files (for_filenames (filename :: names) w).1
     = files (for_filenames names w).1
  /\ (for_filenames (filename :: names) w).2 = (for_filenames names w).2
  /\ (forall prog : str,
        main [prog; filename] w
        = (World (stdout w ++ warning_for filename ++ [LF]) (files w),
           Exits 0)).
Proof.
  intros H.
  assert (Hstep : for_filenames (filename :: names) w
                  = for_filenames names
                      (World (stdout w ++ warning_for filename ++ [LF])
                         (files w))).
  { cbn [for_filenames]. now rewrite H. }
  split; [exact Hstep |]. rewrite Hstep. destruct w as [o fs]. cbn [stdout files].
  split; [apply for_filenames_ignores_stdout |].
  split; [apply for_filenames_ignores_stdout |].
  intros prog. unfold main. cbn [length Nat.eqb drop for_filenames].
  now rewrite H.
Qed.

Lemma notes_txt_run :
  main [u "make_ci.py"; u "notes.txt"] (World [] ∅)
  = (World (u "WARNING:  Unrecognized file-type for notes.txt, skipping." ++ [LF]) ∅,
     Exits 0).
Proof.
  destruct (unrecognized_name_skipped (u "notes.txt") [] (World [] ∅) eq_refl)
    as (_ & _ & _ & Hmain).
  exact (Hmain (u "make_ci.py")).
Defined.

(** C3, as the specification words it, fails: the usage text takes three
    lines, not two. *)
Lemma usage_is_not_two_lines :
  ~ (printed_lines (stdout (main [u "make_ci.py"] (World [] ∅)).1) = 2%nat
     /\ exit_status (main [u "make_ci.py"] (World [] ∅)).2 = Some 1).
Proof. intros [H _]. vm_compute in H. discriminate. Qed.

(** C3, amended.  Run without a file argument, the program prints the
    usage text on standard output, touches no file and ends with status
    1; the usage text takes three lines: the usage line and two indented
    lines of explanation. *)
Theorem usage_on_no_arguments (prog : str) (w : world) :
  main [prog] w = (World (stdout w ++ usage_text prog) (files w), Exits 1)
  /\ exit_status (main [prog] w).2 = Some 1
  /\ (has_char LF prog = false -> printed_lines (usage_text prog) = 3%nat).
Proof.
  split; [| split; [reflexivity | apply count_char_usage_text]].
  unfold main, print, usage_text. cbn [length Nat.eqb nth stdout files].
  do 2 f_equal. rewrite ?app_ass. cbn [app]. now rewrite ?app_ass.
Qed.

Lemma make_ci_usage_lines :
  printed_lines (usage_text (u "make_ci.py")) = 3%nat.
Proof.
  exact (proj2 (proj2 (usage_on_no_arguments (u "make_ci.py") (World [] ∅))) eq_refl).
Defined.

(** ** The expansion and the case of letters *)

(** C9.  Two quoted texts that are equal once upper-cased yield the same
    bracket expressions, the same joined expansion, and, in the same
    surroundings, the same rewritten line. *)
Theorem expansion_ignores_case (t1 t2 : str) :
  Py.upper t1 = Py.upper t2 ->
  brackets (Py.upper t1) = brackets (Py.upper t2)
  /\ insens_of t1 = insens_of t2
  /\ (forall pre post : str,
        has_quote pre = false -> has_marker pre = false ->
        has_quote t1 = false -> has_quote t2 = false ->
        rewrite_line (pre ++ u "'" ++ t1 ++ u "'" ++ post)
        = rewrite_line (pre ++ u "'" ++ t2 ++ u "'" ++ post)).
Proof.
  intros H.
  assert (Hins : insens_of t1 = insens_of t2) by (unfold insens_of; now rewrite H).
  split; [now rewrite H |]. split; [exact Hins |].
  intros pre post Hpre Hmark H1 H2. literals. cbn [app].
  now rewrite !rewrite_line_literal, Hins by assumption.
Qed.

Lemma select_mixed_case :
  insens_of (u "Select") = insens_of (u "SELECT")
  /\ rewrite_line (u "K: 'Select';") = rewrite_line (u "K: 'SELECT';").
Proof.
  destruct (expansion_ignores_case (u "Select") (u "SELECT") eq_refl)
    as (_ & Hins & Hline).
  split; [exact Hins |].
  exact (Hline (u "K: ") (u ";") eq_refl eq_refl eq_refl eq_refl).
Defined.

(** C10.  A character without an upper-case/lower-case distinction is its
    own upper-case form and gives the bracket expression that holds it
    twice; inside a recognised literal that expression stands between the
    expansions of what stands before and after it in the literal (and the
    line raises where one of these raises); and an empty literal expands
    to nothing, so that both quotes disappear. *)
Theorem caseless_character_doubled :
  (forall c : N,
      caseless c ->
      Py.upper [c] = [c] /\ bracket c = Ok (u "[" ++ [c; c] ++ u "]"))
  /\ (forall (c : N) (pre before after post : str),
        caseless c ->
        has_quote pre = false -> has_marker pre = false ->
        has_quote (before ++ c :: after) = false ->
        rewrite_line (pre ++ u "'" ++ (before ++ c :: after) ++ u "'" ++ post)
        = b ← insens_of before; a ← insens_of after;
          Ok (pre ++ b ++ (u "[" ++ [c; c] ++ u "]") ++ a ++ post))
  /\ insens_of [] = Ok []
  /\ (forall pre post : str,
        has_quote pre = false -> has_marker pre = false ->
        rewrite_line (pre ++ u "''" ++ post) = Ok (pre ++ post)).
Proof.
  assert (Hone : forall c, caseless c ->
            Py.upper [c] = [c] /\ bracket c = Ok (u "[" ++ [c; c] ++ u "]")).
  { intros c [Hu Hl]. split.
    - cbn [Py.upper]. now rewrite Hu.
    - unfold bracket. now rewrite Hl. }
  split; [exact Hone |]. split; [| split; [reflexivity |]].
  - intros c pre before after post Hc Hpre Hmark Hmid. literals. cbn [app].
    rewrite rewrite_line_literal by assumption.
    change (c :: after) with ([c] ++ after).
    rewrite insens_of_app, (insens_of_app [c] after).
    destruct (Hone c Hc) as [Hu Hb].
    assert (Hc1 : insens_of [c] = Ok [91%N; c; c; 93%N]).
    { unfold insens_of. rewrite Hu. cbn [brackets]. rewrite Hb. reflexivity. }
    rewrite Hc1.
    destruct (insens_of before) as [b|]; [| reflexivity].
    destruct (insens_of after) as [a|]; [| reflexivity].
    cbn. now rewrite !app_ass.
  - intros pre post Hpre Hmark.
    change (pre ++ u "''" ++ post) with (pre ++ QUOTE :: [] ++ QUOTE :: post).
    now rewrite rewrite_line_literal.
Qed.

Lemma digit_and_empty_literal :
  rewrite_line (u "T: 'a0 b';") = Ok (u "T: [Aa][00][  ][Bb];")
  /\ rewrite_line (u "E: '';") = Ok (u "E: ;").
Proof.
  destruct caseless_character_doubled as (_ & Hchar & _ & Hempty).
  split.
  - exact (Hchar 48%N (u "T: ") (u "a") (u " b") (u ";")
             (conj eq_refl eq_refl) eq_refl eq_refl eq_refl).
  - exact (Hempty (u "E: ") (u ";") eq_refl eq_refl).
Defined.

(** * Further properties of the code *)

Section AsciiFacts.

Lemma ascii_brackets_checked :
  forallb ascii_bracket_ok (map N.of_nat (seq 0 128)) = true.
Proof. vm_compute. reflexivity. Qed.

Lemma ascii_bracket_checked (c : N) : (c < 128)%N -> ascii_bracket_ok c = true.
Proof.
  intros H. pose proof ascii_brackets_checked as Hall.
  rewrite forallb_forall in Hall. apply Hall.
  apply in_map_iff. exists (N.to_nat c). split; [apply N2Nat.id |].
  apply in_seq. lia.
Qed.

End AsciiFacts.

(** ** Lines *)

(** X1.  A line is written changed, or not written at all, exactly when it
    holds a literal: a first quote that no comment marker precedes, and a
    later quote that closes it. *)
Theorem line_changed_iff_literal (line : str) :
  rewrite_line line <> Ok line
  <-> exists pre mid post,
        line = pre ++ u "'" ++ mid ++ u "'" ++ post
        /\ has_quote pre = false /\ has_marker pre = false
        /\ has_quote mid = false.
Proof.
  split.
  - intros Hne.
    destruct (line_shapes line) as [H | pre rest -> H | pre rest -> H1 H2
                                   | pre mid post -> H1 H2 H3].
    + now rewrite (rewrite_line_no_quote _ H) in Hne.
    + literals. now rewrite (rewrite_line_marker_first _ _ H) in Hne.
    + literals. cbn [app] in Hne.
      now rewrite (rewrite_line_unterminated _ _ H1 H2) in Hne.
    + exists pre, mid, post. now repeat split.
  - intros (pre & mid & post & -> & H1 & H2 & H3). literals. cbn [app].
    rewrite (rewrite_line_literal _ _ _ H1 H2 H3).
    destruct (insens_of mid) as [e|] eqn:He; [| discriminate].
    rewrite fmap_ok. intros [= E].
    apply (f_equal count_quotes) in E.
    destruct (count_quotes_literal pre mid post e H1 H3 He) as [Hl Hr].
    rewrite Hl, Hr in E. lia.
Qed.

(** X2.  Where a text has an expansion, the expansion is four times as
    long as the upper-cased text (two brackets and two characters for each
    of its characters), and the upper-cased text is at least as long as
    the text. *)
Theorem expansion_length (text e : str) :
  insens_of text = Ok e ->
  length e = (4 * length (Py.upper text))%nat
  /\ (length text <= length (Py.upper text))%nat.
Proof.
  intros H. split; [now apply length_insens_of | apply length_upper].
Qed.

Lemma sharp_s_expansion_length :
  length (u "[Ss][Ss]") = (4 * length (Py.upper [223%N]))%nat
  /\ (length [223%N] <= length (Py.upper [223%N]))%nat.
Proof. exact (expansion_length [223%N] (u "[Ss][Ss]") eq_refl). Defined.

(** X3.  The rewriter adds no quote to a line: a line that is written has
    as many quotes as the line read, or two fewer. *)
Theorem quotes_never_added (line out : str) :
  rewrite_line line = Ok out ->
  count_quotes out = count_quotes line
  \/ (count_quotes out + 2)%nat = count_quotes line.
Proof.
  destruct (line_shapes line) as [H | pre rest -> H | pre rest -> H1 H2
                                 | pre mid post -> H1 H2 H3]; literals.
  - rewrite (rewrite_line_no_quote _ H). intros [= <-]. now left.
  - rewrite (rewrite_line_marker_first _ _ H). intros [= <-]. now left.
  - cbn [app]. rewrite (rewrite_line_unterminated _ _ H1 H2).
    intros [= <-]. now left.
  - cbn [app]. rewrite (rewrite_line_literal _ _ _ H1 H2 H3).
    destruct (insens_of mid) as [e|] eqn:He; [| discriminate].
    rewrite fmap_ok. intros [= <-]. right.
    destruct (count_quotes_literal pre mid post e H1 H3 He) as [-> ->]. lia.
Qed.

Lemma quotes_of_two_literals :
  count_quotes (u "A: [Aa] 'b';") = count_quotes (u "A: 'a' 'b';")
  \/ (count_quotes (u "A: [Aa] 'b';") + 2)%nat = count_quotes (u "A: 'a' 'b';").
Proof.
  exact (quotes_never_added (u "A: 'a' 'b';") (u "A: [Aa] 'b';") eq_refl).
Defined.

(** X4.  The expansion of one ASCII character is a bracket expression of
    two characters that are the upper-case and the lower-case form of each
    other, and the character itself is one of the two. *)
Theorem original_spelling_in_bracket (c : N) :
  (c < 128)%N ->
  exists U l : N,
    insens_of [c] = Ok (u "[" ++ [U; l] ++ u "]")
    /\ (c = U \/ c = l)
    /\ chr_upper l = [U] /\ chr_lower U = [l].
Proof.
  intros H. apply ascii_bracket_checked in H. unfold ascii_bracket_ok in H.
  destruct (chr_upper c) as [|U [|? ?]] eqn:Hu; try discriminate.
  destruct (chr_lower U) as [|l [|? ?]] eqn:Hl; try discriminate.
  apply andb_prop in H as [Hc Hul]. apply bool_decide_eq_true in Hul.
  exists U, l. split; [| split; [| now split]].
  - unfold insens_of. cbn [Py.upper]. rewrite Hu. cbn [app brackets].
    unfold bracket. now rewrite Hl.
  - apply orb_prop in Hc as [Hc|Hc]; apply N.eqb_eq in Hc; auto.
Qed.

Lemma spelling_of_small_s :
  exists U l : N,
    insens_of [115%N] = Ok (u "[" ++ [U; l] ++ u "]")
    /\ (115%N = U \/ 115%N = l)
    /\ chr_upper l = [U] /\ chr_lower U = [l].
Proof. apply (original_spelling_in_bracket 115). reflexivity. Defined.

(** X5.  Where a text has an expansion, another text has the same
    expansion exactly when the two are equal once upper-cased. *)
Theorem expansion_same_iff_upper_same (t1 t2 e : str) :
  insens_of t1 = Ok e ->
  (insens_of t2 = Ok e <-> Py.upper t1 = Py.upper t2).
Proof.
  intros H1. split.
  - intros H2. now apply (insens_of_upper_inj t1 t2 e).
  - intros H. rewrite <- H1. unfold insens_of. now rewrite H.
Qed.

Lemma same_expansion_of_sharp_s :
  insens_of (u "ss") = Ok (u "[Ss][Ss]")
  <-> Py.upper [223%N] = Py.upper (u "ss").
Proof.
  exact (expansion_same_iff_upper_same [223%N] (u "ss") (u "[Ss][Ss]") eq_refl).
Defined.

(** X6.  The line feed that ends a line is written after the rewritten
    line (and the line with its line feed raises where the line without
    it does), and rewriting a line without a line feed gives a line without
    one. *)
Theorem line_feed_stays_last (body : str) :
  has_char LF body = false ->
  rewrite_line (body ++ [LF]) = (fun out => out ++ [LF]) <$> rewrite_line body
  /\ (forall out, rewrite_line body = Ok out -> has_char LF out = false).
Proof. apply rewrite_line_lf. Qed.

Lemma select_line_with_line_feed :
  rewrite_line (u "A: 'a';" ++ [LF])
  = (fun out => out ++ [LF]) <$> rewrite_line (u "A: 'a';")
  /\ (forall out, rewrite_line (u "A: 'a';") = Ok out -> has_char LF out = false).
Proof. exact (line_feed_stays_last (u "A: 'a';") eq_refl). Defined.

(** X22.  A line whose first quote stands before any comment marker and is
    closed by a later quote raises [TypeError] when the text between the
    quotes holds U+0130; otherwise it is written as the text before the
    opening quote, then one bracket expression (upper-case form, lower-case
    form) for each character of the upper-cased text between the quotes,
    with nothing between the expressions, then everything after the closing
    quote, the line terminator included. *)
Theorem literal_is_expanded (pre mid post : str) :
  has_quote pre = false -> has_marker pre = false -> has_quote mid = false ->
  rewrite_line (pre ++ u "'" ++ mid ++ u "'" ++ post)
  = if has_char DOTTED_I mid then Raise TypeError
    else Ok (pre ++ expand_each (Py.upper mid) ++ post).
Proof.
  intros Hpre Hmark Hmid. literals. cbn [app].
  rewrite (rewrite_line_literal _ _ _ Hpre Hmark Hmid), insens_of_spec.
  now destruct (has_char DOTTED_I mid).
Qed.

Lemma select_keyword_line :
  rewrite_line (u "SELECT: 'select';" ++ [LF])
  = Ok (u "SELECT: [Ss][Ee][Ll][Ee][Cc][Tt];" ++ [LF]).
Proof.
  exact (literal_is_expanded (u "SELECT: ") (u "select") (u ";" ++ [LF])
           eq_refl eq_refl eq_refl).
Defined.

(** ** Texts *)

(** X7.  For a keyword file that is there and decodes, [make_insensitive]
    stores under the output name the lines of the input, each one
    rewritten, in order and with nothing between them, up to the first
    line that raises, and ends on that exception or returns; the lines are
    the pieces of the input, read with universal newlines, cut after each
    line feed. *)
Theorem output_is_rewritten_lines (filename content : str)
    (fs : gmap str file) :
  recognised filename = true -> fs !! filename = Some (Text content) ->
  make_insensitive filename fs
  = (<[out_filename filename
       := Text (rewrite_lines (readlines (universal_newlines content))).1]> fs,
     match (rewrite_lines (readlines (universal_newlines content))).2 with
     | None => Returned
     | Some e => Raised e
     end)
  /\ Py.join (readlines (universal_newlines content)) = universal_newlines content
  /\ Forall one_line (readlines (universal_newlines content)).
Proof.
  intros Hr Hin. split; [| split].
  - now apply make_insensitive_text.
  - apply join_readlines.
  - apply readlines_one_line.
Qed.

Lemma two_line_keyword_file :
  make_insensitive (u "K.g4.in")
    {[ u "K.g4.in" := Text (u "A: 'a';" ++ [CR; LF] ++ u "B: 'b';") ]}
  = (<[ out_filename (u "K.g4.in")
        := Text (rewrite_lines
                   (readlines
                      (universal_newlines
                         (u "A: 'a';" ++ [CR; LF] ++ u "B: 'b';")))).1 ]>
       {[ u "K.g4.in" := Text (u "A: 'a';" ++ [CR; LF] ++ u "B: 'b';") ]},
     match (rewrite_lines
              (readlines
                 (universal_newlines
                    (u "A: 'a';" ++ [CR; LF] ++ u "B: 'b';")))).2 with
     | None => Returned
     | Some e => Raised e
     end).
Proof.
  exact (proj1 (output_is_rewritten_lines (u "K.g4.in")
                  (u "A: 'a';" ++ [CR; LF] ++ u "B: 'b';")
                  {[ u "K.g4.in" := Text (u "A: 'a';" ++ [CR; LF] ++ u "B: 'b';") ]}
                  eq_refl eq_refl)).
Defined.

(** X8.  No state is carried from one line to the next: what the rewriter
    makes of a text cut after a line feed is what it makes of the first
    part, followed, where the first part raises nothing, by what it makes
    of the second. *)
Theorem lines_rewritten_independently (t1 t2 : str) :
  rewrite_text (t1 ++ LF :: t2)
  = match rewrite_text (t1 ++ [LF]) with
    | (w1, Some e) => (w1, Some e)
    | (w1, None) => let '(w2, e) := rewrite_text t2 in (w1 ++ w2, e)
    end.
Proof. apply rewrite_text_cut. Qed.

(** X9.  A text rewritten to its end comes out with as many line feeds as
    it has when read with universal newlines: one for each line
    terminator of the input. *)
Theorem line_count_preserved (content written : str) :
  rewrite_text content = (written, None) ->
  count_char LF written = count_char LF (universal_newlines content).
Proof.
  unfold rewrite_text. intros H.
  rewrite <- (join_readlines (universal_newlines content)).
  apply count_lf_rewrite_lines; [apply readlines_one_line | exact H].
Qed.

Lemma line_count_of_mixed_terminators :
  count_char LF (u "A: [Aa];" ++ [LF] ++ u "b" ++ [LF] ++ u "c" ++ [LF])
  = count_char LF
      (universal_newlines (u "A: 'a';" ++ [CR; LF] ++ u "b" ++ [CR] ++ u "c" ++ [LF])).
Proof.
  exact (line_count_preserved
           (u "A: 'a';" ++ [CR; LF] ++ u "b" ++ [CR] ++ u "c" ++ [LF])
           (u "A: [Aa];" ++ [LF] ++ u "b" ++ [LF] ++ u "c" ++ [LF]) eq_refl).
Defined.

(** X10.  A keyword file that decodes and holds no quote is copied as it
    is read: with every line terminator written as a line feed, and
    nothing else changed. *)
Theorem file_without_quotes_copied (filename content : str)
    (fs : gmap str file) :
  recognised filename = true -> fs !! filename = Some (Text content) ->
  has_quote content = false ->
  make_insensitive filename fs
  = (<[out_filename filename := Text (universal_newlines content)]> fs, Returned).
Proof.
  intros Hr Hin Hq. rewrite (make_insensitive_text _ _ _ Hr Hin).
  now rewrite (rewrite_text_no_quote _ Hq).
Qed.

Lemma comment_only_file_copied :
  make_insensitive (u "K.g4.in")
    {[ u "K.g4.in" := Text (u "// k" ++ [CR; LF] ++ u "A;" ++ [CR; LF]) ]}
  = (<[ out_filename (u "K.g4.in")
        := Text (universal_newlines (u "// k" ++ [CR; LF] ++ u "A;" ++ [CR; LF])) ]>
       {[ u "K.g4.in" := Text (u "// k" ++ [CR; LF] ++ u "A;" ++ [CR; LF]) ]},
     Returned).
Proof.
  exact (file_without_quotes_copied (u "K.g4.in")
           (u "// k" ++ [CR; LF] ++ u "A;" ++ [CR; LF])
           {[ u "K.g4.in" := Text (u "// k" ++ [CR; LF] ++ u "A;" ++ [CR; LF]) ]}
           eq_refl eq_refl eq_refl).
Defined.

(** ** Files *)

(** X11.  A call of [make_insensitive] that returns has written the output
    file and nothing else: the input file and every file but the output
    are as before, and the output is another file than the input. *)
Theorem rewriter_touches_only_output (filename : str)
    (fs fs' : gmap str file) :
  make_insensitive filename fs = (fs', Returned) ->
  out_filename filename <> filename
  /\ is_Some (fs' !! out_filename filename)
  /\ fs' !! filename = fs !! filename
  /\ (forall other, other <> out_filename filename -> fs' !! other = fs !! other).
Proof.
  intros H. destruct (make_insensitive_returned _ _ _ H)
    as (Hr & content & written & Hin & _ & ->).
  assert (Hne : out_filename filename <> filename) by now apply out_filename_neq.
  split; [exact Hne |]. split; [rewrite lookup_insert_eq; eauto |].
  split; [now apply lookup_insert_ne |].
  intros other Ho. apply lookup_insert_ne. congruence.
Qed.

Lemma keywords_input_kept :
  out_filename (u "K.g4.in") <> u "K.g4.in"
  /\ is_Some (one_keyword_file_done !! out_filename (u "K.g4.in"))
  /\ one_keyword_file_done !! u "K.g4.in" = one_keyword_file !! u "K.g4.in"
  /\ (forall other, other <> out_filename (u "K.g4.in") ->
        one_keyword_file_done !! other = one_keyword_file !! other).
Proof.
  exact (rewriter_touches_only_output (u "K.g4.in") one_keyword_file
           one_keyword_file_done eq_refl).
Defined.

(** X12.  Two different keyword files never share their output file. *)
Theorem out_filename_injective (f g : str) :
  recognised f = true -> recognised g = true ->
  out_filename f = out_filename g -> f = g.
Proof. apply out_filename_inj. Qed.

Lemma same_output_same_input : u "K.g4.in" = u "K.g4.in".
Proof.
  exact (out_filename_injective (u "K.g4.in") (u "K.g4.in") eq_refl eq_refl eq_refl).
Defined.

(** X13.  The output name of a keyword file is not the name of a keyword
    file: the driver would skip it, and [make_insensitive] would refuse
    it with a [ValueError] and touch no file. *)
Theorem output_name_not_recognised (filename : str) (fs : gmap str file) :
  recognised filename = true ->
  recognised (out_filename filename) = false
  /\ make_insensitive (out_filename filename) fs
     = (fs, Raised (ValueError (u "Unrecognized file-type for "
                                  ++ out_filename filename))).
Proof.
  intros H. apply out_filename_not_recognised in H. split; [exact H |].
  now apply make_insensitive_unrecognised.
Qed.

Lemma keywords_output_refused :
  recognised (out_filename (u "K.g4.in")) = false
  /\ make_insensitive (out_filename (u "K.g4.in")) ∅
     = (∅, Raised (ValueError (u "Unrecognized file-type for "
                                 ++ out_filename (u "K.g4.in")))).
Proof. exact (output_name_not_recognised (u "K.g4.in") ∅ eq_refl). Defined.

(** X14.  Calling [make_insensitive] a second time on the same file, after
    a call that returned, returns and changes nothing. *)
Theorem second_call_changes_nothing (filename : str)
    (fs fs' : gmap str file) :
  make_insensitive filename fs = (fs', Returned) ->
  make_insensitive filename fs' = (fs', Returned).
Proof.
  intros H. destruct (make_insensitive_returned _ _ _ H)
    as (Hr & content & written & Hin & Hw & ->).
  rewrite (make_insensitive_text filename _ content Hr).
  - rewrite Hw. cbn [fst snd]. now rewrite insert_insert_eq.
  - rewrite lookup_insert_ne; [exact Hin |]. now apply out_filename_neq.
Qed.

Lemma keywords_second_call :
  make_insensitive (u "K.g4.in") one_keyword_file_done
  = (one_keyword_file_done, Returned).
Proof.
  exact (second_call_changes_nothing (u "K.g4.in") one_keyword_file
           one_keyword_file_done eq_refl).
Defined.

(** ** Runs of the driver *)

(** X15.  Whatever its arguments and however it ends, a run leaves every
    keyword file (every file whose name ends in [.g4.in]) as it found
    it. *)
Theorem run_keeps_keyword_files (argv : list str) (w : world) (g : str) :
  recognised g = true ->
  files (main argv w).1 !! g = files w !! g.
Proof.
  intros Hg. unfold main. destruct (length argv =? 1)%nat; [reflexivity |].
  now apply for_filenames_keeps_sources.
Qed.

Lemma keyword_file_after_run :
  files (main [u "make_ci.py"; u "K.g4.in"] (World [] one_keyword_file)).1
    !! u "K.g4.in"
  = one_keyword_file !! u "K.g4.in".
Proof.
  exact (run_keeps_keyword_files [u "make_ci.py"; u "K.g4.in"]
           (World [] one_keyword_file) (u "K.g4.in") eq_refl).
Defined.

(** X16.  A run with file arguments ends with status 0 exactly when every
    argument that names a keyword file names one that, at the start, is
    there, decodes, and has no line that raises; the arguments that are
    not recognised do not count. *)
Theorem run_succeeds_iff_rewritable (prog : str) (names : list str) (w : world) :
  names <> [] ->
  exit_status (main (prog :: names) w).2 = Some 0
  <-> Forall (fun f => recognised f = true -> rewritable (files w) f) names.
Proof.
  intros Hne. rewrite (main_runs _ _ _ Hne), <- for_filenames_exit_0.
  destruct (for_filenames names w).2 as [code| |]; cbn [exit_status];
    split; intros H; try discriminate; congruence.
Qed.

Lemma run_with_notes_and_keywords :
  exit_status (main [u "make_ci.py"; u "notes.txt"; u "K.g4.in"]
                 (World [] one_keyword_file)).2 = Some 0
  <-> Forall (fun f => recognised f = true -> rewritable one_keyword_file f)
        [u "notes.txt"; u "K.g4.in"].
Proof.
  refine (run_succeeds_iff_rewritable (u "make_ci.py")
            [u "notes.txt"; u "K.g4.in"] (World [] one_keyword_file) _).
  discriminate.
Defined.

(** X17.  A run never ends on the [ValueError] of [make_insensitive]: the
    driver hands it recognised names only. *)
Theorem driver_never_raises_value_error (argv : list str) (w : world)
    (msg : str) :
  (main argv w).2 <> Uncaught (ValueError msg).
Proof.
  unfold main. destruct (length argv =? 1)%nat; [discriminate |].
  destruct (for_filenames_ends (drop 1 argv) w) as [-> | (e & -> & He)];
    [discriminate |].
  intros [= ->]. now apply (He msg).
Qed.

(** X18.  A keyword file that is missing ends the run: the arguments after
    it are not looked at, and the status is 1. *)
Theorem missing_file_stops_run (f : str) (names1 names2 : list str)
    (w : world) :
  recognised f = true -> files w !! f = None ->
  for_filenames (names1 ++ f :: names2) w = for_filenames (names1 ++ [f]) w
  /\ exit_status (for_filenames (names1 ++ f :: names2) w).2 = Some 1.
Proof.
  intros Hr Hno.
  destruct (for_filenames_app names1 (f :: names2) w) as [Hok2 Hbad2].
  destruct (for_filenames_app names1 [f] w) as [Hok1 Hbad1].
  destruct (for_filenames_ends names1 w) as [H | (e & H & _)].
  - rewrite (Hok2 H), (Hok1 H).
    assert (Hf : files (for_filenames names1 w).1 !! f = None)
      by now rewrite for_filenames_keeps_sources.
    pose proof (make_insensitive_missing _ _ Hr Hf) as Hm.
    now rewrite !(for_filenames_raised _ _ _ _ _ Hr Hm).
  - assert (Hne : (for_filenames names1 w).2 <> Exits 0) by now rewrite H.
    rewrite (Hbad2 Hne), (Hbad1 Hne), H. now split.
Qed.

Lemma run_stops_at_missing_file :
  for_filenames ([u "notes.txt"] ++ u "L.g4.in" :: [u "K.g4.in"])
    (World [] one_keyword_file)
  = for_filenames ([u "notes.txt"] ++ [u "L.g4.in"]) (World [] one_keyword_file)
  /\ exit_status
       (for_filenames ([u "notes.txt"] ++ u "L.g4.in" :: [u "K.g4.in"])
          (World [] one_keyword_file)).2 = Some 1.
Proof.
  exact (missing_file_stops_run (u "L.g4.in") [u "notes.txt"] [u "K.g4.in"]
           (World [] one_keyword_file) eq_refl eq_refl).
Defined.

(** X19.  A run that ends with status 0 has printed one warning line for
    each argument that is not recognised, in the order of the arguments,
    and nothing else. *)
Theorem warnings_in_order (prog : str) (names : list str) (w : world) :
  (main (prog :: names) w).2 = Exits 0 ->
  stdout (main (prog :: names) w).1
  = stdout w
    ++ Py.join (map (fun f => warning_for f ++ [LF])
                  (List.filter (fun f => negb (recognised f)) names)).
Proof.
  intros H. pose proof (main_exit_0 _ _ _ H) as E. rewrite E in H |- *.
  now apply for_filenames_stdout.
Qed.

Lemma warnings_of_mixed_run :
  stdout (main [u "make_ci.py"; u "notes.txt"; u "K.g4.in"; u "b.g4"]
            (World [] one_keyword_file)).1
  = []
    ++ Py.join (map (fun f => warning_for f ++ [LF])
                  (List.filter (fun f => negb (recognised f))
                     [u "notes.txt"; u "K.g4.in"; u "b.g4"])).
Proof.
  exact (warnings_in_order (u "make_ci.py") [u "notes.txt"; u "K.g4.in"; u "b.g4"]
           (World [] one_keyword_file) eq_refl).
Defined.

(** X20.  After a run that ends with status 0, every keyword file named
    on the command line was there at the start, decoded and was rewritten
    to its end, and its output file holds what the rewriter makes of what
    the file held then. *)
Theorem run_writes_every_output (prog f : str) (names : list str) (w : world) :
  (main (prog :: names) w).2 = Exits 0 ->
  f ∈ names -> recognised f = true ->
  exists content written,
    files w !! f = Some (Text content)
    /\ rewrite_text content = (written, None)
    /\ files (main (prog :: names) w).1 !! out_filename f = Some (Text written).
Proof.
  intros H. pose proof (main_exit_0 _ _ _ H) as E. rewrite E in H |- *.
  now apply for_filenames_outputs.
Qed.

Lemma keyword_output_after_run :
  exists content written,
    one_keyword_file !! u "K.g4.in" = Some (Text content)
    /\ rewrite_text content = (written, None)
    /\ files (main [u "make_ci.py"; u "notes.txt"; u "K.g4.in"]
                (World [] one_keyword_file)).1 !! out_filename (u "K.g4.in")
       = Some (Text written).
Proof.
  refine (run_writes_every_output (u "make_ci.py") (u "K.g4.in")
            [u "notes.txt"; u "K.g4.in"]
            (World [] one_keyword_file) eq_refl _ eq_refl).
  repeat constructor.
Defined.

(** X21.  Running the driver again with the same arguments, after a run
    that ended with status 0, leaves every file as the first run left
    it. *)
Theorem rerun_changes_no_file (prog : str) (names : list str) (w : world) :
  (main (prog :: names) w).2 = Exits 0 ->
  files (main (prog :: names) (main (prog :: names) w).1).1
  = files (main (prog :: names) w).1.
Proof.
  intros H. pose proof (main_exit_0 _ _ _ H) as E. rewrite E in H |- *.
  assert (Hne : names <> []) by (intros ->; discriminate E).
  rewrite (main_runs _ _ _ Hne).
  pose proof (for_filenames_outputs names w) as Hout.
  pose proof (for_filenames_keeps_sources names w) as Hkeep.
  destruct (for_filenames names w).1 as [o fs]. cbn [files] in *.
  apply for_filenames_fixpoint. intros f Hin Hr.
  destruct (Hout f H Hin Hr) as (content & written & Hc & Hw & Hfs).
  exists content, written. repeat split; try assumption.
  now rewrite (Hkeep f Hr).
Qed.

Lemma rerun_of_keyword_run :
  files (main [u "make_ci.py"; u "K.g4.in"]
           (main [u "make_ci.py"; u "K.g4.in"] (World [] one_keyword_file)).1).1
  = files (main [u "make_ci.py"; u "K.g4.in"] (World [] one_keyword_file)).1.
Proof.
  exact (rerun_changes_no_file (u "make_ci.py") [u "K.g4.in"]
           (World [] one_keyword_file) eq_refl).
Defined.

(** ** A whole file *)

(** The end-to-end scenario of the specification: the one-line file
    [Keywords.g4.in] yields [Keywords.g4], and the input stays. *)
Example keywords_end_to_end :
  make_insensitive (u "Keywords.g4.in")
    {[ u "Keywords.g4.in" := Text (u "SELECT: 'select';") ]}
  = (<[ u "Keywords.g4" := Text (u "SELECT: [Ss][Ee][Ll][Ee][Cc][Tt];") ]>
       {[ u "Keywords.g4.in" := Text (u "SELECT: 'select';") ]},
     Returned).
Proof. reflexivity. Qed.

(** A file with a carriage return and line feed, a literal outside ASCII
    and, on its last line, the literal that raises: the output keeps what
    was written before the exception. *)
Example damaged_run_end_to_end :
  make_insensitive (u "K.g4.in")
    {[ u "K.g4.in"
       := Text (u "E: '" ++ [233%N] ++ u "';" ++ [CR; LF]
                  ++ u "I: '" ++ [DOTTED_I] ++ u "';" ++ [LF]) ]}
    = (<[ u "K.g4" := Text (u "E: [" ++ [201%N; 233%N] ++ u "];" ++ [LF]) ]>
         {[ u "K.g4.in"
            := Text (u "E: '" ++ [233%N] ++ u "';" ++ [CR; LF]
                       ++ u "I: '" ++ [DOTTED_I] ++ u "';" ++ [LF]) ]},
       Raised TypeError).
Proof. reflexivity. Qed.

(** A file that does not decode: the lines handed over before the chunk
    that fails are rewritten and kept, an unfinished line is not, and the
    call ends on [UnicodeDecodeError]. *)
Example undecodable_file_end_to_end :
  make_insensitive (u "K.g4.in")
    {[ u "K.g4.in" := Damaged (u "A: 'a';" ++ [LF] ++ u "B: 'b") ]}
  = (<[ u "K.g4" := Text (u "A: [Aa];" ++ [LF]) ]>
       {[ u "K.g4.in" := Damaged (u "A: 'a';" ++ [LF] ++ u "B: 'b") ]},
     Raised UnicodeDecodeError)
  /\ make_insensitive (u "K.g4.in") {[ u "K.g4.in" := Damaged [] ]}
     = (<[ u "K.g4" := Text [] ]> {[ u "K.g4.in" := Damaged [] ]},
        Raised UnicodeDecodeError).
Proof. split; reflexivity. Qed.
